(** * Marque AI crime-detection app (src/app.py): model and properties

    A shallow embedding of the Streamlit script [app.py].

    - Python [str] values are [string]s (UTF-8 bytes); [dict]s with a fixed
      key set are records, the table [WEAPON_SEVERITY] is a [gmap].
    - Python [float]s are binary64 [float]s, the integer box coordinates
      are [Z].
    - [st.session_state], the [st.cache_resource] cache, the list objects
      that hold incidents and the messages put on the page form a [World];
      code runs in a state-and-exception monad [M] over it.
    - The pretrained pipelines, the image decoder, [str.lower] and the
      wall clock are outside the script: they are section variables or
      inputs of a script run.
    - Calls that only draw on the page (images, charts, the map, the PDF
      report, the JSON export) are taken to return and are left out,
      except the messages the properties speak about. Two behaviours of
      Streamlit itself are part of the model: a hit of the
      [st.cache_resource] cache puts the elements of the cached call on the
      page again, and a key given to a second element in one run raises
      (the download buttons of the history page). *)

From Stdlib Require Import ZArith List String Ascii Bool Lia.
From Stdlib Require Import Floats.PrimFloat Numbers.DecimalString Numbers.DecimalN.
From stdpp Require Import base option list gmap strings.

Set Warnings "-inexact-float".
Open Scope string_scope.
Open Scope list_scope.

(** ** Strings *)

(** [sub in s] on Python strings. *)
Fixpoint str_in (sub s : string) : bool :=
  String.prefix sub s ||
  match s with
  | EmptyString => false
  | String _ s' => str_in sub s'
  end.

(** ASCII white space as [str.isspace] sees it. *)
Definition is_space (c : ascii) : bool :=
  let n := nat_of_ascii c in
  (Nat.leb 9 n && Nat.leb n 13) || (Nat.leb 28 n && Nat.leb n 32).

Fixpoint split_from (word s : string) : list string :=
  match s with
  | EmptyString => if String.eqb word "" then [] else [word]
  | String c s' =>
      if is_space c
      then (if String.eqb word "" then split_from "" s'
            else word :: split_from "" s')
      else split_from (word +:+ String c "") s'
  end.

(** [s.split()]: the maximal runs of non-blank characters of [s]. *)
Definition split (s : string) : list string := split_from "" s.

(** [str.lower] restricted to the ASCII letters; the instance used when a
    label is plain ASCII, as the class names of the detector are. *)
Definition ascii_lower_char (c : ascii) : ascii :=
  let n := nat_of_ascii c in
  if Nat.leb 65 n && Nat.leb n 90 then ascii_of_nat (n + 32) else c.

Fixpoint ascii_lower (s : string) : string :=
  match s with
  | EmptyString => EmptyString
  | String c s' => String (ascii_lower_char c) (ascii_lower s')
  end.

(** ** Data model *)

(** [result['box']] of the object-detection pipeline. *)
Record Box := { xmin : Z; ymin : Z; xmax : Z; ymax : Z }.

(** One item of the detector's output. *)
Record DetectorOutput := { label : string; score : float; box : Box }.

(** A value of [WEAPON_SEVERITY]. *)
Module Entry.
Record t := { severity : string; alert_level : string; risk : string }.
End Entry.

(** A dict appended to [detected_weapons]. *)
Module Detection.
Record t := {
  weapon : string;
  confidence : float;
  box : Box;
  severity : string;
  alert_level : string;
  risk : string
}.
End Detection.

Module Location.
Record t := {
  county : string;
  sub_county : string;
  ward : string;
  location : string;
  latitude : float;
  longitude : float
}.
End Location.

Module Incident.
Record t := {
  id : string;
  timestamp : string;
  detected_weapons : list Detection.t;
  alert_level : string;
  severity : string;
  risk_assessment : string;
  location : Location.t;
  status : string;
  recommendations : string
}.
End Incident.

Definition KENYA_COUNTIES : list string := [
  "Mombasa"; "Kwale"; "Kilifi"; "Tana River"; "Lamu"; "Taita-Taveta"; "Garissa";
  "Wajir"; "Mandera"; "Marsabit"; "Isiolo"; "Meru"; "Tharaka-Nithi"; "Embu";
  "Kitui"; "Machakos"; "Makueni"; "Nyandarua"; "Nyeri"; "Kirinyaga"; "Murang'a";
  "Kiambu"; "Turkana"; "West Pokot"; "Samburu"; "Trans-Nzoia"; "Uasin Gishu";
  "Elgeyo-Marakwet"; "Nandi"; "Baringo"; "Laikipia"; "Nakuru"; "Narok"; "Kajiado";
  "Kericho"; "Bomet"; "Kakamega"; "Vihiga"; "Bungoma"; "Busia"; "Siaya"; "Kisumu";
  "Homa Bay"; "Migori"; "Kisii"; "Nyamira"; "Nairobi"
].

Definition entry (severity alert_level risk : string) : Entry.t :=
  {| Entry.severity := severity; Entry.alert_level := alert_level;
     Entry.risk := risk |}.

Definition WEAPON_SEVERITY : gmap string Entry.t :=
  list_to_map [
    ("gun", entry "SERIOUS-URGENT" "🔴 Red" "High");
    ("pistol", entry "SERIOUS-URGENT" "🔴 Red" "High");
    ("rifle", entry "SERIOUS-URGENT" "🔴 Red" "High");
    ("knife", entry "SERIOUS" "🟡 Yellow" "Medium");
    ("machete", entry "SERIOUS" "🟡 Yellow" "Medium");
    ("sword", entry "SERIOUS" "🟡 Yellow" "Medium");
    ("stick", entry "LOW" "🟢 Green" "Low");
    ("stone", entry "LOW" "🟢 Green" "Low");
    ("club", entry "LOW" "🟢 Green" "Low")
  ].

(** The scanned keywords, in the order of the source. *)
Definition weapon_keywords : list string :=
  ["knife"; "gun"; "pistol"; "rifle"; "stick"; "baseball bat"].

(** ** Wall clock *)

(** [datetime.datetime.now()]. *)
Record datetime := {
  year : N; month : N; day : N;
  hour : N; minute : N; second : N;
  microsecond : N
}.

Definition decimal (n : N) : string := NilEmpty.string_of_uint (N.to_uint n).

Fixpoint zeros (k : nat) : string :=
  match k with
  | O => ""
  | S k' => String "0" (zeros k')
  end.

(** Decimal digits of [n], filled with zeros on the left up to [width]. *)
Definition zero_pad (width : nat) (n : N) : string :=
  let digits := decimal n in
  zeros (width - String.length digits) +:+ digits.

(** The directives the script uses; any other one is left as written.
    [%Y] is the year in four digits, as for every year from 1000 on. *)
Definition directive (d : ascii) (t : datetime) : string :=
  if Ascii.eqb d "Y" then zero_pad 4 (year t)
  else if Ascii.eqb d "m" then zero_pad 2 (month t)
  else if Ascii.eqb d "d" then zero_pad 2 (day t)
  else if Ascii.eqb d "H" then zero_pad 2 (hour t)
  else if Ascii.eqb d "M" then zero_pad 2 (minute t)
  else if Ascii.eqb d "S" then zero_pad 2 (second t)
  else String "%" (String d "").

(** [t.strftime(fmt)]. *)
Fixpoint strftime (t : datetime) (fmt : string) : string :=
  match fmt with
  | EmptyString => EmptyString
  | String c rest =>
      if Ascii.eqb c "%" then
        match rest with
        | EmptyString => String c EmptyString
        | String d rest' => directive d t +:+ strftime t rest'
        end
      else String c (strftime t rest)
  end.

(** ** Results, exceptions and what reaches the page *)

(** An exception is kept as its message, [str(e)]. *)
Definition Exception := string.

Inductive Result (A : Type) : Type :=
| Ok (a : A)
| Raise (e : Exception).
Arguments Ok {A} a.
Arguments Raise {A} e.

(** What the script asks of the model library and what it puts on the
    page, as far as the properties speak about it. *)
Inductive Effect :=
| PipelineCall (task model : string)
| StError (msg : string)
| StSuccess (msg : string)
| StShowing (shown : list Incident.t)
| StExpander (incident : Incident.t).

(** A construction of a pipeline is a call into the model library; every
    other effect is an element of the page. *)
Definition is_pipeline_call (e : Effect) : bool :=
  match e with
  | PipelineCall _ _ => true
  | _ => false
  end.

(** The dict stored under [st.session_state.analysis_results]. *)
Module AnalysisResults.
Record t (Image : Type) := {
  detected_weapons : list Detection.t;
  alert_level : string;
  severity : string;
  risk_assessment : string;
  image : Image
}.
Arguments detected_weapons {Image} _.
Arguments alert_level {Image} _.
Arguments severity {Image} _.
Arguments risk_assessment {Image} _.
Arguments image {Image} _.
End AnalysisResults.

(** The values the widgets and the clock hand to one run. A button is
    [true] in the run its click starts. [in_now_id] and [in_now_timestamp]
    are the two readings of the clock a submission makes. *)
Record Inputs (UploadedFile : Type) := {
  in_page : string;
  in_uploaded_file : option UploadedFile;
  in_analyze : bool;
  in_location_method : string;
  in_county : string;
  in_ward : string;
  in_latitude : float;
  in_sub_county : string;
  in_location : string;
  in_longitude : float;
  in_submit : bool;
  in_now_id : datetime;
  in_now_timestamp : datetime;
  in_filter_county : string;
  in_filter_severity : string;
  in_filter_status : string
}.
Arguments in_page {UploadedFile} _.
Arguments in_uploaded_file {UploadedFile} _.
Arguments in_analyze {UploadedFile} _.
Arguments in_location_method {UploadedFile} _.
Arguments in_county {UploadedFile} _.
Arguments in_ward {UploadedFile} _.
Arguments in_latitude {UploadedFile} _.
Arguments in_sub_county {UploadedFile} _.
Arguments in_location {UploadedFile} _.
Arguments in_longitude {UploadedFile} _.
Arguments in_submit {UploadedFile} _.
Arguments in_now_id {UploadedFile} _.
Arguments in_now_timestamp {UploadedFile} _.
Arguments in_filter_county {UploadedFile} _.
Arguments in_filter_severity {UploadedFile} _.
Arguments in_filter_status {UploadedFile} _.

(** ** Pure functions of the script *)

(** The test of one keyword against one lower-cased label (line 131). *)
Definition keyword_matches (weapon label : string) : bool :=
  str_in weapon label || existsb (fun w => str_in w label) (split weapon).

Definition get_recommendations (severity : string) : string :=
  if String.eqb severity "SERIOUS-URGENT" then
    "Immediate dispatch of armed response unit. Establish perimeter. Evacuate civilians if necessary. Contact emergency services."
  else if String.eqb severity "SERIOUS" then
    "Dispatch patrol unit for investigation. Increase surveillance in the area. Consider community alert."
  else
    "Monitor situation. Routine patrol check recommended. Document for trend analysis.".

(** A list comprehension [[i for i in xs if p(i)]]: the loop that appends
    the kept items one by one. *)
Definition comprehension {A : Type} (p : A -> bool) (xs : list A) : list A :=
  fold_left (fun kept i => if p i then kept ++ [i] else kept) xs [].

(** ** Notions the properties are stated with *)

(** [sub] occurs in [s]. *)
Definition contains (sub s : string) : Prop :=
  exists pre post : string, s = pre +:+ sub +:+ post.

(** The Detection of keyword [weapon], with table values [found], for the
    detector item [result]. *)
Definition detection_of (weapon : string) (found : Entry.t)
    (result : DetectorOutput) : Detection.t :=
  {| Detection.weapon := weapon;
     Detection.confidence := score result;
     Detection.box := box result;
     Detection.severity := Entry.severity found;
     Detection.alert_level := Entry.alert_level found;
     Detection.risk := Entry.risk found |}.

(** The precedence of a risk value: High over Medium over Low; a value
    outside the table ranks with Low. *)
Definition precedence (risk : string) : nat :=
  if String.eqb risk "High" then 2
  else if String.eqb risk "Medium" then 1
  else 0.

(** The outcome that goes with a risk value. *)
Definition outcome (risk : string) : string * string * string :=
  match precedence risk with
  | 2 => ("🔴 Red", "SERIOUS-URGENT",
          "Immediate action required - High-risk weapons detected")
  | 1 => ("🟡 Yellow", "SERIOUS",
          "Caution advised - Medium-risk weapons detected")
  | _ => ("🟢 Green", "LOW", "Monitor situation - Low-risk items detected")
  end.

(** Two readings of the clock within one calendar second. *)
Definition same_second (t1 t2 : datetime) : Prop :=
  year t1 = year t2 /\ month t1 = month t2 /\ day t1 = day t2 /\
  hour t1 = hour t2 /\ minute t1 = minute t2 /\ second t1 = second t2.


(** ** Sample data for the examples *)

Definition sample_box : Box :=
  {| xmin := 34; ymin := 50; xmax := 210; ymax := 180 |}.

(** A detector item with the given label, as in the example of the
    documentation: score 0.91. *)
Definition sample_output (text : string) : DetectorOutput :=
  {| label := text; score := 0.91%float; box := sample_box |}.

(** A detector that answers every image with items of the given labels. *)
Definition sample_detector (labels : list string)
    : unit -> Result (list DetectorOutput) :=
  fun _ => Ok (map sample_output labels).

Definition sample_open : unit -> Result unit := fun _ => Ok tt.

Definition sample_detection_pipeline (labels : list string)
    : string -> Result (unit -> Result (list DetectorOutput)) :=
  fun _ => Ok (sample_detector labels).

Definition sample_sentiment_pipeline
    : string -> Result (string -> Result (list (string * float))) :=
  fun _ => Ok (fun _ => Ok []).

(** A pipeline constructor that raises. *)
Definition failing_pipeline {A : Type} : string -> Result A :=
  fun _ => Raise "connection refused".

(** 3 November 2026, 09:05 and the given second and microsecond. *)
Definition sample_clock (s us : N) : datetime :=
  {| year := 2026; month := 11; day := 3; hour := 9; minute := 5;
     second := s; microsecond := us |}.

Definition nairobi : Location.t :=
  {| Location.county := "Nairobi"; Location.sub_county := "Westlands";
     Location.ward := "Parklands"; Location.location := "Nairobi CBD";
     Location.latitude := (-1.2921)%float; Location.longitude := 36.8219%float |}.

Definition kwale : Location.t :=
  {| Location.county := "Kwale"; Location.sub_county := "Matuga";
     Location.ward := "Tsimba"; Location.location := "Kwale town";
     Location.latitude := (-4.1737)%float; Location.longitude := 39.4521%float |}.

(** The widget values of a run on [page] with an uploaded file, the manual
    location [place] and the clock reading [now]. *)
Definition sample_inputs (page : string) (analyze submit : bool)
    (method : string) (place : Location.t) (now : datetime)
    (filter_county : string) : Inputs unit :=
  {| in_page := page;
     in_uploaded_file := Some tt;
     in_analyze := analyze;
     in_location_method := method;
     in_county := Location.county place;
     in_ward := Location.ward place;
     in_latitude := Location.latitude place;
     in_sub_county := Location.sub_county place;
     in_location := Location.location place;
     in_longitude := Location.longitude place;
     in_submit := submit;
     in_now_id := now;
     in_now_timestamp := now;
     in_filter_county := filter_county;
     in_filter_severity := "All";
     in_filter_status := "All" |}.

(** A click on the analysis button. *)
Definition click_analyze : Inputs unit :=
  sample_inputs "🚨 Report Incident" true false "📍 Manual Input" kwale
    (sample_clock 0 0) "All".

(** A click on the submission button, with the manual location [place]. *)
Definition click_submit (place : Location.t) (now : datetime) : Inputs unit :=
  sample_inputs "🚨 Report Incident" false true "📍 Manual Input" place now "All".

(** A visit of the history page. *)
Definition visit_history (filter_county : string) : Inputs unit :=
  sample_inputs "📋 Incident History" false false "📍 Manual Input" kwale
    (sample_clock 30 0) filter_county.

Definition sample_detection : Detection.t :=
  {| Detection.weapon := "rifle";
     Detection.confidence := 0.91%float;
     Detection.box := sample_box;
     Detection.severity := "SERIOUS-URGENT";
     Detection.alert_level := "🔴 Red";
     Detection.risk := "High" |}.

(** The incident a rifle submitted at 09:05:00 at [place] is stored as. *)
Definition sample_incident (place : Location.t) : Incident.t :=
  {| Incident.id := "INC_20261103_090500";
     Incident.timestamp := "2026-11-03 09:05:00";
     Incident.detected_weapons := [sample_detection];
     Incident.alert_level := "🔴 Red";
     Incident.severity := "SERIOUS-URGENT";
     Incident.risk_assessment :=
       "Immediate action required - High-risk weapons detected";
     Incident.location := place;
     Incident.status := "Active";
     Incident.recommendations :=
       "Immediate dispatch of armed response unit. Establish perimeter. Evacuate civilians if necessary. Contact emergency services." |}.

Section App.

(** A decoded [PIL.Image] and the file object of [st.file_uploader]. *)
Context {Image UploadedFile : Type}.

(** The object-detection pipeline: a callable on images. *)
Definition Detector : Type := Image -> Result (list DetectorOutput).

(** The sentiment pipeline: a callable on text. *)
Definition SentimentAnalyzer : Type := string -> Result (list (string * float)).

(** [str.lower]. *)
Variable lower : string -> string.

(** [Image.open]. *)
Variable Image_open : UploadedFile -> Result Image.

(** [pipeline("object-detection", model=m)] and
    [pipeline("sentiment-analysis", model=m)]. *)
Variable object_detection_pipeline : string -> Result Detector.
Variable sentiment_analysis_pipeline : string -> Result SentimentAnalyzer.

(** *** The world of a session *)

(** [incidents] and [analysis_results] are the two keys of
    [st.session_state] the script uses ([None]: the key is absent; the key
    [current_location] is set once and never read). [incidents] refers to
    a list object of [heap]. [cache] is the store of [st.cache_resource]
    for [load_models], and [replay] the elements the cached call has put on
    the page, which Streamlit keeps with the value. [screen] collects the
    effects, oldest first. *)
Record World := {
  heap : gmap positive (list Incident.t);
  incidents : option positive;
  analysis_results : option (AnalysisResults.t Image);
  cache : option (option Detector * option SentimentAnalyzer);
  replay : list Effect;
  screen : list Effect
}.

Definition set_heap (h : gmap positive (list Incident.t)) (w : World) : World :=
  {| heap := h; incidents := incidents w;
     analysis_results := analysis_results w; cache := cache w;
     replay := replay w; screen := screen w |}.

Definition set_incidents (l : option positive) (w : World) : World :=
  {| heap := heap w; incidents := l;
     analysis_results := analysis_results w; cache := cache w;
     replay := replay w; screen := screen w |}.

Definition set_analysis_results (r : option (AnalysisResults.t Image))
    (w : World) : World :=
  {| heap := heap w; incidents := incidents w;
     analysis_results := r; cache := cache w;
     replay := replay w; screen := screen w |}.

Definition set_cache (c : option (option Detector * option SentimentAnalyzer))
    (w : World) : World :=
  {| heap := heap w; incidents := incidents w;
     analysis_results := analysis_results w; cache := c;
     replay := replay w; screen := screen w |}.

Definition set_replay (r : list Effect) (w : World) : World :=
  {| heap := heap w; incidents := incidents w;
     analysis_results := analysis_results w; cache := cache w;
     replay := r; screen := screen w |}.

Definition set_screen (s : list Effect) (w : World) : World :=
  {| heap := heap w; incidents := incidents w;
     analysis_results := analysis_results w; cache := cache w;
     replay := replay w; screen := s |}.

(** The world of a fresh process and session. *)
Definition fresh_world : World :=
  {| heap := ∅; incidents := None; analysis_results := None;
     cache := None; replay := []; screen := [] |}.

(** *** The monad: state passing with exceptions *)

Definition M (A : Type) : Type := World -> Result A * World.

#[local] Instance M_ret : MRet M := fun A a w => (Ok a, w).

#[local] Instance M_bind : MBind M := fun A B k m w =>
  match m w with
  | (Ok a, w') => k a w'
  | (Raise e, w') => (Raise e, w')
  end.

Definition raise {A : Type} (e : Exception) : M A := fun w => (Raise e, w).

(** [try: body  except Exception as e: handler(e)]. *)
Definition try_except {A : Type} (body : M A) (handler : Exception -> M A) : M A :=
  fun w =>
    match body w with
    | (Ok a, w') => (Ok a, w')
    | (Raise e, w') => handler e w'
    end.

(** The outcome of a call into a library. *)
Definition call {A : Type} (r : Result A) : M A := fun w => (r, w).

Definition emit (e : Effect) : M unit :=
  fun w => (Ok tt, set_screen (screen w ++ [e]) w).

Definition st_error (msg : string) : M unit := emit (StError msg).
Definition st_success (msg : string) : M unit := emit (StSuccess msg).

(** [pipeline(task, model=model)]: the call is recorded, then it returns
    or raises. *)
Definition pipeline_object_detection (model : string) : M Detector :=
  emit (PipelineCall "object-detection" model);;
  call (object_detection_pipeline model).

Definition pipeline_sentiment_analysis (model : string) : M SentimentAnalyzer :=
  emit (PipelineCall "sentiment-analysis" model);;
  call (sentiment_analysis_pipeline model).

(** *** List objects *)

(** A new list object with the items [xs]. *)
Definition new_list (xs : list Incident.t) : M positive :=
  fun w =>
    let l := fresh (dom (heap w)) in
    (Ok l, set_heap (<[l := xs]> (heap w)) w).

(** The items of a list object; a reference always names a list object of
    the heap, and the lookup answers [[]] for any other number. *)
Definition items (l : positive) : M (list Incident.t) :=
  fun w => (Ok (heap w !!! l), w).

(** [l.append(x)]: the object itself changes. *)
Definition list_append (l : positive) (x : Incident.t) : M unit :=
  fun w => (Ok tt, set_heap (alter (fun xs => xs ++ [x]) l (heap w)) w).

(** [l.copy()]. *)
Definition list_copy (l : positive) : M positive :=
  xs ← items l; new_list xs.

(** [[i for i in l if p(i)]]. *)
Definition list_comprehension (p : Incident.t -> bool) (l : positive) : M positive :=
  xs ← items l; new_list (comprehension p xs).

(** *** Session state *)

(** [st.session_state.incidents]. *)
Definition session_incidents : M positive :=
  fun w =>
    match incidents w with
    | Some l => (Ok l, w)
    | None => raise "st.session_state has no attribute incidents" w
    end.

(** [st.session_state.analysis_results]. *)
Definition session_analysis_results : M (AnalysisResults.t Image) :=
  fun w =>
    match analysis_results w with
    | Some r => (Ok r, w)
    | None => raise "st.session_state has no attribute analysis_results" w
    end.

(** [st.session_state.analysis_results = r]. *)
Definition store_analysis_results (r : AnalysisResults.t Image) : M unit :=
  fun w => (Ok tt, set_analysis_results (Some r) w).

(** [del st.session_state.analysis_results]. *)
Definition del_analysis_results : M unit :=
  fun w =>
    match analysis_results w with
    | Some _ => (Ok tt, set_analysis_results None w)
    | None => raise "st.session_state has no attribute analysis_results" w
    end.

(** ['analysis_results' in st.session_state]. *)
Definition has_analysis_results : M bool :=
  fun w => (Ok (bool_decide (is_Some (analysis_results w))), w).

(** ['incidents' in st.session_state]. *)
Definition has_incidents : M bool :=
  fun w => (Ok (bool_decide (is_Some (incidents w))), w).

(** [st.session_state.incidents = l]. *)
Definition store_incidents (l : positive) : M unit :=
  fun w => (Ok tt, set_incidents (Some l) w).

(** Lines 70-74: the first run of a session creates the incident list. *)
Definition init_session_state : M unit :=
  present ← has_incidents;
  if (present : bool) then mret tt
  else
    l ← new_list [];
    store_incidents l.

(** The elements among the effects that came after the first [n]. *)
Definition elements_since (n : nat) (effects : list Effect) : list Effect :=
  List.filter (fun e => negb (is_pipeline_call e)) (drop n effects).

(** [@st.cache_resource]: the body runs on the first call; its value is
    kept, together with the elements it has put on the page. A later call
    does not run the body: it puts the kept elements on the page again and
    returns the kept value. *)
Definition st_cache_resource
    (body : M (option Detector * option SentimentAnalyzer))
    : M (option Detector * option SentimentAnalyzer) :=
  fun w =>
    match cache w with
    | Some v => (Ok v, set_screen (screen w ++ replay w) w)
    | None =>
        match body w with
        | (Ok v, w') =>
            (Ok v,
             set_replay (elements_since (length (screen w)) (screen w'))
               (set_cache (Some v) w'))
        | (Raise e, w') => (Raise e, w')
        end
    end.

(** *** The functions of the script *)

(** Lines 101-113, the body under [@st.cache_resource]. *)
Definition load_models : M (option Detector * option SentimentAnalyzer) :=
  try_except
    (object_detector ← pipeline_object_detection "facebook/detr-resnet-50";
     sentiment_analyzer ←
       pipeline_sentiment_analysis "distilbert-base-uncased-finetuned-sst-2-english";
     mret (Some object_detector, Some sentiment_analyzer))
    (fun e =>
       st_error ("Error loading models: " +:+ e);;
       mret (None, None)).

(** Lines 130-141: the inner loop, for one item of the detector output. *)
Definition scan_keywords (result : DetectorOutput)
    (detected_weapons : list Detection.t) : list Detection.t :=
  let label := lower (label result) in
  fold_left
    (fun detected_weapons weapon =>
       if keyword_matches weapon label then
         let weapon_type := weapon in
         match WEAPON_SEVERITY !! weapon_type with
         | Some found =>
             detected_weapons ++ [
               {| Detection.weapon := weapon_type;
                  Detection.confidence := score result;
                  Detection.box := box result;
                  Detection.severity := Entry.severity found;
                  Detection.alert_level := Entry.alert_level found;
                  Detection.risk := Entry.risk found |} ]
         | None => detected_weapons
         end
       else detected_weapons)
    weapon_keywords detected_weapons.

(** Lines 115-146. *)
Definition detect_weapons (image : Image) (object_detector : option Detector)
    : M (list Detection.t) :=
  match object_detector with
  | None => mret []
  | Some object_detector =>
      try_except
        (results ← call (object_detector image);
         mret (fold_left (fun detected_weapons result =>
                            scan_keywords result detected_weapons)
                         results []))
        (fun e =>
           st_error ("Error in weapon detection: " +:+ e);;
           mret [])
  end.

(** Lines 148-161. *)
Definition analyze_threat_level (detected_weapons : list Detection.t)
    (sentiment_analyzer : option SentimentAnalyzer)
    : string * string * string :=
  match detected_weapons with
  | [] => ("🟢 Green", "LOW", "No immediate threat detected")
  | _ :: _ =>
      let risk_levels := map Detection.risk detected_weapons in
      if decide ("High" ∈ risk_levels) then
        ("🔴 Red", "SERIOUS-URGENT",
         "Immediate action required - High-risk weapons detected")
      else if decide ("Medium" ∈ risk_levels) then
        ("🟡 Yellow", "SERIOUS",
         "Caution advised - Medium-risk weapons detected")
      else
        ("🟢 Green", "LOW", "Monitor situation - Low-risk items detected")
  end.

(** *** One run of the script *)

(** Lines 327-377: the upload and the analysis. *)
Definition main_analyze (inp : Inputs UploadedFile) (object_detector : option Detector)
    (sentiment_analyzer : option SentimentAnalyzer) : M unit :=
  match in_uploaded_file inp with
  | Some uploaded_file =>
      image ← call (Image_open uploaded_file);
      if in_analyze inp then
        detected_weapons ← detect_weapons image object_detector;
        let '(alert_level, severity, risk_assessment) :=
          analyze_threat_level detected_weapons sentiment_analyzer in
        '(alert_level, severity, risk_assessment) ←
          match detected_weapons with
          | _ :: _ => mret (alert_level, severity, risk_assessment)
          | [] =>
              st_success "✅ No weapons detected in the image";;
              mret ("🟢 Green", "LOW", "No immediate threat detected")
          end;
        store_analysis_results
          {| AnalysisResults.detected_weapons := detected_weapons;
             AnalysisResults.alert_level := alert_level;
             AnalysisResults.severity := severity;
             AnalysisResults.risk_assessment := risk_assessment;
             AnalysisResults.image := image |}
      else mret tt
  | None => mret tt
  end.

(** Lines 383-417. *)
Definition location_data (inp : Inputs UploadedFile) : Location.t :=
  if String.eqb (in_location_method inp) "📍 Manual Input" then
    {| Location.county := in_county inp;
       Location.sub_county := in_sub_county inp;
       Location.ward := in_ward inp;
       Location.location := in_location inp;
       Location.latitude := in_latitude inp;
       Location.longitude := in_longitude inp |}
  else
    {| Location.county := "Nairobi";
       Location.sub_county := "Westlands";
       Location.ward := "Parklands";
       Location.location := "Nairobi CBD";
       Location.latitude := (-1.2921)%float;
       Location.longitude := 36.8219%float |}.

(** Lines 380-452: the location form and the submission. *)
Definition main_submit (inp : Inputs UploadedFile) : M unit :=
  present ← has_analysis_results;
  if (present : bool) then
    let location_data := location_data inp in
    if in_submit inp then
      let incident_id :=
        "INC_" +:+ strftime (in_now_id inp) "%Y%m%d_%H%M%S" in
      results ← session_analysis_results;
      let incident_data :=
        {| Incident.id := incident_id;
           Incident.timestamp :=
             strftime (in_now_timestamp inp) "%Y-%m-%d %H:%M:%S";
           Incident.detected_weapons := AnalysisResults.detected_weapons results;
           Incident.alert_level := AnalysisResults.alert_level results;
           Incident.severity := AnalysisResults.severity results;
           Incident.risk_assessment := AnalysisResults.risk_assessment results;
           Incident.location := location_data;
           Incident.status := "Active";
           Incident.recommendations :=
             get_recommendations (AnalysisResults.severity results) |} in
      incidents ← session_incidents;
      list_append incidents incident_data;;
      st_success ("✅ Incident " +:+ incident_id +:+ " successfully reported!");;
      del_analysis_results
    else mret tt
  else mret tt.

(** Lines 549-559: the three filters of the history page; the value is the
    list object [filtered_incidents] is bound to at the end. *)
Definition apply_filters (filter_county filter_severity filter_status : string)
    : M positive :=
  incidents ← session_incidents;
  filtered_incidents ← list_copy incidents;
  filtered_incidents ←
    (if negb (String.eqb filter_county "All") then
       list_comprehension
         (fun i => String.eqb (Location.county (Incident.location i)) filter_county)
         filtered_incidents
     else mret filtered_incidents);
  filtered_incidents ←
    (if negb (String.eqb filter_severity "All") then
       list_comprehension
         (fun i => String.eqb (Incident.severity i) filter_severity)
         filtered_incidents
     else mret filtered_incidents);
  filtered_incidents ←
    (if negb (String.eqb filter_status "All") then
       list_comprehension
         (fun i => String.eqb (Incident.status i) filter_status)
         filtered_incidents
     else mret filtered_incidents);
  mret filtered_incidents.

(** Lines 564-592: one expander per incident, with its texts, and then a
    download button with the key [download_<id>]. [keys] are the keys the
    run has given to an element so far: Streamlit refuses a key a second
    time in a run, with the exception [StreamlitDuplicateElementKey], kept
    here by its name. *)
Fixpoint show_incidents (keys : list string) (shown : list Incident.t) : M unit :=
  match shown with
  | [] => mret tt
  | incident :: rest =>
      emit (StExpander incident);;
      let key := "download_" +:+ Incident.id incident in
      if bool_decide (key ∈ keys) then raise "StreamlitDuplicateElementKey"
      else show_incidents (key :: keys) rest
  end.

(** Lines 533-605: the history page announces the filtered incidents and
    shows them one by one. *)
Definition main_history (inp : Inputs UploadedFile) : M unit :=
  incidents ← session_incidents;
  stored ← items incidents;
  match stored with
  | _ :: _ =>
      filtered_incidents ←
        apply_filters (in_filter_county inp) (in_filter_severity inp)
                      (in_filter_status inp);
      shown ← items filtered_incidents;
      emit (StShowing shown);;
      show_incidents [] shown
  | [] => mret tt
  end.

(** Lines 310-605. The dashboard and the map only read the incidents. *)
Definition main (inp : Inputs UploadedFile) : M unit :=
  '(object_detector, sentiment_analyzer) ← st_cache_resource load_models;
  if String.eqb (in_page inp) "🚨 Report Incident" then
    main_analyze inp object_detector sentiment_analyzer;;
    main_submit inp
  else if String.eqb (in_page inp) "📊 Dashboard" then mret tt
  else if String.eqb (in_page inp) "🗺️ Incident Map" then mret tt
  else if String.eqb (in_page inp) "📋 Incident History" then main_history inp
  else mret tt.

(** One execution of the script, top to bottom. *)
Definition script (inp : Inputs UploadedFile) : M unit :=
  init_session_state;; main inp.

(** The world after a run; an exception ends the run and keeps what the
    run had changed. *)
Definition run (w : World) (inp : Inputs UploadedFile) : World := snd (script inp w).

(** The world after the runs [inps], one after the other. *)
Definition runs (inps : list (Inputs UploadedFile)) (w : World) : World := fold_left run inps w.

(** The items of the incident list of the session. *)
Definition stored_incidents (w : World) : list Incident.t :=
  match incidents w with
  | Some l => heap w !!! l
  | None => []
  end.

(** *** The output of the classifier, item by item *)

(** What one keyword adds for one item. *)
Definition keyword_detections (result : DetectorOutput) (weapon : string)
    : list Detection.t :=
  if keyword_matches weapon (lower (label result)) then
    match WEAPON_SEVERITY !! weapon with
    | Some found => [detection_of weapon found result]
    | None => []
    end
  else [].

(** What one item adds to the output. *)
Definition item_detections (result : DetectorOutput) : list Detection.t :=
  flat_map (keyword_detections result) weapon_keywords.

(** *** Invariants of the session *)

(** The derived fields of an incident are the answer of the aggregator on
    its Detections. *)
Definition derived_by_aggregator (i : Incident.t) : Prop :=
  (Incident.alert_level i, Incident.severity i, Incident.risk_assessment i) =
    analyze_threat_level (Incident.detected_weapons i) None.

(** The same for the analysis kept between two runs. *)
Definition analysis_derived (r : AnalysisResults.t Image) : Prop :=
  (AnalysisResults.alert_level r, AnalysisResults.severity r,
   AnalysisResults.risk_assessment r) =
    analyze_threat_level (AnalysisResults.detected_weapons r) None.

(** The incident list of the session is a list object of the heap, and the
    kept analysis is derived. *)
Definition well_formed (w : World) : Prop :=
  (forall l, incidents w = Some l -> is_Some (heap w !! l)) /\
  (forall r, analysis_results w = Some r -> analysis_derived r).

(** A well-formed world whose stored incidents are [xs]. *)
Definition stable (xs : list Incident.t) (w : World) : Prop :=
  well_formed w /\ stored_incidents w = xs.

(** The same once the session has its incident list. *)
Definition ready (xs : list Incident.t) (w : World) : Prop :=
  stable xs w /\ is_Some (incidents w).

(** [triple P m Q E]: from a world in [P], [m] ends in [Q] when it
    returns and in [E] when it raises. *)
Definition triple {A : Type} (P : World -> Prop) (m : M A)
    (Q : A -> World -> Prop) (E : World -> Prop) : Prop :=
  forall w, P w ->
    match m w with
    | (Ok a, w') => Q a w'
    | (Raise _, w') => E w'
    end.

(** The text of the id a submission with the inputs [inp] gives. *)
Definition submitted_id (inp : Inputs UploadedFile) : string :=
  "INC_" +:+ strftime (in_now_id inp) "%Y%m%d_%H%M%S".

(** After a run with inputs [inp] from stored incidents [xs]: the same
    incidents, or one more at the end, submitted by this run. *)
Definition after_run (inp : Inputs UploadedFile) (xs : list Incident.t)
    (w : World) : Prop :=
  ready xs w \/
  exists i : Incident.t,
    ready (xs ++ [i]) w /\ derived_by_aggregator i /\
    Incident.id i = submitted_id inp /\
    in_page inp = "🚨 Report Incident" /\ in_submit inp = true.

(** What a filter of the history page keeps: everything under the choice
    "All", else the incidents whose [field] is the choice. *)
Definition keep (choice : string) (field : Incident.t -> string)
    (xs : list Incident.t) : list Incident.t :=
  if String.eqb choice "All" then xs
  else List.filter (fun i => String.eqb (field i) choice) xs.

(** The three filters, in the order the page applies them. *)
Definition filtered (filter_county filter_severity filter_status : string)
    (xs : list Incident.t) : list Incident.t :=
  keep filter_status Incident.status
    (keep filter_severity Incident.severity
       (keep filter_county (fun i => Location.county (Incident.location i)) xs)).

(** The session's incident list is the list object [l0], and the list
    objects of the heap [h0] are still there. *)
Definition session_list (xs : list Incident.t) (l0 : positive)
    (h0 : gmap positive (list Incident.t)) (w : World) : Prop :=
  ready xs w /\ incidents w = Some l0 /\ dom h0 ⊆ dom (heap w).

(** The list object [k] holds the items [zs]. *)
Definition list_at (k : positive) (zs : list Incident.t) (w : World) : Prop :=
  heap w !! k = Some zs.

(** *** Drawing the detections (lines 176-216) *)

(** The colour that goes with an alert level (lines 196-201, and again
    lines 291-296 for the map). *)
Definition alert_color (alert_level : string) : string :=
  if str_in "🔴" alert_level then "red"
  else if str_in "🟡" alert_level then "orange"
  else "green".

(** A font of [PIL.ImageFont]; [ImageFont.load_default()], which returns
    or raises; and the format [{confidence:.2f}] of a float. *)
Context {Font : Type}.
Variable ImageFont_load_default : Result Font.
Variable format_2f : float -> string.

(** [draw.rectangle([(x0, y0), (x1, y1)], outline=..., width=...)] and
    [draw.text((x, y), text, fill=..., font=...)] ([None]: no font given). *)
Inductive DrawOp :=
| DrawRectangle (x0 y0 x1 y1 : Z) (outline : string) (width : Z)
| DrawText (x y : Z) (text : string) (fill : string) (font : option Font).

(** Lines 176-216. The function draws on the image it is given and returns
    that image; the value here is what it draws, in order. *)
Definition draw_detection_boxes (detections : list Detection.t) : list DrawOp :=
  match detections with
  | [] => []
  | _ :: _ =>
      let font :=
        match ImageFont_load_default with
        | Ok font => Some font
        | Raise _ => None
        end in
      fold_left
        (fun drawn detection =>
           let box := Detection.box detection in
           let weapon := Detection.weapon detection in
           let confidence := Detection.confidence detection in
           let alert_level := Detection.alert_level detection in
           let color := alert_color alert_level in
           let drawn :=
             drawn ++ [DrawRectangle (xmin box) (ymin box) (xmax box) (ymax box)
                         color 3] in
           let label := weapon +:+ " (" +:+ format_2f confidence +:+ ")" in
           drawn ++ [DrawText (xmin box) (ymin box - 20) label color font])
        detections []
  end.

(** *** More notions for the classifier *)

(** The severity, alert level and risk of a Detection are the table's for
    its weapon. *)
Definition table_consistent (d : Detection.t) : Prop :=
  WEAPON_SEVERITY !! Detection.weapon d =
    Some (entry (Detection.severity d) (Detection.alert_level d)
            (Detection.risk d)).

(** Some item has a lower-cased label in which one of [keywords] occurs. *)
Definition mentions (keywords : list string) (results : list DetectorOutput)
    : bool :=
  existsb
    (fun result => existsb (fun k => str_in k (lower (label result))) keywords)
    results.

(** The colour of a risk value: red for High, orange for Medium, green
    for Low. *)
Definition risk_color (risk : string) : string :=
  if String.eqb risk "High" then "red"
  else if String.eqb risk "Medium" then "orange"
  else "green".

(** *** The dashboard (lines 454-513) *)

(** [sum(1 for i in xs if p(i))]. *)
Definition count_if {A : Type} (p : A -> bool) (xs : list A) : nat :=
  fold_left (fun total i => if p i then total + 1 else total) xs 0.

(** A Python dict with string keys: the items in insertion order.
    [d.get(k, default)]. *)
Definition dict_get {V : Type} (d : list (string * V)) (k : string)
    (default : V) : V :=
  match List.find (fun item => String.eqb (fst item) k) d with
  | Some item => snd item
  | None => default
  end.

(** [d[k] = v]: a key that is there keeps its place. *)
Fixpoint dict_set {V : Type} (d : list (string * V)) (k : string) (v : V)
    : list (string * V) :=
  match d with
  | [] => [(k, v)]
  | (k', v') :: d' =>
      if String.eqb k' k then (k, v) :: d' else (k', v') :: dict_set d' k v
  end.

(** Lines 481-484 and 495-498: the loop
    [counts[key] = counts.get(key, 0) + 1] over the incidents. *)
Definition count_by (key : Incident.t -> string) (incidents : list Incident.t)
    : list (string * nat) :=
  fold_left
    (fun counts incident =>
       let k := key incident in
       dict_set counts k (dict_get counts k 0 + 1))
    incidents [].

(** What the dashboard shows: the four metrics, the two dicts behind the
    pie and the bar chart, and the rows of the table. *)
Record Dashboard := {
  total_incidents : nat;
  high_risk : nat;
  medium_risk : nat;
  low_risk : nat;
  alert_counts : list (string * nat);
  county_counts : list (string * nat);
  recent_incidents : list (string * string * string * string * string)
}.

(** Lines 457-513; [None] is the branch that only says that there is no
    incident yet. *)
Definition dashboard (incidents : list Incident.t) : option Dashboard :=
  match incidents with
  | [] => None
  | _ :: _ =>
      Some
        {| total_incidents := length incidents;
           high_risk :=
             count_if (fun i => str_in "🔴" (Incident.alert_level i)) incidents;
           medium_risk :=
             count_if (fun i => str_in "🟡" (Incident.alert_level i)) incidents;
           low_risk :=
             count_if (fun i => str_in "🟢" (Incident.alert_level i)) incidents;
           alert_counts := count_by Incident.alert_level incidents;
           county_counts :=
             count_by (fun i => Location.county (Incident.location i)) incidents;
           recent_incidents :=
             map (fun i => (Incident.id i, Incident.timestamp i,
                            Incident.alert_level i, Incident.severity i,
                            Incident.status i)) incidents |}
  end.

(** *** The map (lines 279-307) *)

(** [folium.CircleMarker(location=..., radius=..., popup=..., color=...,
    fill=..., fillColor=...)]. *)
Record CircleMarker := {
  marker_location : float * float;
  marker_radius : Z;
  marker_popup : string;
  marker_color : string;
  marker_fill : bool;
  marker_fillColor : string
}.

(** [folium.Map(location=..., zoom_start=...)] with the markers added to
    it, oldest first. *)
Record FoliumMap := {
  map_location : float * float;
  map_zoom_start : Z;
  map_markers : list CircleMarker
}.

(** [marker.add_to(m)]. *)
Definition add_to (marker : CircleMarker) (m : FoliumMap) : FoliumMap :=
  {| map_location := map_location m; map_zoom_start := map_zoom_start m;
     map_markers := map_markers m ++ [marker] |}.

(** Lines 279-307. *)
Definition create_incident_map (incidents : list Incident.t) : option FoliumMap :=
  match incidents with
  | [] => None
  | _ :: _ =>
      let m :=
        {| map_location := ((-1.2921)%float, 36.8219%float);
           map_zoom_start := 6; map_markers := [] |} in
      Some
        (fold_left
           (fun m incident =>
              let location := Incident.location incident in
              let color := alert_color (Incident.alert_level incident) in
              add_to
                {| marker_location :=
                     (Location.latitude location, Location.longitude location);
                   marker_radius := 8;
                   marker_popup :=
                     "ID: " +:+ Incident.id incident +:+
                     "<br>Alert: " +:+ Incident.alert_level incident +:+
                     "<br>Time: " +:+ Incident.timestamp incident;
                   marker_color := color;
                   marker_fill := true;
                   marker_fillColor := color |}
                m)
           incidents m)
  end.

(** The colour of a severity: red for SERIOUS-URGENT, orange for SERIOUS,
    green for LOW. *)
Definition severity_color (severity : string) : string :=
  if String.eqb severity "SERIOUS-URGENT" then "red"
  else if String.eqb severity "SERIOUS" then "orange"
  else "green".

(** *** What a command leaves as it is *)

(** [m] leaves the part [f] of the world as it is, whether it returns or
    raises. *)
Definition preserves {X A : Type} (f : World -> X) (m : M A) : Prop :=
  forall w, f (snd (m w)) = f w.

(** The pair the loader returns (lines 101-113): both pipelines, or no
    pipeline when one of the two constructors raises. *)
Definition loaded_models : option Detector * option SentimentAnalyzer :=
  match object_detection_pipeline "facebook/detr-resnet-50" with
  | Ok object_detector =>
      match sentiment_analysis_pipeline
              "distilbert-base-uncased-finetuned-sst-2-english" with
      | Ok sentiment_analyzer => (Some object_detector, Some sentiment_analyzer)
      | Raise _ => (None, None)
      end
  | Raise _ => (None, None)
  end.

(** The elements the loader puts on the page (lines 111-113): the error
    message, when a constructor raises. *)
Definition load_error : list Effect :=
  match object_detection_pipeline "facebook/detr-resnet-50" with
  | Ok _ =>
      match sentiment_analysis_pipeline
              "distilbert-base-uncased-finetuned-sst-2-english" with
      | Ok _ => []
      | Raise e => [StError ("Error loading models: " +:+ e)]
      end
  | Raise e => [StError ("Error loading models: " +:+ e)]
  end.

(** The pipeline constructions among the effects, oldest first. *)
Definition pipeline_calls (w : World) : list Effect :=
  List.filter is_pipeline_call (screen w).

(** *** Submissions and the kept analysis *)

(** The record a submission with the inputs [inp] stores for the kept
    analysis [results] (lines 424-434). *)
Definition incident_of (inp : Inputs UploadedFile)
    (results : AnalysisResults.t Image) : Incident.t :=
  {| Incident.id := "INC_" +:+ strftime (in_now_id inp) "%Y%m%d_%H%M%S";
     Incident.timestamp := strftime (in_now_timestamp inp) "%Y-%m-%d %H:%M:%S";
     Incident.detected_weapons := AnalysisResults.detected_weapons results;
     Incident.alert_level := AnalysisResults.alert_level results;
     Incident.severity := AnalysisResults.severity results;
     Incident.risk_assessment := AnalysisResults.risk_assessment results;
     Incident.location := location_data inp;
     Incident.status := "Active";
     Incident.recommendations :=
       get_recommendations (AnalysisResults.severity results) |}.

(** An incident as a submission stores it. *)
Definition submitted (i : Incident.t) : Prop :=
  exists (inp : Inputs UploadedFile) (results : AnalysisResults.t Image),
    i = incident_of inp results /\ analysis_derived results.

(** The run gets as far as the analysis of an image: the report page, with
    an uploaded file and a click on the analysis button. *)
Definition analyzes (inp : Inputs UploadedFile) : bool :=
  String.eqb (in_page inp) "🚨 Report Incident" &&
  match in_uploaded_file inp with
  | Some _ => true
  | None => false
  end &&
  in_analyze inp.

(** The number of analyses the session keeps: one or none. *)
Definition pending (w : World) : nat :=
  match analysis_results w with
  | Some _ => 1
  | None => 0
  end.

(** After the submission block, from the stored incidents [xs] and the
    kept analysis [v]: both are as before, or the record of the kept
    analysis is stored at the end and the analysis is gone. *)
Definition submission (inp : Inputs UploadedFile) (xs : list Incident.t)
    (v : option (AnalysisResults.t Image)) (w : World) : Prop :=
  (ready xs w /\ analysis_results w = v) \/
  exists results : AnalysisResults.t Image,
    v = Some results /\ analysis_derived results /\
    ready (xs ++ [incident_of inp results]) w /\
    analysis_results w = None /\ in_submit inp = true.

(** After a run from the kept analysis [v]: the submission block has run
    from [v], or from what an analysis of this run has left. *)
Definition after_script (inp : Inputs UploadedFile) (xs : list Incident.t)
    (v : option (AnalysisResults.t Image)) (w : World) : Prop :=
  exists v' : option (AnalysisResults.t Image),
    (v' = v \/ analyzes inp = true) /\ submission inp xs v' w.

(** *** An analysis and its submission *)

(** The dict an analysis of [image] stores when the detector answers
    [results] (lines 335-352). *)
Definition analysis_of (image : Image) (results : list DetectorOutput)
    : AnalysisResults.t Image :=
  let detected_weapons := flat_map item_detections results in
  let '(alert_level, severity, risk_assessment) :=
    analyze_threat_level detected_weapons None in
  {| AnalysisResults.detected_weapons := detected_weapons;
     AnalysisResults.alert_level := alert_level;
     AnalysisResults.severity := severity;
     AnalysisResults.risk_assessment := risk_assessment;
     AnalysisResults.image := image |}.

(** The pages of [main], for the models [models]. *)
Definition pages (inp : Inputs UploadedFile)
    (models : option Detector * option SentimentAnalyzer) : M unit :=
  let '(object_detector, sentiment_analyzer) := models in
  if String.eqb (in_page inp) "🚨 Report Incident" then
    main_analyze inp object_detector sentiment_analyzer;;
    main_submit inp
  else if String.eqb (in_page inp) "📊 Dashboard" then mret tt
  else if String.eqb (in_page inp) "🗺️ Incident Map" then mret tt
  else if String.eqb (in_page inp) "📋 Incident History" then main_history inp
  else mret tt.

(** *** Reading an id back *)

(** A reading of the clock in the ranges of [datetime], from the year 1000
    on. *)
Definition in_range (t : datetime) : Prop :=
  (1000 <= year t <= 9999)%N /\ (1 <= month t <= 12)%N /\
  (1 <= day t <= 31)%N /\ (hour t <= 23)%N /\ (minute t <= 59)%N /\
  (second t <= 59)%N.

(** The number a string of decimal digits stands for; 0 for any other
    string. *)
Definition read_number (s : string) : N :=
  match NilEmpty.uint_of_string s with
  | Some d => N.of_uint d
  | None => 0%N
  end.

(** * Properties *)

(** ** Strings *)

Lemma append_cons (c : ascii) (s1 s2 : string) :
  String c s1 +:+ s2 = String c (s1 +:+ s2).
Proof. reflexivity. Qed.

Lemma prefix_true_iff (sub s : string) :
  String.prefix sub s = true <-> exists post, s = sub +:+ post.
Proof.
  revert s. induction sub as [|c sub IH]; intros s.
  - split; [intros _; by exists s | by destruct s].
  - destruct s as [|c' s]; simpl.
    + split; [done | intros [post Hpost]; discriminate].
    + destruct (ascii_dec c c') as [->|Hne].
      * rewrite IH. split; intros [post Hpost]; exists post;
          rewrite append_cons in *; congruence.
      * split; [done | intros [post Hpost]; rewrite append_cons in *; congruence].
Qed.

Lemma str_in_contains (sub s : string) : str_in sub s = true <-> contains sub s.
Proof.
  unfold contains. induction s as [|c s IH]; cbn [str_in].
  - rewrite orb_false_r, prefix_true_iff. split.
    + intros [post Hpost]. by exists "", post.
    + intros [pre [post Hs]]. destruct pre as [|c pre]; [by exists post | discriminate].
  - rewrite orb_true_iff, prefix_true_iff, IH. split.
    + intros [[post Hpost] | [pre [post Hs]]].
      * by exists "", post.
      * exists (String c pre), post. by rewrite append_cons, Hs.
    + intros [pre [post Hs]]. destruct pre as [|c' pre].
      * left. by exists post.
      * right. exists pre, post. rewrite append_cons in Hs. congruence.
Qed.

Lemma str_in_false_iff (sub s : string) : str_in sub s = false <-> ~ contains sub s.
Proof. rewrite <- str_in_contains. by destruct (str_in sub s). Qed.

Lemma ascii_lower_append (s1 s2 : string) :
  ascii_lower (s1 +:+ s2) = ascii_lower s1 +:+ ascii_lower s2.
Proof.
  induction s1 as [|c s1 IH]; [done|].
  rewrite append_cons. cbn [ascii_lower]. by rewrite append_cons, IH.
Qed.

(** A keyword in lower case that occurs in a label occurs in the
    lower-cased label. *)
Lemma ascii_lower_contains (keyword s : string) :
  ascii_lower keyword = keyword -> contains keyword s ->
  contains keyword (ascii_lower s).
Proof.
  intros Hlower (pre & post & ->).
  exists (ascii_lower pre), (ascii_lower post).
  by rewrite !ascii_lower_append, Hlower.
Qed.

(** The choice "All" of the county filter is not a county. *)
Lemma All_is_no_county : "All" ∉ KENYA_COUNTIES.
Proof. apply (bool_decide_unpack _). by vm_compute. Qed.

(** ** Loops that append *)

Lemma fold_left_emit {A B : Type} (step : list B -> A -> list B) (g : A -> list B) :
  (forall acc x, step acc x = acc ++ g x) ->
  forall xs acc, fold_left step xs acc = acc ++ flat_map g xs.
Proof.
  intros Hstep xs. induction xs as [|x xs IH]; intros acc; simpl.
  - by rewrite app_nil_r.
  - by rewrite IH, Hstep, app_assoc.
Qed.

Lemma comprehension_filter {A : Type} (p : A -> bool) (xs : list A) :
  comprehension p xs = List.filter p xs.
Proof.
  unfold comprehension.
  rewrite (fold_left_emit _ (fun i => if p i then [i] else [])).
  - simpl. induction xs as [|x xs IH]; simpl; [done|].
    destruct (p x); simpl; by rewrite IH.
  - intros acc x. destruct (p x); [done | by rewrite app_nil_r].
Qed.

(** ** The weapon classifier *)

(** The keywords that are scanned and have a table entry. *)
Lemma table_of_scanned_keywords :
  WEAPON_SEVERITY !! "knife" = Some (entry "SERIOUS" "🟡 Yellow" "Medium") /\
  WEAPON_SEVERITY !! "gun" = Some (entry "SERIOUS-URGENT" "🔴 Red" "High") /\
  WEAPON_SEVERITY !! "pistol" = Some (entry "SERIOUS-URGENT" "🔴 Red" "High") /\
  WEAPON_SEVERITY !! "rifle" = Some (entry "SERIOUS-URGENT" "🔴 Red" "High") /\
  WEAPON_SEVERITY !! "stick" = Some (entry "LOW" "🟢 Green" "Low") /\
  WEAPON_SEVERITY !! "baseball bat" = None.
Proof. repeat split; reflexivity. Qed.

Lemma scan_keywords_emits (result : DetectorOutput) (acc : list Detection.t) :
  scan_keywords result acc = acc ++ item_detections result.
Proof.
  unfold scan_keywords, item_detections.
  apply fold_left_emit. intros detected weapon. unfold keyword_detections.
  destruct (keyword_matches weapon (lower (label result)));
    [destruct (WEAPON_SEVERITY !! weapon) |]; by rewrite ?app_nil_r.
Qed.

Lemma detect_weapons_returns (image : Image) (object_detector : Detector)
    (results : list DetectorOutput) (w : World) :
  object_detector image = Ok results ->
  detect_weapons image (Some object_detector) w =
    (Ok (flat_map item_detections results), w).
Proof.
  intros Hcall. unfold detect_weapons, try_except, call, mbind, M_bind, mret, M_ret.
  rewrite Hcall. f_equal. f_equal.
  by rewrite (fold_left_emit _ item_detections)
    by (intros; apply scan_keywords_emits).
Qed.

Lemma flat_map_concat {A B : Type} (g : A -> list B) (xs : list A) :
  flat_map g xs = concat (map g xs).
Proof. induction xs as [|x xs IH]; simpl; by rewrite ?IH. Qed.

(** A one-word keyword matches when it occurs in the label. *)
Lemma keyword_matches_one_word (weapon label : string) :
  split weapon = [weapon] ->
  keyword_matches weapon label = str_in weapon label.
Proof.
  intros Hsplit. unfold keyword_matches. rewrite Hsplit. simpl.
  by destruct (str_in weapon label).
Qed.

Lemma filter_keyword_detections (result : DetectorOutput) (weapon k : string) :
  filter (fun d => Detection.weapon d = weapon) (keyword_detections result k) =
    if decide (k = weapon) then keyword_detections result k else [].
Proof.
  unfold keyword_detections.
  destruct (keyword_matches k (lower (label result)));
    [destruct (WEAPON_SEVERITY !! k) |]; simpl; try by destruct (decide (k = weapon)).
  rewrite filter_cons, filter_nil. simpl. by destruct (decide (k = weapon)).
Qed.

Lemma item_detections_of_keyword (result : DetectorOutput) (weapon : string)
    (found : Entry.t) :
  weapon ∈ ["gun"; "pistol"; "rifle"; "knife"; "stick"] ->
  WEAPON_SEVERITY !! weapon = Some found ->
  filter (fun d => Detection.weapon d = weapon) (item_detections result) =
    if str_in weapon (lower (label result))
    then [detection_of weapon found result] else [].
Proof.
  intros Hin Hfound. unfold item_detections, weapon_keywords. simpl.
  rewrite !filter_app, !filter_keyword_detections, filter_nil.
  repeat (apply elem_of_cons in Hin as [-> | Hin]);
    [.. | by apply elem_of_nil in Hin];
    simpl; rewrite ?app_nil_r; unfold keyword_detections;
    rewrite keyword_matches_one_word by reflexivity; rewrite Hfound; done.
Qed.

(** C1, as amended. When the detector returns [results], the classifier
    returns the Detections of the items one item after the other, and
    for each item and each of the keywords gun, pistol, rifle, knife and
    stick: if the lower-cased label of the item contains the keyword, the
    item has exactly one Detection with that weapon, which carries the
    score and the box of the item and the severity, alert level and risk
    the table [WEAPON_SEVERITY] gives for the keyword; if it does not, the
    item has no Detection with that weapon. The score is never tested. *)
Theorem detect_weapons_one_detection_per_keyword
    (image : Image) (object_detector : Detector)
    (results : list DetectorOutput) (w : World) :
  object_detector image = Ok results ->
  exists emitted : list (list Detection.t),
    detect_weapons image (Some object_detector) w = (Ok (concat emitted), w) /\
    Forall2
      (fun result detections =>
         forall weapon : string,
           weapon ∈ ["gun"; "pistol"; "rifle"; "knife"; "stick"] ->
           exists found : Entry.t,
             WEAPON_SEVERITY !! weapon = Some found /\
             (contains weapon (lower (label result)) ->
              filter (fun d => Detection.weapon d = weapon) detections =
                [detection_of weapon found result]) /\
             (~ contains weapon (lower (label result)) ->
              filter (fun d => Detection.weapon d = weapon) detections = []))
      results emitted.
Proof.
  intros Hcall. exists (map item_detections results). split.
  - rewrite <- flat_map_concat. by apply detect_weapons_returns.
  - apply Forall2_fmap_r, Forall_Forall2_diag, Forall_forall.
    intros result _ weapon Hweapon.
    assert (is_Some (WEAPON_SEVERITY !! weapon)) as [found Hfound].
    { repeat (apply elem_of_cons in Hweapon as [-> | Hweapon]);
        [.. | by apply elem_of_nil in Hweapon]; by eexists. }
    exists found. split; [done|].
    rewrite (item_detections_of_keyword result weapon found Hweapon Hfound).
    split.
    + intros Hin%str_in_contains. by rewrite Hin.
    + intros Hout%str_in_false_iff. by rewrite Hout.
Qed.

(** ** The threat aggregator *)

Lemma elem_of_map {A B : Type} (f : A -> B) (l : list A) (y : B) :
  y ∈ map f l <-> exists x, y = f x /\ x ∈ l.
Proof.
  rewrite list_elem_of_In, in_map_iff.
  split; intros (x & Hx & Hin); exists x; (split; [done | by apply list_elem_of_In]).
Qed.

Lemma precedence_le_2 (risk : string) : precedence risk <= 2.
Proof.
  unfold precedence.
  destruct (String.eqb risk "High"), (String.eqb risk "Medium"); lia.
Qed.

Lemma precedence_not_high (risk : string) : risk <> "High" -> precedence risk <= 1.
Proof.
  intros Hne. unfold precedence.
  destruct (String.eqb_spec risk "High"); [done|].
  destruct (String.eqb risk "Medium"); lia.
Qed.

Lemma precedence_low (risk : string) :
  risk <> "High" -> risk <> "Medium" -> precedence risk = 0.
Proof.
  intros Hhigh Hmedium. unfold precedence.
  destruct (String.eqb_spec risk "High"); [done|].
  by destruct (String.eqb_spec risk "Medium").
Qed.

(** C2. A list with a Detection of risk High is answered with the red
    triple, whatever the other Detections are. *)
Theorem analyze_threat_level_high (detected_weapons : list Detection.t)
    (sentiment_analyzer : option SentimentAnalyzer) :
  (exists d, d ∈ detected_weapons /\ Detection.risk d = "High") ->
  analyze_threat_level detected_weapons sentiment_analyzer =
    ("🔴 Red", "SERIOUS-URGENT",
     "Immediate action required - High-risk weapons detected").
Proof.
  intros [d [Hd Hrisk]]. unfold analyze_threat_level.
  destruct detected_weapons as [|d0 ds]; [by apply elem_of_nil in Hd|].
  destruct (decide ("High" ∈ map Detection.risk (d0 :: ds))) as [|Hno]; [done|].
  destruct Hno. apply elem_of_map. by exists d.
Qed.

(** A non-empty list is answered with the outcome of one of its
    Detections of highest precedence. *)
Lemma analyze_threat_level_top (d : Detection.t) (ds : list Detection.t)
    (sentiment_analyzer : option SentimentAnalyzer) :
  exists top : Detection.t,
    top ∈ d :: ds /\
    (forall d', d' ∈ d :: ds ->
       precedence (Detection.risk d') <= precedence (Detection.risk top)) /\
    analyze_threat_level (d :: ds) sentiment_analyzer =
      outcome (Detection.risk top).
Proof.
  unfold analyze_threat_level.
  destruct (decide ("High" ∈ map Detection.risk (d :: ds))) as [Hhigh|Hhigh].
  { apply elem_of_map in Hhigh as [top [Hrisk Htop]].
    exists top. rewrite <- Hrisk. split; [done|]. split; [|reflexivity].
    intros d' _. apply precedence_le_2. }
  assert (forall d', d' ∈ d :: ds -> Detection.risk d' <> "High") as Hnot_high.
  { intros d' Hd' Hrisk. apply Hhigh, elem_of_map. by exists d'. }
  destruct (decide ("Medium" ∈ map Detection.risk (d :: ds))) as [Hmed|Hmed].
  { apply elem_of_map in Hmed as [top [Hrisk Htop]].
    exists top. rewrite <- Hrisk. split; [done|]. split; [|reflexivity].
    intros d' Hd'. by apply precedence_not_high, Hnot_high. }
  exists d. split; [by left|].
  assert (forall d', d' ∈ d :: ds -> precedence (Detection.risk d') = 0) as Hlow.
  { intros d' Hd'. apply precedence_low; [by apply Hnot_high|].
    intros Hrisk. apply Hmed, elem_of_map. by exists d'. }
  split.
  - intros d' Hd'. rewrite (Hlow d' Hd'). lia.
  - unfold outcome. by rewrite (Hlow d) by by left.
Qed.

(** C3. The aggregator is a function of the list: it answers the empty
    list with the no-threat triple, and a non-empty list with the outcome
    of a Detection of the list whose risk no other Detection of the list
    precedes, in the order High, Medium, Low. *)
Theorem analyze_threat_level_highest_precedence
    (sentiment_analyzer : option SentimentAnalyzer) :
  analyze_threat_level [] sentiment_analyzer =
    ("🟢 Green", "LOW", "No immediate threat detected") /\
  forall (d : Detection.t) (ds : list Detection.t),
    exists top : Detection.t,
      top ∈ d :: ds /\
      (forall d', d' ∈ d :: ds ->
         precedence (Detection.risk d') <= precedence (Detection.risk top)) /\
      analyze_threat_level (d :: ds) sentiment_analyzer =
        outcome (Detection.risk top).
Proof.
  split; [reflexivity|]. intros d ds. apply analyze_threat_level_top.
Qed.

(** C7. The answer of the aggregator is the same for any two values of
    its [sentiment_analyzer] argument, and so is what the analysis of an
    uploaded image does to the world. *)
Theorem analyze_threat_level_ignores_sentiment
    (detected_weapons : list Detection.t)
    (sentiment_analyzer sentiment_analyzer' : option SentimentAnalyzer)
    (inp : Inputs UploadedFile) (object_detector : option Detector) (w : World) :
  analyze_threat_level detected_weapons sentiment_analyzer =
    analyze_threat_level detected_weapons sentiment_analyzer' /\
  main_analyze inp object_detector sentiment_analyzer w =
    main_analyze inp object_detector sentiment_analyzer' w.
Proof. split; reflexivity. Qed.

(** ** The model loader *)

Lemma st_cache_resource_hit (body : M (option Detector * option SentimentAnalyzer))
    (v : option Detector * option SentimentAnalyzer) (w : World) :
  cache w = Some v ->
  st_cache_resource body w = (Ok v, set_screen (screen w ++ replay w) w).
Proof. intros Hcache. unfold st_cache_resource. by rewrite Hcache. Qed.

Lemma elements_since_app (scr added : list Effect) :
  elements_since (length scr) (scr ++ added) =
    List.filter (fun e => negb (is_pipeline_call e)) added.
Proof. unfold elements_since. by rewrite drop_app_length. Qed.

(** C8. When the construction of one of the two pipelines raises,
    [load_models] returns [(None, None)] and has put one error message,
    with the text of the exception, on the page; each pipeline constructor
    was called at most once and none after the failure; once the pair is
    cached, a later call returns it again without calling a constructor,
    and all it does is to put the error message on the page again; and
    [detect_weapons] with no detector returns the empty list for every
    image and leaves the world as it is. *)
Theorem load_models_failure (w : World) :
  (exists e, object_detection_pipeline "facebook/detr-resnet-50" = Raise e) \/
  (exists e, sentiment_analysis_pipeline
               "distilbert-base-uncased-finetuned-sst-2-english" = Raise e) ->
  exists (e : Exception) (calls : list Effect),
    load_models w =
      (Ok (None, None),
       set_screen (screen w ++ calls ++ [StError ("Error loading models: " +:+ e)]) w) /\
    ((object_detection_pipeline "facebook/detr-resnet-50" = Raise e /\
      calls = [PipelineCall "object-detection" "facebook/detr-resnet-50"]) \/
     (sentiment_analysis_pipeline
        "distilbert-base-uncased-finetuned-sst-2-english" = Raise e /\
      calls = [PipelineCall "object-detection" "facebook/detr-resnet-50";
               PipelineCall "sentiment-analysis"
                 "distilbert-base-uncased-finetuned-sst-2-english"])) /\
    (cache w = None ->
     exists w1 w2,
       st_cache_resource load_models w = (Ok (None, None), w1) /\
       st_cache_resource load_models w1 = (Ok (None, None), w2) /\
       w2 = set_screen (screen w1 ++ [StError ("Error loading models: " +:+ e)]) w1 /\
       pipeline_calls w2 = pipeline_calls w1) /\
    (forall (image : Image) (w' : World),
       detect_weapons image None w' = (Ok [], w')).
Proof.
  intros Hfail.
  assert (exists e calls,
    load_models w =
      (Ok (None, None),
       set_screen (screen w ++ calls ++ [StError ("Error loading models: " +:+ e)]) w) /\
    ((object_detection_pipeline "facebook/detr-resnet-50" = Raise e /\
      calls = [PipelineCall "object-detection" "facebook/detr-resnet-50"]) \/
     (sentiment_analysis_pipeline
        "distilbert-base-uncased-finetuned-sst-2-english" = Raise e /\
      calls = [PipelineCall "object-detection" "facebook/detr-resnet-50";
               PipelineCall "sentiment-analysis"
                 "distilbert-base-uncased-finetuned-sst-2-english"])))
    as (e & calls & Hload & Hcalls).
  { unfold load_models, try_except, pipeline_object_detection,
      pipeline_sentiment_analysis, st_error, emit, call, mbind, M_bind, mret, M_ret.
    destruct w as [h inc ar c rep scr]. cbn.
    destruct (object_detection_pipeline "facebook/detr-resnet-50")
      as [detector | e_od] eqn:Hod.
    - destruct Hfail as [[e He] | [e He]]; [discriminate|].
      exists e, [PipelineCall "object-detection" "facebook/detr-resnet-50";
                 PipelineCall "sentiment-analysis"
                   "distilbert-base-uncased-finetuned-sst-2-english"].
      rewrite He. cbn. split; [|by right].
      unfold set_screen. cbn. by rewrite <- !app_assoc.
    - exists e_od, [PipelineCall "object-detection" "facebook/detr-resnet-50"].
      cbn. split; [|by left].
      unfold set_screen. cbn. by rewrite <- !app_assoc. }
  exists e, calls. split; [done|]. split; [done|]. split; [|done].
  intros Hcache.
  assert (List.filter (fun e0 => negb (is_pipeline_call e0))
            (calls ++ [StError ("Error loading models: " +:+ e)]) =
          [StError ("Error loading models: " +:+ e)]) as Hkept.
  { rewrite List.filter_app. by destruct Hcalls as [[_ ->] | [_ ->]]. }
  eexists. eexists. split.
  { unfold st_cache_resource. rewrite Hcache, Hload. reflexivity. }
  split.
  { apply st_cache_resource_hit. reflexivity. }
  cbn [replay set_replay screen set_screen set_cache].
  rewrite elements_since_app, Hkept. split; [reflexivity|].
  unfold pipeline_calls. cbn [screen set_screen set_replay set_cache].
  rewrite List.filter_app. cbn. apply app_nil_r.
Qed.

(** ** Reasoning about the monad *)

Lemma triple_ret {A : Type} (P : World -> Prop) (a : A)
    (Q : A -> World -> Prop) (E : World -> Prop) :
  (forall w, P w -> Q a w) -> triple P (mret a) Q E.
Proof. intros HQ w HP. by apply HQ. Qed.

Lemma triple_bind {A B : Type} (P : World -> Prop) (m : M A) (k : A -> M B)
    (R : A -> World -> Prop) (Q : B -> World -> Prop) (E : World -> Prop) :
  triple P m R E -> (forall a, triple (R a) (k a) Q E) -> triple P (m ≫= k) Q E.
Proof.
  intros Hm Hk w HP. unfold mbind, M_bind. specialize (Hm w HP).
  destruct (m w) as [[a|e] w']; [by apply Hk | done].
Qed.

Lemma triple_try {A : Type} (P : World -> Prop) (body : M A)
    (handler : Exception -> M A) (Q : A -> World -> Prop)
    (E' E : World -> Prop) :
  triple P body Q E' -> (forall e, triple E' (handler e) Q E) ->
  triple P (try_except body handler) Q E.
Proof.
  intros Hbody Hhandler w HP. unfold try_except. specialize (Hbody w HP).
  destruct (body w) as [[a|e] w']; [done | by apply Hhandler].
Qed.

Lemma triple_weaken {A : Type} (P P' : World -> Prop) (m : M A)
    (Q Q' : A -> World -> Prop) (E E' : World -> Prop) :
  triple P' m Q' E' ->
  (forall w, P w -> P' w) -> (forall a w, Q' a w -> Q a w) ->
  (forall w, E' w -> E w) -> triple P m Q E.
Proof.
  intros Hm HP HQ HE w Hw. specialize (Hm w (HP w Hw)).
  destruct (m w) as [[a|e] w']; auto.
Qed.

Lemma triple_call {A : Type} (P : World -> Prop) (r : Result A)
    (E : World -> Prop) :
  (forall w, P w -> E w) -> triple P (call r) (fun _ => P) E.
Proof. intros HE w HP. unfold call. destruct r; auto. Qed.

(** One step of a sequence: the first command, then the rest for its value. *)
Tactic Notation "step" "as" ident(x) := eapply triple_bind; [ | intros x ].

(** ** What each operation does to a stable world *)

Lemma stable_set_screen xs s w : stable xs w -> stable xs (set_screen s w).
Proof. by intros [[Hheap Hres] Hxs]. Qed.

Lemma stable_set_cache xs c w : stable xs w -> stable xs (set_cache c w).
Proof. by intros [[Hheap Hres] Hxs]. Qed.

Lemma stable_set_analysis_none xs w :
  stable xs w -> stable xs (set_analysis_results None w).
Proof. intros [[Hheap Hres] Hxs]. by repeat split. Qed.

Lemma stable_set_analysis_some xs r w :
  analysis_derived r -> stable xs w -> stable xs (set_analysis_results (Some r) w).
Proof.
  intros Hr [[Hheap Hres] Hxs]. repeat split; [done | | done].
  intros r' [= <-]. done.
Qed.

Lemma triple_emit xs (e : Effect) (E : World -> Prop) :
  triple (ready xs) (emit e) (fun _ => ready xs) E.
Proof. intros w [Hst Hinc]. split; [by apply stable_set_screen | done]. Qed.

Lemma ready_new_list xs ys w : ready xs w -> ready xs (snd (new_list ys w)).
Proof.
  intros [[[Hheap Hres] Hxs] Hinc]. unfold new_list. cbn.
  assert (forall l, incidents w = Some l -> l <> fresh (dom (heap w))) as Hfresh.
  { intros l Hl ->. apply Hheap in Hl. apply elem_of_dom in Hl.
    by apply is_fresh in Hl. }
  repeat split; cbn; [| done | | done].
  - intros l Hl. rewrite lookup_insert_ne; [by apply Hheap | ].
    intros Heq. by apply (Hfresh l Hl).
  - unfold stored_incidents in *. cbn. destruct (incidents w) as [l|]; [|done].
    rewrite lookup_total_insert_ne; [done|].
    intros Heq. by apply (Hfresh l).
Qed.

Lemma triple_items (l : positive) (P : World -> Prop) (E : World -> Prop) :
  triple P (items l) (fun ys w => P w /\ ys = heap w !!! l) E.
Proof. intros w Hw. by cbn. Qed.

Lemma triple_session_incidents xs (E : World -> Prop) :
  triple (ready xs) session_incidents
    (fun l w => ready xs w /\ incidents w = Some l) E.
Proof.
  intros w Hw. unfold session_incidents.
  destruct Hw as [Hst [l Hl]]. rewrite Hl. split; [split; [done | by eexists] | done].
Qed.

Lemma triple_list_append xs (l : positive) (x : Incident.t) (E : World -> Prop) :
  triple (fun w => ready xs w /\ incidents w = Some l) (list_append l x)
    (fun _ w => ready (xs ++ [x]) w) E.
Proof.
  intros w [[[[Hheap Hres] Hxs] Hinc] Hl]. unfold list_append. cbn.
  destruct (Hheap l Hl) as [ys Hys].
  repeat split; cbn; [| done | | done].
  - intros l' Hl'. rewrite lookup_alter. case_decide; [|by apply Hheap].
    rewrite Hys. by eexists.
  - unfold stored_incidents in *. cbn. rewrite Hl in *.
    rewrite lookup_total_alter_eq, Hys. cbn.
    rewrite lookup_total_alt, Hys in Hxs. cbn in Hxs. by rewrite Hxs.
Qed.

(** ** The blocks of a run *)

Lemma triple_load_models xs :
  triple (ready xs) load_models (fun _ => ready xs) (ready xs).
Proof.
  unfold load_models, pipeline_object_detection, pipeline_sentiment_analysis.
  apply triple_try with (E' := ready xs).
  - step as object_detector;
      [step as u; [apply triple_emit | by apply triple_call] | cbn beta].
    step as sentiment_analyzer;
      [step as u; [apply triple_emit | by apply triple_call] | cbn beta].
    by apply triple_ret.
  - intros e. step as u; [apply triple_emit | by apply triple_ret].
Qed.

Lemma triple_st_cache_resource xs body :
  triple (ready xs) body (fun _ => ready xs) (ready xs) ->
  triple (ready xs) (st_cache_resource body) (fun _ => ready xs) (ready xs).
Proof.
  intros Hbody w Hw. unfold st_cache_resource.
  destruct (cache w); [done|]. specialize (Hbody w Hw).
  destruct (body w) as [[v|e] w']; [|done].
  destruct Hbody as [Hst Hinc]. split; [by apply stable_set_cache | done].
Qed.

Lemma triple_detect_weapons xs image object_detector :
  triple (ready xs) (detect_weapons image object_detector)
    (fun _ => ready xs) (ready xs).
Proof.
  unfold detect_weapons. destruct object_detector as [detector|].
  - apply triple_try with (E' := ready xs).
    + step as results; [by apply triple_call | by apply triple_ret].
    + intros e. step as u; [apply triple_emit | by apply triple_ret].
  - by apply triple_ret.
Qed.

Lemma triple_store_analysis_results xs r (E : World -> Prop) :
  analysis_derived r ->
  triple (ready xs) (store_analysis_results r) (fun _ => ready xs) E.
Proof.
  intros Hr w [Hst Hinc]. split; [by apply stable_set_analysis_some | done].
Qed.

Lemma triple_main_analyze xs inp object_detector sentiment_analyzer :
  triple (ready xs) (main_analyze inp object_detector sentiment_analyzer)
    (fun _ => ready xs) (ready xs).
Proof.
  unfold main_analyze.
  destruct (in_uploaded_file inp) as [uploaded_file|]; [|by apply triple_ret].
  step as image; [by apply triple_call | cbn beta].
  destruct (in_analyze inp); [|by apply triple_ret].
  step as detected_weapons; [apply triple_detect_weapons | cbn beta].
  destruct (analyze_threat_level detected_weapons sentiment_analyzer)
    as [[alert_level severity] risk_assessment] eqn:Hanalyze.
  eapply triple_bind with
    (R := fun t w => ready xs w /\ t = analyze_threat_level detected_weapons None).
  - destruct detected_weapons as [|d ds].
    + step as u; [apply triple_emit | by apply triple_ret].
    + apply triple_ret. intros w Hw. split; [done|].
      by rewrite <- Hanalyze.
  - intros [[alert_level' severity'] risk_assessment'].
    intros w [Hw Ht]. by apply triple_store_analysis_results.
Qed.

Lemma triple_has_analysis_results (P : World -> Prop) (E : World -> Prop) :
  triple P has_analysis_results
    (fun b w => P w /\ b = bool_decide (is_Some (analysis_results w))) E.
Proof. intros w Hw. by cbn. Qed.

Lemma triple_session_analysis_results xs :
  triple (ready xs) session_analysis_results
    (fun r w => ready xs w /\ analysis_derived r) (ready xs).
Proof.
  intros w Hw. unfold session_analysis_results.
  destruct (analysis_results w) as [r|] eqn:Hr; [|done].
  split; [done|]. destruct Hw as [[[_ Hres] _] _]. by apply Hres.
Qed.

Lemma triple_del_analysis_results xs :
  triple (ready xs) del_analysis_results (fun _ => ready xs) (ready xs).
Proof.
  intros w Hw. unfold del_analysis_results.
  destruct (analysis_results w); [|done].
  destruct Hw as [Hst Hinc]. split; [by apply stable_set_analysis_none | done].
Qed.

Lemma triple_main_submit xs inp :
  in_page inp = "🚨 Report Incident" ->
  triple (ready xs) (main_submit inp) (fun _ => after_run inp xs) (after_run inp xs).
Proof.
  intros Hpage. unfold main_submit.
  step as present; [apply triple_has_analysis_results | cbn beta].
  destruct present; [|apply triple_ret; intros w [Hw _]; by left].
  destruct (in_submit inp) eqn:Hsubmit; [|apply triple_ret; intros w [Hw _]; by left].
  eapply triple_bind with (R := fun r w => ready xs w /\ analysis_derived r).
  { eapply triple_weaken; [apply (triple_session_analysis_results xs) | | done |].
    - by intros w [Hw _].
    - intros w Hw. by left. }
  intros results.
  set (incident_data :=
    {| Incident.id := "INC_" +:+ strftime (in_now_id inp) "%Y%m%d_%H%M%S";
       Incident.timestamp := strftime (in_now_timestamp inp) "%Y-%m-%d %H:%M:%S";
       Incident.detected_weapons := AnalysisResults.detected_weapons results;
       Incident.alert_level := AnalysisResults.alert_level results;
       Incident.severity := AnalysisResults.severity results;
       Incident.risk_assessment := AnalysisResults.risk_assessment results;
       Incident.location := location_data inp;
       Incident.status := "Active";
       Incident.recommendations :=
         get_recommendations (AnalysisResults.severity results) |}).
  eapply triple_bind with
    (R := fun l w => (ready xs w /\ incidents w = Some l) /\ analysis_derived results).
  { intros w [Hw Hres]. pose proof (triple_session_incidents xs (after_run inp xs) w Hw) as H.
    destruct (session_incidents w) as [[l|e] w']; [done | done]. }
  intros l.
  assert (forall w, ready (xs ++ [incident_data]) w -> analysis_derived results ->
                    after_run inp xs w) as Hafter.
  { intros w Hw Hres. right. exists incident_data.
    split; [done|]. split; [exact Hres|]. by repeat split. }
  eapply triple_bind with
    (R := fun _ w => ready (xs ++ [incident_data]) w /\ analysis_derived results).
  { intros w [Hw Hres]. pose proof (triple_list_append xs l incident_data (after_run inp xs) w Hw) as H.
    destruct (list_append l incident_data w) as [[[]|e] w']; [done | done]. }
  intros _.
  eapply triple_bind with
    (R := fun _ w => ready (xs ++ [incident_data]) w /\ analysis_derived results).
  { intros w [Hw Hres]. by split; [apply (triple_emit _ _ (fun _ => True) w Hw) |]. }
  intros _. intros w [Hw Hres].
  pose proof (triple_del_analysis_results _ w Hw) as H.
  destruct (del_analysis_results w) as [[[]|e] w']; by apply Hafter.
Qed.

(** ** The history page *)

Lemma triple_pure {A : Type} (fact : Prop) (P : World -> Prop) (m : M A)
    (Q : A -> World -> Prop) (E : World -> Prop) :
  (fact -> triple P m Q E) -> triple (fun w => P w /\ fact) m Q E.
Proof. intros Hm w [HP Hfact]. by apply Hm. Qed.

Lemma triple_fresh_list xs (l0 : positive) h0 (ys : list Incident.t)
    (E : World -> Prop) :
  triple (session_list xs l0 h0) (new_list ys)
    (fun l w => (session_list xs l0 h0 w /\ list_at l ys w) /\ l ∉ dom h0) E.
Proof.
  intros w (Hw & Hl0 & Hdom).
  pose proof (ready_new_list xs ys w Hw) as Hr.
  unfold new_list, session_list, list_at in *. cbn in *.
  split; [split; [split; [done | split; [done|]] | by rewrite lookup_insert_eq] |].
  - rewrite dom_insert_L. set_solver.
  - intros Hin. apply Hdom in Hin. by apply is_fresh in Hin.
Qed.

Lemma triple_list_copy xs (l0 : positive) h0 (E : World -> Prop) :
  triple (session_list xs l0 h0) (list_copy l0)
    (fun l w => (session_list xs l0 h0 w /\ list_at l xs w) /\ l ∉ dom h0) E.
Proof.
  unfold list_copy. step as stored; [apply triple_items | cbn beta].
  intros w [(Hw & Hl0 & Hdom) ->].
  assert (heap w !!! l0 = xs) as ->.
  { destruct Hw as [[_ Hxs] _]. unfold stored_incidents in Hxs.
    by rewrite Hl0 in Hxs. }
  by apply triple_fresh_list.
Qed.

Lemma triple_list_comprehension xs (l0 k : positive) h0 (p : Incident.t -> bool)
    (zs : list Incident.t) (E : World -> Prop) :
  triple (fun w => session_list xs l0 h0 w /\ list_at k zs w)
    (list_comprehension p k)
    (fun l w => (session_list xs l0 h0 w /\ list_at l (List.filter p zs) w) /\
                l ∉ dom h0) E.
Proof.
  unfold list_comprehension. step as stored; [apply triple_items | cbn beta].
  intros w [[Hw Hk] ->].
  rewrite (lookup_total_correct _ _ _ Hk), comprehension_filter.
  by apply triple_fresh_list.
Qed.

Lemma triple_filter_step xs (l0 k : positive) h0 (choice : string)
    (field : Incident.t -> string) (zs : list Incident.t) (E : World -> Prop) :
  triple (fun w => (session_list xs l0 h0 w /\ list_at k zs w) /\ k ∉ dom h0)
    (if negb (String.eqb choice "All")
     then list_comprehension (fun i => String.eqb (field i) choice) k
     else mret k)
    (fun l w => (session_list xs l0 h0 w /\ list_at l (keep choice field zs) w) /\
                l ∉ dom h0)
    E.
Proof.
  unfold keep. destruct (String.eqb choice "All"); cbn [negb].
  - by apply triple_ret.
  - apply triple_pure. intros _. apply triple_list_comprehension.
Qed.

Lemma triple_session_list xs (l0 : positive) h0 (E : World -> Prop) :
  triple (session_list xs l0 h0) session_incidents
    (fun l w => session_list xs l0 h0 w /\ l = l0) E.
Proof.
  intros w (Hw & Hl0 & Hdom). unfold session_incidents, raise. by rewrite Hl0.
Qed.

Lemma triple_apply_filters_at xs (l0 : positive) h0
    filter_county filter_severity filter_status (E : World -> Prop) :
  triple (session_list xs l0 h0)
    (apply_filters filter_county filter_severity filter_status)
    (fun l w =>
       (session_list xs l0 h0 w /\
        list_at l (filtered filter_county filter_severity filter_status xs) w) /\
       l ∉ dom h0) E.
Proof.
  unfold apply_filters, filtered.
  step as incidents; [apply triple_session_list | cbn beta].
  apply triple_pure. intros ->.
  step as copied; [apply triple_list_copy | cbn beta].
  step as by_county; [apply triple_filter_step | cbn beta].
  step as by_severity; [apply triple_filter_step | cbn beta].
  step as by_status; [apply triple_filter_step | cbn beta].
  by apply triple_ret.
Qed.

Lemma triple_items_any (l : positive) (P : World -> Prop) (E : World -> Prop) :
  triple P (items l) (fun _ => P) E.
Proof. by intros w Hw. Qed.

Lemma triple_show_incidents xs (keys : list string) (shown : list Incident.t) :
  triple (ready xs) (show_incidents keys shown) (fun _ => ready xs) (ready xs).
Proof.
  revert keys. induction shown as [|incident rest IH]; intros keys;
    cbn [show_incidents]; [by apply triple_ret|].
  step as u; [apply triple_emit | cbn beta zeta].
  case_bool_decide; [by intros w Hw | apply IH].
Qed.

Lemma triple_main_history xs inp :
  triple (ready xs) (main_history inp) (fun _ => ready xs) (ready xs).
Proof.
  intros w Hw. pose proof Hw as [_ [l0 Hl0]].
  cut (triple (session_list xs l0 (heap w)) (main_history inp)
         (fun _ => ready xs) (ready xs)).
  { intros Hcut. by apply Hcut. }
  unfold main_history.
  step as incidents; [apply triple_session_list | cbn beta].
  apply triple_pure. intros ->.
  step as stored; [apply triple_items_any | cbn beta].
  destruct stored as [|x stored]; [apply triple_ret; by intros w' [Hw' _]|].
  step as filtered_incidents; [apply triple_apply_filters_at | cbn beta].
  step as shown; [apply triple_items_any | cbn beta].
  apply (triple_weaken _ (ready xs) _ _ (fun _ => ready xs) _ (ready xs));
    [|intros w' [[[Hw' _] _] _]; exact Hw' | done | done].
  step as u; [apply triple_emit | apply triple_show_incidents].
Qed.

(** ** A run of the script *)

Lemma ready_after_run inp xs w : ready xs w -> after_run inp xs w.
Proof. by left. Qed.

Lemma triple_main xs inp :
  triple (ready xs) (main inp) (fun _ => after_run inp xs) (after_run inp xs).
Proof.
  unfold main.
  assert (forall m : M unit,
            triple (ready xs) m (fun _ => ready xs) (ready xs) ->
            triple (ready xs) m (fun _ => after_run inp xs) (after_run inp xs))
    as Hquiet.
  { intros m Hm. eapply triple_weaken; [exact Hm | done | |];
      intros; by apply ready_after_run. }
  step as models.
  { eapply triple_weaken;
      [apply triple_st_cache_resource, triple_load_models | done | |].
    - intros a w Hw. exact Hw.
    - apply ready_after_run. }
  destruct models as [object_detector sentiment_analyzer]. cbn beta iota.
  destruct (String.eqb_spec (in_page inp) "🚨 Report Incident") as [Hpage|_].
  { step as u.
    - eapply triple_weaken; [apply triple_main_analyze | done | |].
      + intros a w Hw. exact Hw.
      + apply ready_after_run.
    - by apply triple_main_submit. }
  destruct (String.eqb (in_page inp) "📊 Dashboard");
    [apply Hquiet; by apply triple_ret|].
  destruct (String.eqb (in_page inp) "🗺️ Incident Map");
    [apply Hquiet; by apply triple_ret|].
  destruct (String.eqb (in_page inp) "📋 Incident History");
    [apply Hquiet, triple_main_history | apply Hquiet; by apply triple_ret].
Qed.

Lemma triple_init_session_state xs (E : World -> Prop) :
  triple (stable xs) init_session_state (fun _ => ready xs) E.
Proof.
  intros w Hw. pose proof Hw as [[Hheap Hres] Hxs].
  unfold init_session_state, has_incidents, new_list, store_incidents,
    mbind, M_bind, mret, M_ret. cbn.
  destruct (incidents w) as [l|] eqn:Hl; cbn.
  - split; [done | by rewrite Hl].
  - unfold stored_incidents in Hxs. rewrite Hl in Hxs.
    split; [split; [split|] | done]; cbn.
    + intros l [= <-]. rewrite lookup_insert_eq. by eexists.
    + done.
    + unfold stored_incidents. cbn. by rewrite lookup_total_insert_eq.
Qed.

Lemma triple_script xs inp :
  triple (stable xs) (script inp) (fun _ => after_run inp xs) (after_run inp xs).
Proof.
  unfold script. step as u; [apply triple_init_session_state | apply triple_main].
Qed.

Lemma run_after_run xs w inp : stable xs w -> after_run inp xs (run w inp).
Proof.
  intros Hw. pose proof (triple_script xs inp w Hw) as Hrun. unfold run.
  by destruct (script inp w) as [[[]|e] w'].
Qed.

Lemma stable_fresh_world : stable [] fresh_world.
Proof. by repeat split. Qed.

Lemma stored_after_run inp xs w :
  after_run inp xs w ->
  exists xs', stable xs' w /\ is_Some (incidents w) /\
    (xs' = xs \/
     exists i, xs' = xs ++ [i] /\ derived_by_aggregator i /\
       Incident.id i = submitted_id inp /\
       in_page inp = "🚨 Report Incident" /\ in_submit inp = true).
Proof.
  intros [[Hst Hinc] | [i ([Hst Hinc] & Hi)]].
  - exists xs. split; [done|]. split; [done | by left].
  - exists (xs ++ [i]). split; [done|]. split; [done|]. right. by exists i.
Qed.

(** The world after any runs is stable, and all its incidents are derived. *)
Lemma runs_stable (inps : list (Inputs UploadedFile)) (w : World)
    (xs : list Incident.t) :
  stable xs w -> Forall derived_by_aggregator xs ->
  exists xs', stable xs' (runs inps w) /\ Forall derived_by_aggregator xs'.
Proof.
  revert w xs. induction inps as [|inp inps IH]; intros w xs Hw Hxs; cbn.
  - by exists xs.
  - destruct (stored_after_run inp xs _ (run_after_run xs w inp Hw))
      as (xs' & Hst & _ & Hxs').
    apply (IH _ xs' Hst). destruct Hxs' as [-> | (i & -> & Hi & _)]; [done|].
    apply Forall_app. split; [done | by apply Forall_singleton].
Qed.

Lemma reachable_stable (inps : list (Inputs UploadedFile)) :
  exists xs, stable xs (runs inps fresh_world) /\ Forall derived_by_aggregator xs.
Proof. by apply (runs_stable inps fresh_world [] stable_fresh_world). Qed.

(** One run keeps the stored incidents or adds one at the end. *)
Lemma run_appends (inps : list (Inputs UploadedFile)) (inp : Inputs UploadedFile) :
  let w := runs inps fresh_world in
  is_Some (incidents (run w inp)) /\ well_formed (run w inp) /\
  (stored_incidents (run w inp) = stored_incidents w \/
   exists i, stored_incidents (run w inp) = stored_incidents w ++ [i] /\
     derived_by_aggregator i /\ Incident.id i = submitted_id inp /\
     in_page inp = "🚨 Report Incident" /\ in_submit inp = true).
Proof.
  cbn zeta. destruct (reachable_stable inps) as (xs & Hst & _).
  destruct (stored_after_run inp xs _ (run_after_run xs _ inp Hst))
    as (xs' & [Hwf Hxs'] & Hinc & Hcases).
  destruct Hst as [_ Hxs]. rewrite Hxs, Hxs'. done.
Qed.

(** C4. In the world after any runs, the alert level, the severity and
    the risk assessment of every stored incident are the answer of the
    aggregator on the incident's [detected_weapons], which for an incident
    with Detections is the outcome of one of them of highest precedence;
    and a further run leaves every stored incident in place, as a prefix
    of the new list. *)
Theorem incidents_follow_aggregator
    (inps : list (Inputs UploadedFile)) (inp : Inputs UploadedFile)
    (sentiment_analyzer : option SentimentAnalyzer) :
  let w := runs inps fresh_world in
  Forall
    (fun i =>
       (Incident.alert_level i, Incident.severity i, Incident.risk_assessment i) =
         analyze_threat_level (Incident.detected_weapons i) sentiment_analyzer /\
       (Incident.detected_weapons i <> [] ->
        exists top : Detection.t,
          top ∈ Incident.detected_weapons i /\
          (forall d, d ∈ Incident.detected_weapons i ->
             precedence (Detection.risk d) <= precedence (Detection.risk top)) /\
          (Incident.alert_level i, Incident.severity i,
           Incident.risk_assessment i) = outcome (Detection.risk top)))
    (stored_incidents w) /\
  stored_incidents w `prefix_of` stored_incidents (run w inp).
Proof.
  cbn zeta. split.
  - destruct (reachable_stable inps) as (xs & [_ Hxs] & Hderived).
    rewrite Hxs. eapply Forall_impl; [exact Hderived|].
    intros i Hi. split; [exact Hi|]. intros Hdetections.
    unfold derived_by_aggregator in Hi. rewrite Hi.
    destruct (Incident.detected_weapons i) as [|d ds]; [done|].
    apply analyze_threat_level_top.
  - destruct (run_appends inps inp) as (_ & _ & [-> | (i & -> & _)]); [done|].
    by apply prefix_app_r.
Qed.

(** ** Filtering *)

Lemma filter_eqb (field : Incident.t -> string) (choice : string)
    (xs : list Incident.t) :
  List.filter (fun i => String.eqb (field i) choice) xs =
    filter (fun i => field i = choice) xs.
Proof.
  induction xs as [|x xs IH]; [done|]. cbn [List.filter].
  rewrite filter_cons, <- IH.
  destruct (String.eqb_spec (field x) choice);
    destruct (decide (field x = choice)); done.
Qed.

(** From a world a run has left, the filters return a list object that
    was not there before; the session still refers to its own list, whose
    items are as before. *)
Lemma apply_filters_returns (inps : list (Inputs UploadedFile))
    (inp : Inputs UploadedFile)
    (filter_county filter_severity filter_status : string) :
  let w := run (runs inps fresh_world) inp in
  exists (l : positive) (w' : World),
    apply_filters filter_county filter_severity filter_status w = (Ok l, w') /\
    heap w !! l = None /\
    incidents w' <> Some l /\
    incidents w' = incidents w /\
    stored_incidents w' = stored_incidents w /\
    heap w' !! l =
      Some (filtered filter_county filter_severity filter_status (stored_incidents w)).
Proof.
  cbn zeta. destruct (reachable_stable inps) as (xs & Hst & _).
  destruct (stored_after_run inp xs _ (run_after_run xs _ inp Hst))
    as (xs' & Hst' & [l0 Hl0] & _).
  set (w := run (runs inps fresh_world) inp) in *.
  assert (session_list xs' l0 (heap w) w) as Hw.
  { split; [split; [done | by eexists] | by split]. }
  pose proof (triple_apply_filters_at xs' l0 (heap w) filter_county filter_severity
                filter_status (fun _ => False) w Hw) as Hrun.
  destruct (apply_filters _ _ _ w) as [[l|e] w']; [|done].
  destruct Hrun as [[([[_ Hxs'] _] & Hl0' & _) Hl] Hfresh].
  assert (l <> l0) as Hne.
  { intros ->. apply Hfresh, elem_of_dom. destruct Hst' as [[Hheap _] _].
    by apply Hheap. }
  exists l, w'. split; [done|]. rewrite Hl0', Hl0, Hxs'.
  destruct Hst' as [_ ->]. split; [by apply not_elem_of_dom|].
  repeat split; try done. by intros [= ->].
Qed.

(** C5. In a session that has run, filtering by a county (a choice other
    than "All", with the two other filters on "All") returns a list whose
    items are the stored incidents with that [location.county], each as
    often as it is stored and in the stored order. *)
Theorem filter_by_county (inps : list (Inputs UploadedFile))
    (inp : Inputs UploadedFile) (county : string) :
  county <> "All" ->
  let w := run (runs inps fresh_world) inp in
  exists (l : positive) (w' : World) (shown : list Incident.t),
    apply_filters county "All" "All" w = (Ok l, w') /\
    heap w' !! l = Some shown /\
    shown = filter (fun i => Location.county (Incident.location i) = county)
                   (stored_incidents w) /\
    (forall i, i ∈ shown <->
               i ∈ stored_incidents w /\
               Location.county (Incident.location i) = county) /\
    shown `sublist_of` stored_incidents w.
Proof.
  intros Hcounty. cbn zeta.
  destruct (apply_filters_returns inps inp county "All" "All")
    as (l & w' & Hrun & _ & _ & _ & _ & Hl).
  exists l, w'. eexists. split; [exact Hrun|]. split; [exact Hl|].
  unfold filtered, keep. cbn.
  destruct (String.eqb_spec county "All") as [|_]; [done|].
  rewrite filter_eqb. split; [done|]. split.
  - intros i. rewrite list_elem_of_filter. tauto.
  - apply sublist_filter.
Qed.

(** C9. A run keeps the stored incidents as they are or adds one at the
    end; and the filters of the history page, for any three choices,
    return a list object that did not exist before and is not the
    session's list, hold there the stored incidents the choices keep, and
    leave the session's list and its items as they were. *)
Theorem incident_store_append_only (inps : list (Inputs UploadedFile))
    (inp : Inputs UploadedFile)
    (filter_county filter_severity filter_status : string) :
  let w := runs inps fresh_world in
  (stored_incidents (run w inp) = stored_incidents w \/
   exists i, stored_incidents (run w inp) = stored_incidents w ++ [i]) /\
  exists (l : positive) (w' : World),
    apply_filters filter_county filter_severity filter_status (run w inp) =
      (Ok l, w') /\
    heap (run w inp) !! l = None /\
    incidents w' <> Some l /\
    incidents w' = incidents (run w inp) /\
    stored_incidents w' = stored_incidents (run w inp) /\
    heap w' !! l =
      Some (filtered filter_county filter_severity filter_status
              (stored_incidents (run w inp))).
Proof.
  cbn zeta. split.
  - destruct (run_appends inps inp) as (_ & _ & [Hsame | (i & Hi & _)]);
      [by left | right; by exists i].
  - apply apply_filters_returns.
Qed.

(** ** Incident ids *)

Lemma directive_same_second (d : ascii) (t1 t2 : datetime) :
  same_second t1 t2 -> directive d t1 = directive d t2.
Proof.
  intros (Hy & Hm & Hd & HH & HM & HS). unfold directive.
  by rewrite Hy, Hm, Hd, HH, HM, HS.
Qed.

Lemma strftime_same_second (t1 t2 : datetime) (fmt : string) :
  same_second t1 t2 -> strftime t1 fmt = strftime t2 fmt.
Proof.
  intros Hsame.
  cut (forall n fmt, String.length fmt < n -> strftime t1 fmt = strftime t2 fmt).
  { intros Hcut. by apply (Hcut (S (String.length fmt))); lia. }
  clear fmt. intros n. induction n as [|n IH]; intros fmt Hlen; [lia|].
  destruct fmt as [|c rest]; [done|]. cbn [strftime].
  destruct (Ascii.eqb c "%").
  - destruct rest as [|d rest']; [done|].
    rewrite (directive_same_second d t1 t2 Hsame). f_equal.
    apply IH. cbn in Hlen. lia.
  - f_equal. apply IH. cbn in Hlen. lia.
Qed.

(** C10. When a run from a reachable world adds the incident [i1] and
    another such run adds [i2], each id is "INC_" followed by the reading
    of the clock of its run in the format [%Y%m%d_%H%M%S]; and if the two
    readings fall in the same calendar second, the two ids are equal. *)
Theorem incident_id_of_submission_second
    (inps1 inps2 : list (Inputs UploadedFile)) (inp1 inp2 : Inputs UploadedFile)
    (i1 i2 : Incident.t) :
  let w1 := runs inps1 fresh_world in
  let w2 := runs inps2 fresh_world in
  stored_incidents (run w1 inp1) = stored_incidents w1 ++ [i1] ->
  stored_incidents (run w2 inp2) = stored_incidents w2 ++ [i2] ->
  Incident.id i1 = "INC_" +:+ strftime (in_now_id inp1) "%Y%m%d_%H%M%S" /\
  Incident.id i2 = "INC_" +:+ strftime (in_now_id inp2) "%Y%m%d_%H%M%S" /\
  (same_second (in_now_id inp1) (in_now_id inp2) ->
   Incident.id i1 = Incident.id i2).
Proof.
  cbn zeta. intros Hrun1 Hrun2.
  assert (forall inps inp i,
            stored_incidents (run (runs inps fresh_world) inp) =
              stored_incidents (runs inps fresh_world) ++ [i] ->
            Incident.id i = submitted_id inp) as Hid.
  { intros inps inp i Hrun.
    destruct (run_appends inps inp) as (_ & _ & [Hsame | (i' & Hi' & _ & Hid & _)]).
    - rewrite Hsame in Hrun. apply (f_equal length) in Hrun.
      rewrite length_app in Hrun. cbn in Hrun. lia.
    - rewrite Hi' in Hrun. by apply app_inj_tail in Hrun as [_ <-]. }
  rewrite (Hid inps1 inp1 i1 Hrun1), (Hid inps2 inp2 i2 Hrun2).
  unfold submitted_id. split; [done|]. split; [done|].
  intros Hsame. by rewrite (strftime_same_second _ _ _ Hsame).
Qed.

(** * More of the script *)

(** ** The classifier: failure of the detector, and what it never emits *)

(** X1. When the call of the detector raises, [detect_weapons] returns the
    empty list and puts one error message with the text of the exception
    on the page; nothing else of the world changes. *)
Theorem detect_weapons_detector_raises (image : Image) (object_detector : Detector)
    (e : Exception) (w : World) :
  object_detector image = Raise e ->
  detect_weapons image (Some object_detector) w =
    (Ok [], set_screen (screen w ++ [StError ("Error in weapon detection: " +:+ e)]) w).
Proof.
  intros Hcall.
  unfold detect_weapons, try_except, call, st_error, emit, mbind, M_bind, mret, M_ret.
  by rewrite Hcall.
Qed.

(** The Detections of one item, keyword by keyword. *)
Lemma item_detections_unfold (result : DetectorOutput) :
  item_detections result =
    (if str_in "knife" (lower (label result))
     then [detection_of "knife" (entry "SERIOUS" "🟡 Yellow" "Medium") result] else []) ++
    (if str_in "gun" (lower (label result))
     then [detection_of "gun" (entry "SERIOUS-URGENT" "🔴 Red" "High") result] else []) ++
    (if str_in "pistol" (lower (label result))
     then [detection_of "pistol" (entry "SERIOUS-URGENT" "🔴 Red" "High") result] else []) ++
    (if str_in "rifle" (lower (label result))
     then [detection_of "rifle" (entry "SERIOUS-URGENT" "🔴 Red" "High") result] else []) ++
    (if str_in "stick" (lower (label result))
     then [detection_of "stick" (entry "LOW" "🟢 Green" "Low") result] else []).
Proof.
  unfold item_detections, weapon_keywords. cbn [flat_map].
  unfold keyword_detections.
  rewrite !keyword_matches_one_word by reflexivity.
  destruct table_of_scanned_keywords as (-> & -> & -> & -> & -> & ->).
  destruct (keyword_matches "baseball bat" (lower (label result)));
    by rewrite !app_nil_r.
Qed.

Lemma item_detections_sound (result : DetectorOutput) (d : Detection.t) :
  d ∈ item_detections result ->
  table_consistent d /\
  Detection.weapon d ∈ ["gun"; "pistol"; "rifle"; "knife"; "stick"] /\
  contains (Detection.weapon d) (lower (label result)) /\
  Detection.confidence d = score result /\
  Detection.box d = box result.
Proof.
  rewrite item_detections_unfold. rewrite !elem_of_app.
  intros Hd.
  repeat match goal with
         | H : _ \/ _ |- _ => destruct H as [H|H]
         end;
    match goal with
    | H : d ∈ (if str_in ?k ?l then _ else _) |- _ =>
        destruct (str_in k l) eqn:Hin; [|by apply elem_of_nil in H];
        apply list_elem_of_singleton in H; subst d;
        apply str_in_contains in Hin
    end;
    (split; [reflexivity|]); (split; [set_solver|]); done.
Qed.

(** What [detect_weapons] returns in each of its three cases: the
    Detections of the items of the detector's output, or the empty list. *)
Lemma detect_weapons_outcome (image : Image) (object_detector : option Detector)
    (w : World) :
  exists (detections : list Detection.t) (w' : World),
    detect_weapons image object_detector w = (Ok detections, w') /\
    heap w' = heap w /\ incidents w' = incidents w /\
    analysis_results w' = analysis_results w /\ cache w' = cache w /\
    (detections = [] \/
     exists (detector : Detector) (results : list DetectorOutput),
       object_detector = Some detector /\ detector image = Ok results /\
       detections = flat_map item_detections results).
Proof.
  destruct object_detector as [detector|].
  - destruct (detector image) as [results|e] eqn:Hcall.
    + exists (flat_map item_detections results), w.
      split; [by apply detect_weapons_returns|].
      do 4 (split; [reflexivity|]). right. by exists detector, results.
    + exists [], (set_screen (screen w ++ [StError ("Error in weapon detection: " +:+ e)]) w).
      split.
      { unfold detect_weapons, try_except, call, st_error, emit, mbind, M_bind,
          mret, M_ret. by rewrite Hcall. }
      do 4 (split; [reflexivity|]). by left.
  - exists [], w. split; [reflexivity|]. do 4 (split; [reflexivity|]). by left.
Qed.

(** X2. [detect_weapons] always returns, for every image, detector and
    world, and touches nothing but the page; each Detection it returns has
    the severity, alert level and risk of the table entry of its weapon,
    which is one of gun, pistol, rifle, knife and stick, and carries the
    score and the box of an item of the detector's output whose lower-cased
    label contains the weapon. *)
Theorem detect_weapons_sound (image : Image) (object_detector : option Detector)
    (w : World) :
  exists (detections : list Detection.t) (w' : World),
    detect_weapons image object_detector w = (Ok detections, w') /\
    heap w' = heap w /\ incidents w' = incidents w /\
    analysis_results w' = analysis_results w /\ cache w' = cache w /\
    forall d, d ∈ detections ->
      table_consistent d /\
      Detection.weapon d ∈ ["gun"; "pistol"; "rifle"; "knife"; "stick"] /\
      exists (detector : Detector) (results : list DetectorOutput)
             (result : DetectorOutput),
        object_detector = Some detector /\ detector image = Ok results /\
        result ∈ results /\
        contains (Detection.weapon d) (lower (label result)) /\
        Detection.confidence d = score result /\
        Detection.box d = box result.
Proof.
  destruct (detect_weapons_outcome image object_detector w)
    as (detections & w' & Hrun & Hheap & Hincidents & Hresults & Hcache & Hcases).
  exists detections, w'. do 5 (split; [done|]). intros d Hd.
  destruct Hcases as [-> | (detector & results & -> & Hcall & ->)];
    [by apply elem_of_nil in Hd|].
  apply list_elem_of_In, in_flat_map in Hd as (result & Hresult & Hd).
  apply list_elem_of_In in Hresult, Hd.
  destruct (item_detections_sound result d Hd) as (Ht & Hw & Hc & Hs & Hb).
  split; [done|]. split; [done|]. by exists detector, results, result.
Qed.

(** ** From the labels of an image to its threat level *)

Lemma risk_of_item (risk : string) (keywords : list string)
    (result : DetectorOutput) :
  (risk = "High" /\ keywords = ["gun"; "pistol"; "rifle"]) \/
  (risk = "Medium" /\ keywords = ["knife"]) \/
  (risk = "Low" /\ keywords = ["stick"]) ->
  bool_decide (risk ∈ map Detection.risk (item_detections result)) =
    existsb (fun k => str_in k (lower (label result))) keywords.
Proof.
  intros Hcases. rewrite item_detections_unfold.
  destruct Hcases as [[-> ->] | [[-> ->] | [-> ->]]]; cbn [existsb];
    destruct (str_in "knife" (lower (label result))),
             (str_in "gun" (lower (label result))),
             (str_in "pistol" (lower (label result))),
             (str_in "rifle" (lower (label result))),
             (str_in "stick" (lower (label result))); reflexivity.
Qed.

Lemma risk_of_detections (risk : string) (keywords : list string)
    (results : list DetectorOutput) :
  (risk = "High" /\ keywords = ["gun"; "pistol"; "rifle"]) \/
  (risk = "Medium" /\ keywords = ["knife"]) \/
  (risk = "Low" /\ keywords = ["stick"]) ->
  bool_decide (risk ∈ map Detection.risk (flat_map item_detections results)) =
    mentions keywords results.
Proof.
  intros Hcases. induction results as [|result results IH]; [done|].
  cbn [flat_map mentions existsb]. rewrite map_app.
  rewrite <- (risk_of_item risk keywords result Hcases).
  fold (mentions keywords results). rewrite <- IH.
  rewrite <- bool_decide_or. apply bool_decide_ext. by rewrite elem_of_app.
Qed.

Lemma no_detections (results : list DetectorOutput) :
  flat_map item_detections results = [] ->
  mentions ["gun"; "pistol"; "rifle"] results = false /\
  mentions ["knife"] results = false /\ mentions ["stick"] results = false.
Proof.
  intros Hnone.
  rewrite <- (risk_of_detections "High" ["gun"; "pistol"; "rifle"]) by (by left).
  rewrite <- (risk_of_detections "Medium" ["knife"]) by (right; by left).
  rewrite <- (risk_of_detections "Low" ["stick"]) by (right; by right).
  by rewrite Hnone.
Qed.

Lemma only_low_detections (ds : list Detection.t) :
  Forall (fun d => Detection.risk d ∈ ["High"; "Medium"; "Low"]) ds ->
  ds <> [] -> "High" ∉ map Detection.risk ds -> "Medium" ∉ map Detection.risk ds ->
  "Low" ∈ map Detection.risk ds.
Proof.
  intros Hrisks Hne Hhigh Hmed. destruct ds as [|d ds]; [done|].
  apply Forall_cons in Hrisks as [Hd _]. cbn [map].
  assert (Detection.risk d = "Low") as ->; [|by left].
  repeat (apply elem_of_cons in Hd as [Hd|Hd]); [| | done | by apply elem_of_nil in Hd].
  - destruct Hhigh. rewrite <- Hd. by left.
  - destruct Hmed. rewrite <- Hd. by left.
Qed.

(** The threat level of the Detections of a detector output, from the
    lower-cased labels. *)
Lemma threat_level_of_items (results : list DetectorOutput)
    (sentiment_analyzer : option SentimentAnalyzer) :
  analyze_threat_level (flat_map item_detections results) sentiment_analyzer =
    if mentions ["gun"; "pistol"; "rifle"] results then
      ("🔴 Red", "SERIOUS-URGENT",
       "Immediate action required - High-risk weapons detected")
    else if mentions ["knife"] results then
      ("🟡 Yellow", "SERIOUS", "Caution advised - Medium-risk weapons detected")
    else if mentions ["stick"] results then
      ("🟢 Green", "LOW", "Monitor situation - Low-risk items detected")
    else ("🟢 Green", "LOW", "No immediate threat detected").
Proof.
  destruct (flat_map item_detections results) as [|d ds] eqn:Hds.
  { destruct (no_detections results Hds) as (-> & -> & ->). reflexivity. }
  unfold analyze_threat_level. rewrite <- Hds.
  assert (Forall (fun d => Detection.risk d ∈ ["High"; "Medium"; "Low"])
            (flat_map item_detections results)) as Hrisks.
  { apply Forall_forall. intros d' Hd'.
    apply list_elem_of_In, in_flat_map in Hd' as (result & _ & Hd').
    apply list_elem_of_In in Hd'. revert Hd'. rewrite item_detections_unfold.
    rewrite !elem_of_app. intros Hd'.
    repeat match goal with
           | H : _ \/ _ |- _ => destruct H as [H|H]
           end;
      match goal with
      | H : d' ∈ (if ?b then _ else _) |- _ =>
          destruct b; [|by apply elem_of_nil in H];
          apply list_elem_of_singleton in H; subst d'; cbn; set_solver
      end. }
  rewrite <- (risk_of_detections "High" ["gun"; "pistol"; "rifle"]) by (by left).
  rewrite <- (risk_of_detections "Medium" ["knife"]) by (right; by left).
  rewrite <- (risk_of_detections "Low" ["stick"]) by (right; by right).
  destruct (decide ("High" ∈ map Detection.risk (flat_map item_detections results)))
    as [Hhigh|Hhigh].
  { by rewrite (bool_decide_eq_true_2 _ Hhigh). }
  rewrite (bool_decide_eq_false_2 _ Hhigh).
  destruct (decide ("Medium" ∈ map Detection.risk (flat_map item_detections results)))
    as [Hmed|Hmed].
  { by rewrite (bool_decide_eq_true_2 _ Hmed). }
  rewrite (bool_decide_eq_false_2 _ Hmed).
  rewrite bool_decide_eq_true_2; [done|].
  apply only_low_detections; [done | by rewrite Hds | done | done].
Qed.

(** X3. When the detector returns, the threat level of the image follows
    from the lower-cased labels alone: red when one of them contains gun,
    pistol or rifle; else yellow when one contains knife; else green with
    "Monitor situation" when one contains stick; else the no-threat
    triple. *)
Theorem threat_level_of_labels (image : Image) (object_detector : Detector)
    (results : list DetectorOutput)
    (sentiment_analyzer : option SentimentAnalyzer) (w : World) :
  object_detector image = Ok results ->
  exists detections : list Detection.t,
    detect_weapons image (Some object_detector) w = (Ok detections, w) /\
    analyze_threat_level detections sentiment_analyzer =
      if mentions ["gun"; "pistol"; "rifle"] results then
        ("🔴 Red", "SERIOUS-URGENT",
         "Immediate action required - High-risk weapons detected")
      else if mentions ["knife"] results then
        ("🟡 Yellow", "SERIOUS", "Caution advised - Medium-risk weapons detected")
      else if mentions ["stick"] results then
        ("🟢 Green", "LOW", "Monitor situation - Low-risk items detected")
      else ("🟢 Green", "LOW", "No immediate threat detected").
Proof.
  intros Hcall. exists (flat_map item_detections results).
  split; [by apply detect_weapons_returns | apply threat_level_of_items].
Qed.

(** ** The colours of the boxes *)

Lemma draw_detection_boxes_flat_map (detections : list Detection.t) :
  draw_detection_boxes detections =
    flat_map
      (fun d =>
         [DrawRectangle (xmin (Detection.box d)) (ymin (Detection.box d))
            (xmax (Detection.box d)) (ymax (Detection.box d))
            (alert_color (Detection.alert_level d)) 3;
          DrawText (xmin (Detection.box d)) (ymin (Detection.box d) - 20)
            (Detection.weapon d +:+ " (" +:+
             format_2f (Detection.confidence d) +:+ ")")
            (alert_color (Detection.alert_level d))
            (match ImageFont_load_default with
             | Ok font => Some font
             | Raise _ => None
             end)])
      detections.
Proof.
  unfold draw_detection_boxes. destruct detections as [|d ds]; [done|].
  etransitivity; [apply fold_left_emit | reflexivity].
  intros acc x. by rewrite <- app_assoc.
Qed.

Lemma alert_color_of_table (d : Detection.t) :
  table_consistent d ->
  Detection.weapon d ∈ ["gun"; "pistol"; "rifle"; "knife"; "stick"] ->
  alert_color (Detection.alert_level d) = risk_color (Detection.risk d).
Proof.
  unfold table_consistent. intros Htable Hweapon.
  destruct d as [weapon confidence box severity alert_level risk].
  cbn [Detection.weapon Detection.severity Detection.alert_level Detection.risk] in *.
  destruct table_of_scanned_keywords as (Hknife & Hgun & Hpistol & Hrifle & Hstick & _).
  repeat (apply elem_of_cons in Hweapon as [-> | Hweapon]);
    [.. | by apply elem_of_nil in Hweapon].
  - rewrite Hgun in Htable. by injection Htable as <- <- <-.
  - rewrite Hpistol in Htable. by injection Htable as <- <- <-.
  - rewrite Hrifle in Htable. by injection Htable as <- <- <-.
  - rewrite Hknife in Htable. by injection Htable as <- <- <-.
  - rewrite Hstick in Htable. by injection Htable as <- <- <-.
Qed.

Lemma draw_detection_boxes_by_risk (detections : list Detection.t) :
  (forall d, d ∈ detections ->
     table_consistent d /\
     Detection.weapon d ∈ ["gun"; "pistol"; "rifle"; "knife"; "stick"]) ->
  draw_detection_boxes detections =
    flat_map
      (fun d =>
         [DrawRectangle (xmin (Detection.box d)) (ymin (Detection.box d))
            (xmax (Detection.box d)) (ymax (Detection.box d))
            (risk_color (Detection.risk d)) 3;
          DrawText (xmin (Detection.box d)) (ymin (Detection.box d) - 20)
            (Detection.weapon d +:+ " (" +:+
             format_2f (Detection.confidence d) +:+ ")")
            (risk_color (Detection.risk d))
            (match ImageFont_load_default with
             | Ok font => Some font
             | Raise _ => None
             end)])
      detections.
Proof.
  intros Hsound. rewrite draw_detection_boxes_flat_map.
  induction detections as [|d ds IH]; [done|]. cbn [flat_map].
  rewrite IH by (intros d' Hd'; apply Hsound; by right).
  destruct (Hsound d) as (Htable & Hweapon); [by left|].
  by rewrite (alert_color_of_table d Htable Hweapon).
Qed.

(** X10. Whatever [detect_weapons] returns, [draw_detection_boxes] draws
    for each Detection, in order, the rectangle of its box with width 3
    and, 20 above the top-left corner, its weapon with the formatted
    confidence, both in the colour of its risk: red for High, orange for
    Medium, green for Low; for no Detection it draws nothing. *)
Theorem boxes_by_risk (image : Image) (object_detector : option Detector)
    (w : World) :
  exists (detections : list Detection.t) (w' : World),
    detect_weapons image object_detector w = (Ok detections, w') /\
    draw_detection_boxes detections =
      flat_map
        (fun d =>
           [DrawRectangle (xmin (Detection.box d)) (ymin (Detection.box d))
              (xmax (Detection.box d)) (ymax (Detection.box d))
              (risk_color (Detection.risk d)) 3;
            DrawText (xmin (Detection.box d)) (ymin (Detection.box d) - 20)
              (Detection.weapon d +:+ " (" +:+
               format_2f (Detection.confidence d) +:+ ")")
              (risk_color (Detection.risk d))
              (match ImageFont_load_default with
               | Ok font => Some font
               | Raise _ => None
               end)])
        detections.
Proof.
  destruct (detect_weapons_outcome image object_detector w)
    as (detections & w' & Hrun & _ & _ & _ & _ & Hcases).
  exists detections, w'. split; [done|].
  apply draw_detection_boxes_by_risk. intros d Hd.
  destruct Hcases as [-> | (detector & results & _ & _ & ->)];
    [by apply elem_of_nil in Hd|].
  apply list_elem_of_In, in_flat_map in Hd as (result & _ & Hd).
  apply list_elem_of_In in Hd.
  destruct (item_detections_sound result d Hd) as (Htable & Hweapon & _). done.
Qed.

(** ** Python dicts as item lists *)

Lemma dict_get_set {V : Type} (d : list (string * V)) (k k' : string)
    (v default : V) :
  dict_get (dict_set d k v) k' default =
    if decide (k = k') then v else dict_get d k' default.
Proof.
  unfold dict_get. induction d as [|[k0 v0] d IH]; cbn [dict_set List.find fst snd].
  - destruct (String.eqb_spec k k'); by destruct (decide (k = k')).
  - destruct (String.eqb_spec k0 k) as [->|Hk0]; cbn [List.find fst snd].
    + destruct (String.eqb_spec k k'); by destruct (decide (k = k')).
    + destruct (String.eqb_spec k0 k') as [->|Hk0']; [|exact IH].
      by destruct (decide (k = k')).
Qed.

Lemma dict_set_keys {V : Type} (d : list (string * V)) (k : string) (v : V) :
  map fst (dict_set d k v) =
    if decide (k ∈ map fst d) then map fst d else map fst d ++ [k].
Proof.
  induction d as [|[k0 v0] d IH]; cbn [dict_set map fst].
  - destruct (decide (k ∈ [])) as [Hin|_]; [by apply elem_of_nil in Hin | done].
  - destruct (String.eqb_spec k0 k) as [->|Hk0]; cbn [map fst].
    + destruct (decide (k ∈ k :: map fst d)) as [_|Hout]; [done|].
      destruct Hout. by left.
    + rewrite IH. destruct (decide (k ∈ map fst d)) as [Hin|Hout].
      * destruct (decide (k ∈ k0 :: map fst d)) as [_|Hout]; [done|].
        destruct Hout. by right.
      * destruct (decide (k ∈ k0 :: map fst d)) as [Hin|_]; [|done].
        apply elem_of_cons in Hin as [->|Hin]; done.
Qed.

Lemma dict_set_incr (d : list (string * nat)) (k : string) :
  sum_list (map snd (dict_set d k (dict_get d k 0 + 1))) =
    sum_list (map snd d) + 1.
Proof.
  unfold dict_get. induction d as [|[k0 v0] d IH]; [reflexivity|].
  cbn [dict_set List.find fst snd].
  destruct (String.eqb_spec k0 k) as [->|Hk0]; cbn [map snd fst].
  - simpl. lia.
  - change (v0 + sum_list (map snd (dict_set d k
              (match List.find (fun item => String.eqb (fst item) k) d with
               | Some item => snd item
               | None => 0
               end + 1))) = v0 + sum_list (map snd d) + 1).
    rewrite IH. lia.
Qed.

(** ** Counting *)

Lemma count_if_length {A : Type} (p : A -> bool) (xs : list A) :
  count_if p xs = length (List.filter p xs).
Proof.
  unfold count_if.
  cut (forall n, fold_left (fun total i => if p i then total + 1 else total) xs n =
                 n + length (List.filter p xs)).
  { intros Hcut. by rewrite Hcut. }
  induction xs as [|x xs IH]; intros n; cbn [fold_left List.filter length]; [lia|].
  rewrite IH. destruct (p x); cbn [length]; lia.
Qed.

Lemma count_by_get (key : Incident.t -> string) (xs : list Incident.t)
    (k : string) :
  dict_get (count_by key xs) k 0 = length (filter (fun i => key i = k) xs).
Proof.
  unfold count_by.
  cut (forall acc,
         dict_get
           (fold_left
              (fun counts incident =>
                 dict_set counts (key incident)
                   (dict_get counts (key incident) 0 + 1)) xs acc) k 0 =
         dict_get acc k 0 + length (filter (fun i => key i = k) xs)).
  { intros Hcut. by rewrite Hcut. }
  induction xs as [|x xs IH]; intros acc; cbn [fold_left].
  - rewrite filter_nil. cbn. lia.
  - rewrite IH, dict_get_set, filter_cons.
    destruct (decide (key x = k)) as [->|Hne]; cbn [length]; lia.
Qed.

Lemma count_by_keys (key : Incident.t -> string) (xs : list Incident.t) :
  NoDup (map fst (count_by key xs)) /\
  forall k, k ∈ map fst (count_by key xs) <-> exists i, i ∈ xs /\ key i = k.
Proof.
  unfold count_by.
  cut (forall acc,
         NoDup (map fst acc) ->
         NoDup (map fst
           (fold_left
              (fun counts incident =>
                 dict_set counts (key incident)
                   (dict_get counts (key incident) 0 + 1)) xs acc)) /\
         forall k,
           k ∈ map fst
             (fold_left
                (fun counts incident =>
                   dict_set counts (key incident)
                     (dict_get counts (key incident) 0 + 1)) xs acc) <->
           k ∈ map fst acc \/ exists i, i ∈ xs /\ key i = k).
  { intros Hcut. destruct (Hcut [] (NoDup_nil_2)) as [Hnodup Hkeys].
    split; [done|]. intros k. rewrite Hkeys. cbn [map].
    split; [intros [Hin|Hex]; [by apply elem_of_nil in Hin | done] | by right]. }
  induction xs as [|x xs IH]; intros acc Hacc; cbn [fold_left].
  - split; [done|]. intros k. split; [by left|].
    intros [Hin | (i & Hi & _)]; [done | by apply elem_of_nil in Hi].
  - assert (NoDup (map fst (dict_set acc (key x) (dict_get acc (key x) 0 + 1))))
      as Hacc'.
    { rewrite dict_set_keys. destruct (decide (key x ∈ map fst acc)); [done|].
      apply NoDup_app. split; [done|]. split; [|apply NoDup_singleton].
      intros k Hk Hk'. apply list_elem_of_singleton in Hk'. by subst k. }
    destruct (IH _ Hacc') as [Hnodup Hkeys]. split; [done|].
    intros k. rewrite Hkeys, dict_set_keys.
    destruct (decide (key x ∈ map fst acc)) as [Hin|Hout].
    + split.
      * intros [Hk | (i & Hi & Hki)]; [by left | right].
        exists i. split; [by right | done].
      * intros [Hk | (i & Hi & Hki)]; [by left|].
        apply elem_of_cons in Hi as [->|Hi]; [left; by rewrite <- Hki | right].
        by exists i.
    + rewrite elem_of_app, list_elem_of_singleton. split.
      * intros [[Hk | ->] | (i & Hi & Hki)]; [by left | right | right].
        -- exists x. split; [by left | done].
        -- exists i. split; [by right | done].
      * intros [Hk | (i & Hi & Hki)]; [left; by left|].
        apply elem_of_cons in Hi as [->|Hi]; [left; by right | right].
        by exists i.
Qed.

Lemma count_by_total (key : Incident.t -> string) (xs : list Incident.t) :
  sum_list (map snd (count_by key xs)) = length xs.
Proof.
  unfold count_by.
  cut (forall acc,
         sum_list (map snd
           (fold_left
              (fun counts incident =>
                 dict_set counts (key incident)
                   (dict_get counts (key incident) 0 + 1)) xs acc)) =
         sum_list (map snd acc) + length xs).
  { intros Hcut. by rewrite Hcut. }
  induction xs as [|x xs IH]; intros acc; cbn [fold_left length]; [lia|].
  rewrite IH, dict_set_incr. lia.
Qed.

(** X8. For a non-empty incident list the dashboard is there, and in each
    of the two dicts behind its charts no key occurs twice, the keys are
    the alert levels (the counties) that occur among the incidents, the
    count under a key is the number of incidents with that alert level
    (county), a key that does not occur reads as 0, and the counts add up
    to the number of incidents. *)
Theorem dashboard_counts (i : Incident.t) (rest : list Incident.t) :
  exists board : Dashboard,
    dashboard (i :: rest) = Some board /\
    total_incidents board = length (i :: rest) /\
    (NoDup (map fst (alert_counts board)) /\
     (forall a, a ∈ map fst (alert_counts board) <->
                exists j, j ∈ i :: rest /\ Incident.alert_level j = a) /\
     (forall a, dict_get (alert_counts board) a 0 =
                length (filter (fun j => Incident.alert_level j = a) (i :: rest))) /\
     sum_list (map snd (alert_counts board)) = length (i :: rest)) /\
    (NoDup (map fst (county_counts board)) /\
     (forall c, c ∈ map fst (county_counts board) <->
                exists j, j ∈ i :: rest /\
                          Location.county (Incident.location j) = c) /\
     (forall c, dict_get (county_counts board) c 0 =
                length (filter
                          (fun j => Location.county (Incident.location j) = c)
                          (i :: rest))) /\
     sum_list (map snd (county_counts board)) = length (i :: rest)).
Proof.
  eexists. split; [reflexivity|]. cbn [total_incidents alert_counts county_counts].
  split; [done|]. split.
  - destruct (count_by_keys Incident.alert_level (i :: rest)) as [Hnodup Hkeys].
    split; [done|]. split; [done|]. split; [|apply count_by_total].
    intros a. apply count_by_get.
  - destruct (count_by_keys (fun j => Location.county (Incident.location j))
                (i :: rest)) as [Hnodup Hkeys].
    split; [done|]. split; [done|]. split; [|apply count_by_total].
    intros c. apply (count_by_get (fun j => Location.county (Incident.location j))).
Qed.

(** ** The dashboard and the map on the stored incidents *)

Lemma derived_by_aggregator_cases (i : Incident.t) :
  derived_by_aggregator i ->
  (Incident.alert_level i = "🔴 Red" /\ Incident.severity i = "SERIOUS-URGENT") \/
  (Incident.alert_level i = "🟡 Yellow" /\ Incident.severity i = "SERIOUS") \/
  (Incident.alert_level i = "🟢 Green" /\ Incident.severity i = "LOW").
Proof.
  unfold derived_by_aggregator, analyze_threat_level.
  destruct (Incident.detected_weapons i) as [|d ds].
  - intros [= -> -> _]. by right; right.
  - repeat case_decide; intros [= -> -> _]; [by left | by right; left | by right; right].
Qed.

Lemma metrics_by_severity (xs : list Incident.t) :
  Forall derived_by_aggregator xs ->
  count_if (fun i => str_in "🔴" (Incident.alert_level i)) xs =
    length (filter (fun i => Incident.severity i = "SERIOUS-URGENT") xs) /\
  count_if (fun i => str_in "🟡" (Incident.alert_level i)) xs =
    length (filter (fun i => Incident.severity i = "SERIOUS") xs) /\
  count_if (fun i => str_in "🟢" (Incident.alert_level i)) xs =
    length (filter (fun i => Incident.severity i = "LOW") xs) /\
  count_if (fun i => str_in "🔴" (Incident.alert_level i)) xs +
  count_if (fun i => str_in "🟡" (Incident.alert_level i)) xs +
  count_if (fun i => str_in "🟢" (Incident.alert_level i)) xs = length xs.
Proof.
  rewrite !count_if_length.
  induction 1 as [|i xs Hi Hxs (IHhigh & IHmedium & IHlow & IHsum)].
  - by rewrite !filter_nil.
  - cbn [List.filter]. rewrite !filter_cons.
    destruct (derived_by_aggregator_cases i Hi)
      as [[-> ->] | [[-> ->] | [-> ->]]];
      repeat match goal with
             | |- context [decide (?a = ?b)] => destruct (decide (a = b)); [|done]
             | |- context [decide (?a = ?b)] => destruct (decide (a = b)); [done|]
             end;
      change (str_in "🔴" "🔴 Red") with true;
      change (str_in "🟡" "🔴 Red") with false;
      change (str_in "🟢" "🔴 Red") with false;
      change (str_in "🔴" "🟡 Yellow") with false;
      change (str_in "🟡" "🟡 Yellow") with true;
      change (str_in "🟢" "🟡 Yellow") with false;
      change (str_in "🔴" "🟢 Green") with false;
      change (str_in "🟡" "🟢 Green") with false;
      change (str_in "🟢" "🟢 Green") with true;
      cbn [length]; lia.
Qed.

(** X7. In the world after any runs, the dashboard is there exactly when
    an incident is stored; its total is the number of stored incidents, the
    three risk metrics add up to the total, and the high, medium and low
    metric count the stored incidents of severity SERIOUS-URGENT, SERIOUS
    and LOW. *)
Theorem dashboard_metrics (inps : list (Inputs UploadedFile)) :
  let stored := stored_incidents (runs inps fresh_world) in
  match dashboard stored with
  | None => stored = []
  | Some board =>
      stored <> [] /\
      total_incidents board = length stored /\
      high_risk board + medium_risk board + low_risk board =
        total_incidents board /\
      high_risk board =
        length (filter (fun i => Incident.severity i = "SERIOUS-URGENT") stored) /\
      medium_risk board =
        length (filter (fun i => Incident.severity i = "SERIOUS") stored) /\
      low_risk board =
        length (filter (fun i => Incident.severity i = "LOW") stored)
  end.
Proof.
  cbn zeta. destruct (reachable_stable inps) as (xs & [_ Hxs] & Hderived).
  rewrite Hxs. destruct (metrics_by_severity xs Hderived)
    as (Hhigh & Hmedium & Hlow & Hsum).
  destruct xs as [|x xs]; [done|].
  cbn [dashboard total_incidents high_risk medium_risk low_risk].
  by repeat split.
Qed.

Lemma alert_color_of_severity (i : Incident.t) :
  derived_by_aggregator i ->
  alert_color (Incident.alert_level i) = severity_color (Incident.severity i).
Proof.
  intros Hi.
  by destruct (derived_by_aggregator_cases i Hi) as [[-> ->] | [[-> ->] | [-> ->]]].
Qed.

Lemma fold_left_add_to (marker_of : Incident.t -> CircleMarker)
    (xs : list Incident.t) (m : FoliumMap) :
  fold_left (fun m incident => add_to (marker_of incident) m) xs m =
    {| map_location := map_location m; map_zoom_start := map_zoom_start m;
       map_markers := map_markers m ++ map marker_of xs |}.
Proof.
  revert m. induction xs as [|x xs IH]; intros m; cbn [fold_left map].
  - rewrite app_nil_r. by destruct m.
  - rewrite IH. cbn. by rewrite <- app_assoc.
Qed.

(** X9. In the world after any runs, the map is there exactly when an
    incident is stored; it is centred on (-1.2921, 36.8219) at zoom 6 and
    has one marker per stored incident, in the stored order: at the
    incident's latitude and longitude, of radius 8, filled, with the id,
    the alert level and the timestamp in its popup, and of the colour of
    the incident's severity (red, orange, green) both as outline and as
    fill. *)
Theorem incident_map_markers (inps : list (Inputs UploadedFile)) :
  let stored := stored_incidents (runs inps fresh_world) in
  match create_incident_map stored with
  | None => stored = []
  | Some m =>
      stored <> [] /\
      map_location m = ((-1.2921)%float, 36.8219%float) /\
      map_zoom_start m = 6%Z /\
      Forall2
        (fun i marker =>
           marker_location marker =
             (Location.latitude (Incident.location i),
              Location.longitude (Incident.location i)) /\
           marker_radius marker = 8%Z /\
           marker_fill marker = true /\
           marker_popup marker =
             "ID: " +:+ Incident.id i +:+ "<br>Alert: " +:+
             Incident.alert_level i +:+ "<br>Time: " +:+ Incident.timestamp i /\
           marker_color marker = severity_color (Incident.severity i) /\
           marker_fillColor marker = severity_color (Incident.severity i))
        stored (map_markers m)
  end.
Proof.
  cbn zeta. destruct (reachable_stable inps) as (xs & [_ Hxs] & Hderived).
  rewrite Hxs. clear Hxs. destruct xs as [|x xs]; [done|].
  unfold create_incident_map. cbn zeta.
  rewrite (fold_left_add_to
             (fun incident =>
                {| marker_location :=
                     (Location.latitude (Incident.location incident),
                      Location.longitude (Incident.location incident));
                   marker_radius := 8;
                   marker_popup :=
                     "ID: " +:+ Incident.id incident +:+
                     "<br>Alert: " +:+ Incident.alert_level incident +:+
                     "<br>Time: " +:+ Incident.timestamp incident;
                   marker_color := alert_color (Incident.alert_level incident);
                   marker_fill := true;
                   marker_fillColor :=
                     alert_color (Incident.alert_level incident) |})).
  cbn [map_location map_zoom_start map_markers app].
  split; [done|]. split; [done|]. split; [done|].
  induction Hderived as [|i ys Hi Hys IH]; cbn [map]; constructor; [|exact IH].
  cbn. by rewrite (alert_color_of_severity i Hi).
Qed.

(** ** What the commands leave as it is *)

Lemma preserves_ret {X A : Type} (f : World -> X) (a : A) :
  preserves f (mret a : M A).
Proof. by intros w. Qed.

Lemma preserves_bind {X A B : Type} (f : World -> X) (m : M A) (k : A -> M B) :
  preserves f m -> (forall a, preserves f (k a)) -> preserves f (m ≫= k).
Proof.
  intros Hm Hk w. unfold mbind, M_bind. specialize (Hm w).
  destruct (m w) as [[a|e] w']; cbn in *; [by rewrite Hk | done].
Qed.

Lemma preserves_try {X A : Type} (f : World -> X) (body : M A)
    (handler : Exception -> M A) :
  preserves f body -> (forall e, preserves f (handler e)) ->
  preserves f (try_except body handler).
Proof.
  intros Hbody Hhandler w. unfold try_except. specialize (Hbody w).
  destruct (body w) as [[a|e] w']; cbn in *; [done | by rewrite Hhandler].
Qed.

Lemma preserves_call {X A : Type} (f : World -> X) (r : Result A) :
  preserves f (call r).
Proof. by intros w. Qed.

Lemma preserves_items {X : Type} (f : World -> X) (l : positive) :
  preserves f (items l).
Proof. by intros w. Qed.

Lemma preserves_has_incidents {X : Type} (f : World -> X) :
  preserves f has_incidents.
Proof. by intros w. Qed.

Lemma preserves_has_analysis_results {X : Type} (f : World -> X) :
  preserves f has_analysis_results.
Proof. by intros w. Qed.

Lemma preserves_session_incidents {X : Type} (f : World -> X) :
  preserves f session_incidents.
Proof. intros w. unfold session_incidents. by destruct (incidents w). Qed.

Lemma preserves_session_analysis_results {X : Type} (f : World -> X) :
  preserves f session_analysis_results.
Proof.
  intros w. unfold session_analysis_results. by destruct (analysis_results w).
Qed.

(** One step of a sequence that leaves [f] as it is. *)
Tactic Notation "leave" "as" ident(x) := apply preserves_bind; [ | intros x ].

Section Frame.

Context {X : Type} (f : World -> X).

(** [f] does not look at the heap, at the session's reference to its
    list, at the effects other than pipeline constructions. *)
Hypothesis f_heap : forall h w, f (set_heap h w) = f w.
Hypothesis f_incidents : forall l w, f (set_incidents l w) = f w.
Hypothesis f_screen : forall e w,
  is_pipeline_call e = false -> f (set_screen (screen w ++ [e]) w) = f w.

Lemma preserves_emit (e : Effect) :
  is_pipeline_call e = false -> preserves f (emit e).
Proof. intros He w. by apply f_screen. Qed.

Lemma preserves_new_list (ys : list Incident.t) : preserves f (new_list ys).
Proof. intros w. apply f_heap. Qed.

Lemma preserves_list_append (l : positive) (x : Incident.t) :
  preserves f (list_append l x).
Proof. intros w. apply f_heap. Qed.

Lemma preserves_init_session_state : preserves f init_session_state.
Proof.
  unfold init_session_state.
  leave as present; [apply preserves_has_incidents|].
  destruct present; [apply preserves_ret|].
  leave as l; [apply preserves_new_list|].
  intros w. apply f_incidents.
Qed.

Lemma preserves_detect_weapons (image : Image) (object_detector : option Detector) :
  preserves f (detect_weapons image object_detector).
Proof.
  unfold detect_weapons. destruct object_detector as [detector|];
    [|apply preserves_ret].
  apply preserves_try.
  - leave as results; [apply preserves_call | apply preserves_ret].
  - intros e. leave as u; [by apply preserves_emit | apply preserves_ret].
Qed.

Lemma preserves_list_copy (l : positive) : preserves f (list_copy l).
Proof.
  unfold list_copy. leave as xs; [apply preserves_items | apply preserves_new_list].
Qed.

Lemma preserves_list_comprehension (p : Incident.t -> bool) (l : positive) :
  preserves f (list_comprehension p l).
Proof.
  unfold list_comprehension.
  leave as xs; [apply preserves_items | apply preserves_new_list].
Qed.

Lemma preserves_apply_filters (filter_county filter_severity filter_status : string) :
  preserves f (apply_filters filter_county filter_severity filter_status).
Proof.
  unfold apply_filters.
  leave as incidents; [apply preserves_session_incidents|].
  leave as copied; [apply preserves_list_copy|].
  leave as by_county.
  { destruct (negb _); [apply preserves_list_comprehension | apply preserves_ret]. }
  leave as by_severity.
  { destruct (negb _); [apply preserves_list_comprehension | apply preserves_ret]. }
  leave as by_status.
  { destruct (negb _); [apply preserves_list_comprehension | apply preserves_ret]. }
  apply preserves_ret.
Qed.

Lemma preserves_show_incidents (keys : list string) (shown : list Incident.t) :
  preserves f (show_incidents keys shown).
Proof.
  revert keys. induction shown as [|incident rest IH]; intros keys;
    cbn [show_incidents]; [apply preserves_ret|].
  leave as u; [by apply preserves_emit | cbn zeta].
  case_bool_decide; [by intros w | apply IH].
Qed.

Lemma preserves_main_history (inp : Inputs UploadedFile) :
  preserves f (main_history inp).
Proof.
  unfold main_history.
  leave as incidents; [apply preserves_session_incidents|].
  leave as stored; [apply preserves_items|].
  destruct stored as [|x stored]; [apply preserves_ret|].
  leave as filtered_incidents; [apply preserves_apply_filters|].
  leave as shown; [apply preserves_items|].
  leave as u; [by apply preserves_emit | apply preserves_show_incidents].
Qed.

End Frame.

Section FrameOfPages.

Context {X : Type} (f : World -> X).

(** [f] looks at nothing the pages write but pipeline constructions. *)
Hypothesis f_heap : forall h w, f (set_heap h w) = f w.
Hypothesis f_screen : forall e w,
  is_pipeline_call e = false -> f (set_screen (screen w ++ [e]) w) = f w.
Hypothesis f_analysis : forall r w, f (set_analysis_results r w) = f w.

Lemma preserves_main_analyze (inp : Inputs UploadedFile)
    (object_detector : option Detector)
    (sentiment_analyzer : option SentimentAnalyzer) :
  preserves f (main_analyze inp object_detector sentiment_analyzer).
Proof.
  unfold main_analyze.
  destruct (in_uploaded_file inp) as [uploaded_file|]; [|apply preserves_ret].
  leave as image; [apply preserves_call|].
  destruct (in_analyze inp); [|apply preserves_ret].
  leave as detected_weapons; [by apply preserves_detect_weapons|].
  destruct (analyze_threat_level detected_weapons sentiment_analyzer)
    as [[alert_level severity] risk_assessment].
  leave as answer.
  { destruct detected_weapons; [|apply preserves_ret].
    leave as u; [by apply preserves_emit | apply preserves_ret]. }
  destruct answer as [[alert_level' severity'] risk_assessment'].
  intros w. apply f_analysis.
Qed.

Lemma preserves_main_submit (inp : Inputs UploadedFile) :
  preserves f (main_submit inp).
Proof.
  unfold main_submit.
  leave as present; [apply preserves_has_analysis_results|].
  destruct present; [|apply preserves_ret].
  destruct (in_submit inp); [|apply preserves_ret].
  leave as results; [apply preserves_session_analysis_results|].
  leave as incidents; [apply preserves_session_incidents|].
  leave as u; [by apply preserves_list_append|].
  leave as u'; [by apply preserves_emit|].
  intros w. unfold del_analysis_results.
  destruct (analysis_results w); [apply f_analysis | done].
Qed.

(** The pages of [main], after the models are there. *)
Lemma preserves_pages (inp : Inputs UploadedFile)
    (object_detector : option Detector)
    (sentiment_analyzer : option SentimentAnalyzer) :
  preserves f
    (if String.eqb (in_page inp) "🚨 Report Incident" then
       main_analyze inp object_detector sentiment_analyzer;;
       main_submit inp
     else if String.eqb (in_page inp) "📊 Dashboard" then mret tt
     else if String.eqb (in_page inp) "🗺️ Incident Map" then mret tt
     else if String.eqb (in_page inp) "📋 Incident History" then main_history inp
     else mret tt).
Proof.
  destruct (String.eqb (in_page inp) "🚨 Report Incident").
  { leave as u; [apply preserves_main_analyze | apply preserves_main_submit]. }
  destruct (String.eqb (in_page inp) "📊 Dashboard"); [apply preserves_ret|].
  destruct (String.eqb (in_page inp) "🗺️ Incident Map"); [apply preserves_ret|].
  destruct (String.eqb (in_page inp) "📋 Incident History");
    [by apply preserves_main_history | apply preserves_ret].
Qed.

End FrameOfPages.

(** ** The models of a session *)

Lemma pipeline_calls_emit (e : Effect) (w : World) :
  pipeline_calls (set_screen (screen w ++ [e]) w) =
    pipeline_calls w ++ (if is_pipeline_call e then [e] else []).
Proof. unfold pipeline_calls. cbn. by rewrite List.filter_app. Qed.

(** The loader always returns, with the pair [loaded_models], and has
    called the constructors in order, the second only after the first has
    returned; the elements it has put on the page are [load_error]. *)
Lemma load_models_returns (w : World) :
  exists w',
    load_models w = (Ok loaded_models, w') /\
    heap w' = heap w /\ incidents w' = incidents w /\
    analysis_results w' = analysis_results w /\ cache w' = cache w /\
    pipeline_calls w' =
      pipeline_calls w ++
      PipelineCall "object-detection" "facebook/detr-resnet-50" ::
      match object_detection_pipeline "facebook/detr-resnet-50" with
      | Ok _ =>
          [PipelineCall "sentiment-analysis"
             "distilbert-base-uncased-finetuned-sst-2-english"]
      | Raise _ => []
      end /\
    replay w' = replay w /\
    elements_since (length (screen w)) (screen w') = load_error.
Proof.
  unfold load_models, loaded_models, load_error, try_except,
    pipeline_object_detection, pipeline_sentiment_analysis, st_error, emit, call,
    mbind, M_bind, mret, M_ret, pipeline_calls.
  destruct w as [h inc ar c rep scr]. cbn.
  destruct (object_detection_pipeline "facebook/detr-resnet-50") as [detector|e];
    [destruct (sentiment_analysis_pipeline
                 "distilbert-base-uncased-finetuned-sst-2-english") as [analyzer|e]|];
    cbn; eexists; (split; [reflexivity|]); do 4 (split; [reflexivity|]);
    cbn [screen replay set_screen]; rewrite <- ?app_assoc;
    (split; [by rewrite ?List.filter_app|]); (split; [reflexivity|]);
    by rewrite drop_app_length.
Qed.

Lemma load_error_elements : List.filter is_pipeline_call load_error = [].
Proof.
  unfold load_error.
  destruct (object_detection_pipeline "facebook/detr-resnet-50"); [|done].
  by destruct (sentiment_analysis_pipeline
                 "distilbert-base-uncased-finetuned-sst-2-english").
Qed.

Lemma init_session_state_returns (w : World) :
  exists w', init_session_state w = (Ok tt, w').
Proof.
  unfold init_session_state, has_incidents, new_list, store_incidents, mbind,
    M_bind, mret, M_ret.
  destruct (bool_decide (is_Some (incidents w))); by eexists.
Qed.

(** One run: a session without models loads them, with the two
    constructions or the one, and keeps the elements of the loader; a
    session with models keeps them and constructs nothing. *)
Lemma run_models (w : World) (inp : Inputs UploadedFile) :
  match cache w with
  | None =>
      cache (run w inp) = Some loaded_models /\
      pipeline_calls (run w inp) =
        pipeline_calls w ++
        PipelineCall "object-detection" "facebook/detr-resnet-50" ::
        match object_detection_pipeline "facebook/detr-resnet-50" with
        | Ok _ =>
            [PipelineCall "sentiment-analysis"
               "distilbert-base-uncased-finetuned-sst-2-english"]
        | Raise _ => []
        end /\
      replay (run w inp) = load_error
  | Some models =>
      List.filter is_pipeline_call (replay w) = [] ->
      cache (run w inp) = Some models /\
      pipeline_calls (run w inp) = pipeline_calls w /\
      replay (run w inp) = replay w
  end.
Proof.
  unfold run, script.
  pose proof (preserves_init_session_state cache
                (fun _ _ => eq_refl) (fun _ _ => eq_refl) w) as Hcache.
  pose proof (preserves_init_session_state pipeline_calls
                (fun _ _ => eq_refl) (fun _ _ => eq_refl) w) as Hcalls.
  pose proof (preserves_init_session_state replay
                (fun _ _ => eq_refl) (fun _ _ => eq_refl) w) as Hreplay.
  unfold mbind, M_bind.
  destruct (init_session_state_returns w) as [w1 Hinit].
  rewrite Hinit in *. cbn [snd] in Hcache, Hcalls, Hreplay.
  rewrite <- Hcache, <- Hcalls, <- Hreplay.
  clear Hinit Hcache Hcalls Hreplay w.
  set (pages := fun models : option Detector * option SentimentAnalyzer =>
         let '(object_detector, sentiment_analyzer) := models in
         if String.eqb (in_page inp) "🚨 Report Incident" then
           main_analyze inp object_detector sentiment_analyzer;;
           main_submit inp
         else if String.eqb (in_page inp) "📊 Dashboard" then mret tt
         else if String.eqb (in_page inp) "🗺️ Incident Map" then mret tt
         else if String.eqb (in_page inp) "📋 Incident History"
              then main_history inp
         else mret tt).
  assert (forall models,
            preserves cache (pages models) /\
            preserves pipeline_calls (pages models) /\
            preserves replay (pages models)) as Hpages.
  { intros [object_detector sentiment_analyzer]. split; [|split].
    - by apply (preserves_pages cache).
    - apply (preserves_pages pipeline_calls); [done | | done].
      intros e w He. rewrite pipeline_calls_emit, He. apply app_nil_r.
    - by apply (preserves_pages replay). }
  change (main inp w1)
    with (match st_cache_resource load_models w1 with
          | (Ok models, w2) => pages models w2
          | (Raise e, w2) => (Raise e, w2)
          end).
  unfold st_cache_resource.
  destruct (cache w1) as [models|] eqn:Hw1.
  - intros Helements. destruct (Hpages models) as (Hc & Hp & Hr).
    rewrite Hc, Hp, Hr. split; [done|]. split; [|done].
    unfold pipeline_calls. cbn [screen set_screen].
    by rewrite List.filter_app, Helements, app_nil_r.
  - destruct (load_models_returns w1)
      as (w2 & -> & _ & _ & _ & Hcache & Hcalls & _ & Helements).
    destruct (Hpages loaded_models) as (Hc & Hp & Hr). rewrite Hc, Hp, Hr.
    split; [done|]. split; [exact Hcalls | exact Helements].
Qed.

Lemma runs_models (inps : list (Inputs UploadedFile)) (w : World)
    (models : option Detector * option SentimentAnalyzer) :
  cache w = Some models -> List.filter is_pipeline_call (replay w) = [] ->
  cache (runs inps w) = Some models /\
  pipeline_calls (runs inps w) = pipeline_calls w /\
  replay (runs inps w) = replay w.
Proof.
  revert w. induction inps as [|inp inps IH]; intros w Hcache Helements; [done|].
  unfold runs. cbn [fold_left].
  pose proof (run_models w inp) as Hrun. rewrite Hcache in Hrun.
  destruct (Hrun Helements) as (Hcache' & Hcalls' & Hreplay').
  destruct (IH _ Hcache') as (Hcache'' & Hcalls'' & Hreplay'');
    [by rewrite Hreplay'|].
  unfold runs in *. split; [done|]. split; congruence.
Qed.

(** A session that has run has the loaded models and the elements of the
    loader. *)
Lemma reachable_models (inp : Inputs UploadedFile)
    (inps : list (Inputs UploadedFile)) :
  let w := runs (inp :: inps) fresh_world in
  cache w = Some loaded_models /\
  pipeline_calls w = pipeline_calls (run fresh_world inp) /\
  replay w = load_error.
Proof.
  cbn zeta. change (runs (inp :: inps) fresh_world)
    with (runs inps (run fresh_world inp)).
  pose proof (run_models fresh_world inp) as Hfirst.
  cbn [cache fresh_world] in Hfirst. destruct Hfirst as (Hcache & _ & Hreplay).
  destruct (runs_models inps _ _ Hcache) as (Hcache' & Hcalls' & Hreplay').
  { rewrite Hreplay. apply load_error_elements. }
  split; [done|]. split; [done | congruence].
Qed.

(** X11. In a session that has run at least once, the cached models are
    the pair the loader returned in the first run: both pipelines, or no
    pipeline when a constructor raised then; and the constructors were
    called in that first run only, the object-detection one once and the
    sentiment one once after it had returned. A failed load is not tried
    again by a later run. *)
Theorem models_loaded_once (inp : Inputs UploadedFile)
    (inps : list (Inputs UploadedFile)) :
  let w := runs (inp :: inps) fresh_world in
  cache w = Some loaded_models /\
  pipeline_calls w = pipeline_calls (run fresh_world inp) /\
  pipeline_calls w =
    PipelineCall "object-detection" "facebook/detr-resnet-50" ::
    match object_detection_pipeline "facebook/detr-resnet-50" with
    | Ok _ =>
        [PipelineCall "sentiment-analysis"
           "distilbert-base-uncased-finetuned-sst-2-english"]
    | Raise _ => []
    end.
Proof.
  cbn zeta. destruct (reachable_models inp inps) as (Hcache & Hcalls & _).
  split; [done|]. split; [done|]. rewrite Hcalls.
  pose proof (run_models fresh_world inp) as Hfirst.
  cbn [cache fresh_world] in Hfirst. by destruct Hfirst as (_ & -> & _).
Qed.

(** ** The kept analysis through a run *)

Lemma triple_preserves {X A : Type} (f : World -> X) (v : X) (m : M A) :
  preserves f m ->
  triple (fun w => f w = v) m (fun _ w => f w = v) (fun w => f w = v).
Proof.
  intros Hm w Hw. specialize (Hm w).
  destruct (m w) as [[a|e] w']; cbn in Hm; congruence.
Qed.

Lemma triple_conj {A : Type} (P P' : World -> Prop) (m : M A)
    (Q Q' : A -> World -> Prop) (E E' : World -> Prop) :
  triple P m Q E -> triple P' m Q' E' ->
  triple (fun w => P w /\ P' w) m (fun a w => Q a w /\ Q' a w)
    (fun w => E w /\ E' w).
Proof.
  intros Hm Hm' w [Hw Hw']. specialize (Hm w Hw). specialize (Hm' w Hw').
  by destruct (m w) as [[a|e] w'].
Qed.

(** A command that keeps both the stored incidents and the analysis. *)
Lemma triple_quiet {A : Type} xs v (m : M A) :
  triple (ready xs) m (fun _ => ready xs) (ready xs) ->
  preserves analysis_results m ->
  triple (fun w => ready xs w /\ analysis_results w = v) m
    (fun _ w => ready xs w /\ analysis_results w = v)
    (fun w => ready xs w /\ analysis_results w = v).
Proof.
  intros Hready Hkeeps.
  apply triple_conj; [exact Hready | by apply triple_preserves].
Qed.

Lemma triple_main_submit_kept xs inp v :
  triple (fun w => ready xs w /\ analysis_results w = v) (main_submit inp)
    (fun _ => submission inp xs v) (submission inp xs v).
Proof.
  intros w [Hw Hv]. pose proof Hw as [[[Hheap Hres] Hxs] [l Hl]].
  unfold main_submit, has_analysis_results, mbind, M_bind.
  destruct (analysis_results w) as [results|] eqn:Hresults.
  2: { rewrite bool_decide_false by (by intros [? ?]). cbn. left.
       split; [done | by rewrite Hresults]. }
  rewrite bool_decide_true by by eexists.
  destruct (in_submit inp) eqn:Hsubmit;
    [|cbn; left; split; [done | by rewrite Hresults]].
  unfold session_analysis_results. rewrite Hresults.
  unfold session_incidents. rewrite Hl.
  pose proof (triple_list_append xs l (incident_of inp results) (fun _ => True)
                w (conj Hw Hl)) as Happend.
  unfold list_append in *. unfold st_success, emit, del_analysis_results.
  cbn in *. rewrite Hresults. right. exists results.
  split; [done|]. split; [by apply Hres|]. split; [|done].
  destruct Happend as [Hst Hinc]. split; [|done].
  by apply stable_set_analysis_none, stable_set_screen.
Qed.

Lemma main_analyze_idle (inp : Inputs UploadedFile)
    (object_detector : option Detector)
    (sentiment_analyzer : option SentimentAnalyzer) :
  match in_uploaded_file inp with
  | Some _ => in_analyze inp
  | None => false
  end = false ->
  preserves analysis_results (main_analyze inp object_detector sentiment_analyzer).
Proof.
  intros Hidle. unfold main_analyze.
  destruct (in_uploaded_file inp) as [uploaded_file|]; [|apply preserves_ret].
  rewrite Hidle. leave as image; [apply preserves_call | apply preserves_ret].
Qed.

Lemma triple_main_analyze_kept xs inp v object_detector sentiment_analyzer :
  in_page inp = "🚨 Report Incident" ->
  triple (fun w => ready xs w /\ analysis_results w = v)
    (main_analyze inp object_detector sentiment_analyzer)
    (fun _ w => ready xs w /\ (analysis_results w = v \/ analyzes inp = true))
    (fun w => ready xs w /\ (analysis_results w = v \/ analyzes inp = true)).
Proof.
  intros Hpage. unfold analyzes. rewrite Hpage. cbn [String.eqb andb].
  change ("🚨 Report Incident" =? "🚨 Report Incident")%string with true.
  cbn [andb].
  destruct (match in_uploaded_file inp with
            | Some _ => true
            | None => false
            end && in_analyze inp) eqn:Hclick.
  - eapply triple_weaken; [apply (triple_main_analyze xs) | | |].
    + by intros w [Hw _].
    + intros a w Hw. split; [done | by right].
    + intros w Hw. split; [done | by right].
  - eapply triple_weaken;
      [apply (triple_quiet xs v); [apply triple_main_analyze|] | done | |].
    + apply main_analyze_idle.
      destruct (in_uploaded_file inp); [exact Hclick | done].
    + intros a w [Hw Hv]. split; [done | by left].
    + intros w [Hw Hv]. split; [done | by left].
Qed.

Lemma preserves_load_models_analysis : preserves analysis_results load_models.
Proof.
  intros w. by destruct (load_models_returns w) as (w' & -> & _ & _ & Hkept & _).
Qed.

Lemma triple_main_kept xs inp v :
  triple (fun w => ready xs w /\ analysis_results w = v) (main inp)
    (fun _ => after_script inp xs v) (after_script inp xs v).
Proof.
  unfold main.
  assert (forall w, ready xs w /\ analysis_results w = v -> after_script inp xs v w)
    as Hsame.
  { intros w Hw. exists v. split; [by left | by left]. }
  assert (forall m : M unit,
            triple (ready xs) m (fun _ => ready xs) (ready xs) ->
            preserves analysis_results m ->
            triple (fun w => ready xs w /\ analysis_results w = v) m
              (fun _ => after_script inp xs v) (after_script inp xs v))
    as Hquiet.
  { intros m Hm Hkeeps.
    eapply triple_weaken; [by apply (triple_quiet xs v) | done | |].
    - intros a. exact Hsame.
    - exact Hsame. }
  step as models.
  { eapply triple_weaken;
      [apply (triple_quiet xs v);
         [apply triple_st_cache_resource, triple_load_models|] | done | |].
    - intros w. unfold st_cache_resource. destruct (cache w); [done|].
      pose proof (preserves_load_models_analysis w) as Hload.
      by destruct (load_models w) as [[models|e] w'].
    - intros a w Hw. exact Hw.
    - exact Hsame. }
  destruct models as [object_detector sentiment_analyzer]. cbn beta iota.
  destruct (String.eqb_spec (in_page inp) "🚨 Report Incident") as [Hpage|_].
  { step as u.
    - eapply triple_weaken;
        [by apply (triple_main_analyze_kept xs inp v) | done | |].
      + intros a w Hw. exact Hw.
      + intros w [Hw [Hv | Hclick]].
        * by apply Hsame.
        * exists (analysis_results w). split; [by right | by left].
    - intros w [Hw Hv].
      pose proof (triple_main_submit_kept xs inp (analysis_results w) w
                    (conj Hw eq_refl)) as Hsubmit.
      destruct (main_submit inp w) as [[[]|e] w'];
        exists (analysis_results w);
        (split; [destruct Hv as [->|Hv]; [by left | by right] | exact Hsubmit]). }
  destruct (String.eqb (in_page inp) "📊 Dashboard");
    [apply Hquiet; [by apply triple_ret | apply preserves_ret]|].
  destruct (String.eqb (in_page inp) "🗺️ Incident Map");
    [apply Hquiet; [by apply triple_ret | apply preserves_ret]|].
  destruct (String.eqb (in_page inp) "📋 Incident History").
  - apply Hquiet; [apply triple_main_history | by apply preserves_main_history].
  - apply Hquiet; [by apply triple_ret | apply preserves_ret].
Qed.

Lemma triple_script_kept xs inp v :
  triple (fun w => stable xs w /\ analysis_results w = v) (script inp)
    (fun _ => after_script inp xs v) (after_script inp xs v).
Proof.
  unfold script. step as u; [|apply triple_main_kept].
  eapply triple_weaken.
  - apply (triple_conj (stable xs) (fun w => analysis_results w = v));
      [apply (triple_init_session_state xs (ready xs)) |
       by apply triple_preserves, preserves_init_session_state].
  - done.
  - by intros a w Hw.
  - intros w Hw. exists v. split; by left.
Qed.

Lemma run_after_script xs w inp :
  stable xs w -> after_script inp xs (analysis_results w) (run w inp).
Proof.
  intros Hw.
  pose proof (triple_script_kept xs inp (analysis_results w) w (conj Hw eq_refl))
    as Hrun.
  unfold run. by destruct (script inp w) as [[[]|e] w'].
Qed.

Lemma submitted_derived (i : Incident.t) : submitted i -> derived_by_aggregator i.
Proof. by intros (inp & results & -> & Hresults). Qed.

(** The world after any runs: its incidents are as submitted, and there
    are no more incidents and kept analyses than analyses made. *)
Lemma runs_submitted (inps : list (Inputs UploadedFile)) (w : World)
    (xs : list Incident.t) (n : nat) :
  stable xs w -> Forall submitted xs -> length xs + pending w <= n ->
  exists xs',
    stable xs' (runs inps w) /\ Forall submitted xs' /\
    length xs' + pending (runs inps w) <= n + length (List.filter analyzes inps).
Proof.
  revert w xs n. induction inps as [|inp inps IH]; intros w xs n Hw Hxs Hn.
  { exists xs. cbn. split; [done|]. split; [done | lia]. }
  unfold runs. cbn [fold_left List.filter].
  destruct (run_after_script xs w inp Hw) as (v' & Hv' & Hrun).
  assert (exists xs',
            stable xs' (run w inp) /\ Forall submitted xs' /\
            length xs' + pending (run w inp) <=
              n + (if analyzes inp then 1 else 0))
    as (xs' & Hw' & Hxs' & Hn').
  { unfold pending in *.
    destruct Hrun as [[[Hst _] Hkept] | (results & -> & Hresults & [Hst _] & Hkept & _)].
    - exists xs. split; [done|]. split; [done|]. rewrite Hkept.
      destruct Hv' as [-> | ->]; [destruct (analyzes inp); lia|].
      destruct v'; lia.
    - exists (xs ++ [incident_of inp results]). split; [done|]. split.
      + apply Forall_app. split; [done|]. apply Forall_singleton.
        by exists inp, results.
      + rewrite Hkept, length_app. cbn [length].
        destruct Hv' as [Hv' | ->]; [rewrite <- Hv' in Hn; destruct (analyzes inp); lia|].
        destruct (analysis_results w); lia. }
  destruct (IH _ xs' (n + (if analyzes inp then 1 else 0)) Hw' Hxs' Hn')
    as (xs'' & Hw'' & Hxs'' & Hn'').
  exists xs''. split; [done|]. split; [done|]. unfold runs in Hn''.
  destruct (analyzes inp); cbn [length]; lia.
Qed.

Lemma reachable_submitted (inps : list (Inputs UploadedFile)) :
  exists xs,
    stable xs (runs inps fresh_world) /\ Forall submitted xs /\
    length xs + pending (runs inps fresh_world) <=
      length (List.filter analyzes inps).
Proof.
  destruct (runs_submitted inps fresh_world [] 0 stable_fresh_world)
    as (xs & Hst & Hxs & Hn); [done | cbn; lia |].
  by exists xs.
Qed.

(** X4. A session never stores more incidents than it has made analyses:
    the stored incidents and the analysis still kept, if there is one, are
    together at most as many as the runs that came to analyse an image (the
    report page, with an uploaded file and a click on the analysis button).
    A submission takes the kept analysis away (line 452; the PDF report
    built before that is taken to return), so that a second click on the
    submission button without a new analysis stores nothing. *)
Theorem incidents_at_most_analyses (inps : list (Inputs UploadedFile)) :
  let w := runs inps fresh_world in
  length (stored_incidents w) + pending w <= length (List.filter analyzes inps).
Proof.
  cbn zeta. destruct (reachable_submitted inps) as (xs & [_ Hxs] & _ & Hn).
  by rewrite Hxs.
Qed.

(** X5. In the world after any runs, every stored incident has the status
    "Active", the recommendations [get_recommendations] gives for its
    severity, an id "INC_" followed by a clock reading in the format
    [%Y%m%d_%H%M%S], and a timestamp that is a clock reading in the format
    [%Y-%m-%d %H:%M:%S]. *)
Theorem stored_incidents_as_submitted (inps : list (Inputs UploadedFile)) :
  Forall
    (fun i =>
       Incident.status i = "Active" /\
       Incident.recommendations i = get_recommendations (Incident.severity i) /\
       (exists now : datetime,
          Incident.id i = "INC_" +:+ strftime now "%Y%m%d_%H%M%S") /\
       (exists now : datetime,
          Incident.timestamp i = strftime now "%Y-%m-%d %H:%M:%S"))
    (stored_incidents (runs inps fresh_world)).
Proof.
  destruct (reachable_submitted inps) as (xs & [_ Hxs] & Hsubmitted & _).
  rewrite Hxs. eapply Forall_impl; [exact Hsubmitted|].
  intros i (inp & results & -> & _). cbn.
  split; [done|]. split; [done|]. split; by eexists.
Qed.

(** ** The filters, all three *)

Lemma filter_all {A : Type} (P : A -> Prop) `{!forall x, Decision (P x)}
    (xs : list A) :
  Forall P xs -> filter P xs = xs.
Proof.
  induction 1 as [|x xs Hx Hxs IH]; [done|].
  rewrite filter_cons. destruct (decide (P x)); [by rewrite IH | done].
Qed.

Lemma filter_none {A : Type} (P : A -> Prop) `{!forall x, Decision (P x)}
    (xs : list A) :
  Forall (fun x => ~ P x) xs -> filter P xs = [].
Proof.
  induction 1 as [|x xs Hx Hxs IH]; [done|].
  rewrite filter_cons. destruct (decide (P x)); [done | exact IH].
Qed.

Lemma Forall_of_filter {A : Type} (P Q : A -> Prop) `{!forall x, Decision (P x)}
    (xs : list A) :
  Forall Q xs -> Forall Q (filter P xs).
Proof.
  rewrite !Forall_forall. intros Hxs x Hx.
  apply list_elem_of_filter in Hx as [_ Hx]. by apply Hxs.
Qed.

Lemma keep_filter (choice : string) (field : Incident.t -> string)
    (xs : list Incident.t) :
  keep choice field xs = filter (fun i => choice = "All" \/ field i = choice) xs.
Proof.
  unfold keep. destruct (String.eqb_spec choice "All") as [->|Hchoice].
  - symmetry. apply filter_all. apply Forall_forall. intros i _. by left.
  - rewrite filter_eqb. apply list_filter_iff. intros i. split; [by right|].
    by intros [?|?].
Qed.

Lemma keep_status_active (choice : string) (xs : list Incident.t) :
  Forall (fun i => Incident.status i = "Active") xs ->
  keep choice Incident.status xs =
    if bool_decide (choice = "All" \/ choice = "Active") then xs else [].
Proof.
  intros Hactive. rewrite keep_filter. case_bool_decide as Hchoice.
  - apply filter_all. eapply Forall_impl; [exact Hactive|].
    intros i Hi. cbn. destruct Hchoice as [->| ->]; [by left | by right].
  - apply filter_none. eapply Forall_impl; [exact Hactive|].
    intros i Hi [->| <-]; apply Hchoice; [by left | by right].
Qed.

(** X6. In a session that has run, the three filters of the history page
    return the stored incidents that pass the county choice and the
    severity choice, each read as no test when it is "All", when the status
    choice is "All" or "Active"; and the empty list for any other status
    choice, "Resolved" and "Under Investigation" among them. *)
Theorem filter_by_status (inps : list (Inputs UploadedFile))
    (inp : Inputs UploadedFile) (filter_county filter_severity filter_status : string) :
  let w := run (runs inps fresh_world) inp in
  exists (l : positive) (w' : World) (shown : list Incident.t),
    apply_filters filter_county filter_severity filter_status w = (Ok l, w') /\
    heap w' !! l = Some shown /\
    shown =
      if bool_decide (filter_status = "All" \/ filter_status = "Active") then
        filter
          (fun i =>
             (filter_severity = "All" \/ Incident.severity i = filter_severity) /\
             (filter_county = "All" \/
              Location.county (Incident.location i) = filter_county))
          (stored_incidents w)
      else [].
Proof.
  cbn zeta.
  destruct (apply_filters_returns inps inp filter_county filter_severity filter_status)
    as (l & w' & Hrun & _ & _ & _ & _ & Hl).
  exists l, w'. eexists. split; [exact Hrun|]. split; [exact Hl|].
  assert (Forall (fun i => Incident.status i = "Active")
            (stored_incidents (run (runs inps fresh_world) inp))) as Hactive.
  { change (run (runs inps fresh_world) inp)
      with (fold_left run [inp] (fold_left run inps fresh_world)).
    rewrite <- fold_left_app.
    destruct (reachable_submitted (inps ++ [inp])) as (xs & [_ Hxs] & Hsubmitted & _).
    unfold runs in Hxs. rewrite Hxs. eapply Forall_impl; [exact Hsubmitted|].
    by intros i (inp' & results & -> & _). }
  unfold filtered. rewrite keep_status_active.
  - case_bool_decide; [|done]. rewrite !keep_filter. apply list_filter_filter.
  - rewrite !keep_filter. by do 2 apply Forall_of_filter.
Qed.

(** ** An analysis and its submission, run by run *)

(** The script up to the pages: the session has its list, the models are
    the cached ones or, in a session without models, the loaded ones; the
    stored incidents and the kept analysis are as before, and a session
    with models has the elements of the loader on the page again. *)
Lemma script_steps xs (w : World) (inp : Inputs UploadedFile) :
  stable xs w ->
  exists (models : option Detector * option SentimentAnalyzer) (w2 : World),
    script inp w = pages inp models w2 /\
    ready xs w2 /\ analysis_results w2 = analysis_results w /\
    cache w2 = Some models /\
    match cache w with
    | Some cached => models = cached
    | None => models = loaded_models
    end /\
    (is_Some (cache w) -> screen w2 = screen w ++ replay w).
Proof.
  intros Hw. unfold script. unfold mbind at 1. unfold M_bind at 1.
  pose proof (triple_init_session_state xs (fun _ => True) w Hw) as Hready.
  pose proof (preserves_init_session_state analysis_results
                (fun _ _ => eq_refl) (fun _ _ => eq_refl) w) as Hkept.
  pose proof (preserves_init_session_state cache
                (fun _ _ => eq_refl) (fun _ _ => eq_refl) w) as Hcache.
  pose proof (preserves_init_session_state screen
                (fun _ _ => eq_refl) (fun _ _ => eq_refl) w) as Hscreen.
  pose proof (preserves_init_session_state replay
                (fun _ _ => eq_refl) (fun _ _ => eq_refl) w) as Hreplay.
  destruct (init_session_state_returns w) as [w1 Hinit].
  rewrite Hinit in *. cbn [snd] in Hkept, Hcache, Hscreen, Hreplay.
  rewrite <- Hkept, <- Hcache, <- Hscreen, <- Hreplay.
  clear Hinit Hkept Hcache Hscreen Hreplay Hw w.
  change (main inp w1)
    with (match st_cache_resource load_models w1 with
          | (Ok models, w2) => pages inp models w2
          | (Raise e, w2) => (Raise e, w2)
          end).
  pose proof (triple_st_cache_resource xs load_models (triple_load_models xs)
                w1 Hready) as Hready'.
  unfold st_cache_resource in *.
  destruct (cache w1) as [models|] eqn:Hw1.
  - exists models, (set_screen (screen w1 ++ replay w1) w1).
    by do 5 (split; [done|]).
  - destruct (load_models_returns w1) as (w2 & Hload & _ & _ & Hkept & Hcache & _).
    rewrite Hload in *.
    eexists loaded_models, _. split; [reflexivity|].
    cbn in Hready'. do 3 (split; [done|]). split; [done|]. by intros [? ?].
Qed.

(** The submission block on a kept analysis, with a click on the button. *)
Lemma main_submit_stores xs (inp : Inputs UploadedFile)
    (results : AnalysisResults.t Image) (w : World) :
  ready xs w -> analysis_results w = Some results -> in_submit inp = true ->
  exists w',
    main_submit inp w = (Ok tt, w') /\
    ready (xs ++ [incident_of inp results]) w' /\
    analysis_results w' = None /\ cache w' = cache w.
Proof.
  intros Hw Hresults Hsubmit. pose proof Hw as [_ [l Hl]].
  pose proof (triple_list_append xs l (incident_of inp results) (fun _ => True)
                w (conj Hw Hl)) as Happend.
  unfold main_submit, has_analysis_results, mbind, M_bind.
  rewrite bool_decide_true by (rewrite Hresults; by eexists).
  rewrite Hsubmit. unfold session_analysis_results. rewrite Hresults.
  unfold session_incidents. rewrite Hl.
  unfold list_append in *. unfold st_success, emit, del_analysis_results.
  cbn in *. rewrite Hresults. eexists. split; [reflexivity|].
  destruct Happend as [Hst Hinc]. split; [|done]. split; [|done].
  by apply stable_set_analysis_none, stable_set_screen.
Qed.

(** A run that analyses an image and does not submit. *)
Lemma run_analysis xs (w : World) (inp : Inputs UploadedFile)
    (uploaded_file : UploadedFile) (image : Image) (detector : Detector)
    (sentiment_analyzer : option SentimentAnalyzer)
    (results : list DetectorOutput) :
  stable xs w ->
  match cache w with
  | Some cached => cached = (Some detector, sentiment_analyzer)
  | None => loaded_models = (Some detector, sentiment_analyzer)
  end ->
  in_page inp = "🚨 Report Incident" ->
  in_uploaded_file inp = Some uploaded_file ->
  Image_open uploaded_file = Ok image ->
  in_analyze inp = true -> in_submit inp = false ->
  detector image = Ok results ->
  stable xs (run w inp) /\
  analysis_results (run w inp) = Some (analysis_of image results) /\
  cache (run w inp) = Some (Some detector, sentiment_analyzer).
Proof.
  intros Hw Hmodels Hpage Hfile Hopen Hanalyze Hsubmit Hcall.
  destruct (script_steps xs w inp Hw)
    as (models & w2 & Hscript & [Hst Hinc] & _ & Hcache & Hcached & _).
  assert (models = (Some detector, sentiment_analyzer)) as ->.
  { destruct (cache w); congruence. }
  unfold run. rewrite Hscript. unfold pages. rewrite Hpage.
  change ("🚨 Report Incident" =? "🚨 Report Incident")%string with true.
  cbn iota. unfold main_analyze. rewrite Hfile.
  unfold mbind, M_bind, call. rewrite Hopen, Hanalyze.
  rewrite (detect_weapons_returns image detector results w2 Hcall).
  unfold analysis_of.
  assert (forall w3 : World,
            stable xs w3 -> cache w3 = cache w2 ->
            forall r : AnalysisResults.t Image, analysis_derived r ->
            let w4 := snd (main_submit inp (set_analysis_results (Some r) w3)) in
            stable xs w4 /\ analysis_results w4 = Some r /\
            cache w4 = Some (Some detector, sentiment_analyzer)) as Hrest.
  { intros w3 Hw3 Hcache3 r Hr. unfold main_submit, has_analysis_results,
      mbind, M_bind. cbn [analysis_results set_analysis_results].
    rewrite bool_decide_true by by eexists. rewrite Hsubmit. cbn.
    split; [by apply stable_set_analysis_some|]. split; [done | congruence]. }
  destruct (flat_map item_detections results) as [|d ds] eqn:Hds.
  - cbn. unfold store_analysis_results, st_success, emit.
    apply (Hrest (set_screen _ w2)); [by apply stable_set_screen | done | done].
  - destruct (analyze_threat_level (d :: ds) sentiment_analyzer)
      as [[alert_level severity] risk_assessment] eqn:Hlevel.
    change (analyze_threat_level (d :: ds) None)
      with (analyze_threat_level (d :: ds) sentiment_analyzer).
    rewrite Hlevel. cbn. unfold store_analysis_results.
    apply (Hrest w2); [done | done |].
    unfold analysis_derived. cbn. by rewrite <- Hlevel.
Qed.

(** A run that does not analyse and submits the kept analysis. *)
Lemma run_submission xs (w : World) (inp : Inputs UploadedFile)
    (results : AnalysisResults.t Image) :
  stable xs w -> analysis_results w = Some results ->
  in_page inp = "🚨 Report Incident" ->
  match in_uploaded_file inp with
  | Some uploaded_file => exists image, Image_open uploaded_file = Ok image
  | None => True
  end ->
  in_analyze inp = false -> in_submit inp = true ->
  stable (xs ++ [incident_of inp results]) (run w inp) /\
  analysis_results (run w inp) = None.
Proof.
  intros Hw Hresults Hpage Hfile Hanalyze Hsubmit.
  destruct (script_steps xs w inp Hw)
    as (models & w2 & Hscript & Hready & Hkept & _ & _).
  rewrite Hresults in Hkept.
  destruct (main_submit_stores xs inp results w2 Hready Hkept Hsubmit)
    as (w3 & Hrun & [Hst _] & Hgone & _).
  assert (run w inp = w3) as ->; [|done].
  unfold run. rewrite Hscript. unfold pages. destruct models as [od sa].
  rewrite Hpage.
  change ("🚨 Report Incident" =? "🚨 Report Incident")%string with true.
  cbn iota. unfold main_analyze.
  destruct (in_uploaded_file inp) as [uploaded_file|].
  - destruct Hfile as [image Hopen]. unfold mbind, M_bind, call, mret, M_ret.
    rewrite Hopen, Hanalyze. cbn beta iota. by rewrite Hrun.
  - unfold mbind, M_bind, mret, M_ret. cbn beta iota. by rewrite Hrun.
Qed.

Lemma reachable_cache (inps : list (Inputs UploadedFile)) :
  match cache (runs inps fresh_world) with
  | Some cached => cached = loaded_models
  | None => True
  end.
Proof.
  destruct inps as [|inp inps]; [done|].
  by destruct (reachable_models inp inps) as (-> & _).
Qed.

(** X13. The report page end to end. In a session whose two pipelines
    were built, a run that analyses an uploaded image for which the
    detector answers [results], and then a run that submits with the file
    still there, store one more incident, at the end: its Detections are
    those of the items of [results], keyword by keyword; its alert level,
    severity and risk assessment follow from the lower-cased labels (red
    for gun, pistol or rifle; else yellow for knife; else green); its id
    and timestamp are the clock readings of the submitting run, its
    location the form of that run, its status "Active"; and the kept
    analysis is gone. The drawing of the boxes, the widgets of the page and
    the PDF report are taken to return. *)
Theorem analysis_then_submission (inps : list (Inputs UploadedFile))
    (inp1 inp2 : Inputs UploadedFile) (uploaded_file : UploadedFile)
    (image : Image) (detector : Detector) (analyzer : SentimentAnalyzer)
    (results : list DetectorOutput) :
  object_detection_pipeline "facebook/detr-resnet-50" = Ok detector ->
  sentiment_analysis_pipeline
    "distilbert-base-uncased-finetuned-sst-2-english" = Ok analyzer ->
  in_page inp1 = "🚨 Report Incident" /\ in_page inp2 = "🚨 Report Incident" ->
  in_uploaded_file inp1 = Some uploaded_file /\
  in_uploaded_file inp2 = Some uploaded_file ->
  Image_open uploaded_file = Ok image ->
  detector image = Ok results ->
  in_analyze inp1 = true /\ in_submit inp1 = false ->
  in_analyze inp2 = false /\ in_submit inp2 = true ->
  let w := runs inps fresh_world in
  let w' := run (run w inp1) inp2 in
  exists i : Incident.t,
    stored_incidents w' = stored_incidents w ++ [i] /\
    analysis_results w' = None /\
    Incident.detected_weapons i = flat_map item_detections results /\
    (Incident.alert_level i, Incident.severity i, Incident.risk_assessment i) =
      (if mentions ["gun"; "pistol"; "rifle"] results then
         ("🔴 Red", "SERIOUS-URGENT",
          "Immediate action required - High-risk weapons detected")
       else if mentions ["knife"] results then
         ("🟡 Yellow", "SERIOUS", "Caution advised - Medium-risk weapons detected")
       else if mentions ["stick"] results then
         ("🟢 Green", "LOW", "Monitor situation - Low-risk items detected")
       else ("🟢 Green", "LOW", "No immediate threat detected")) /\
    Incident.id i = "INC_" +:+ strftime (in_now_id inp2) "%Y%m%d_%H%M%S" /\
    Incident.timestamp i = strftime (in_now_timestamp inp2) "%Y-%m-%d %H:%M:%S" /\
    Incident.location i = location_data inp2 /\
    Incident.status i = "Active".
Proof.
  intros Hdetector Hanalyzer [Hpage1 Hpage2] [Hfile1 Hfile2] Hopen Hcall
    [Hanalyze1 Hsubmit1] [Hanalyze2 Hsubmit2]. cbn zeta.
  destruct (reachable_stable inps) as (xs & Hw & _).
  pose proof Hw as [_ Hxs]. rewrite Hxs.
  assert (loaded_models = (Some detector, Some analyzer)) as Hloaded.
  { unfold loaded_models. by rewrite Hdetector, Hanalyzer. }
  destruct (run_analysis xs _ inp1 uploaded_file image detector (Some analyzer)
              results Hw) as (Hw1 & Hkept1 & _); try done.
  { pose proof (reachable_cache inps) as Hcache.
    destruct (cache (runs inps fresh_world)); congruence. }
  destruct (run_submission xs _ inp2 (analysis_of image results) Hw1 Hkept1)
    as ([_ Hxs2] & Hgone); try done.
  { rewrite Hfile2. by exists image. }
  exists (incident_of inp2 (analysis_of image results)).
  split; [done|]. split; [done|].
  unfold analysis_of.
  rewrite <- (threat_level_of_items results None).
  by destruct (analyze_threat_level (flat_map item_detections results) None)
    as [[alert_level severity] risk_assessment].
Qed.

(** ** Reading an id back *)

Lemma append_empty (s : string) : "" +:+ s = s.
Proof. reflexivity. Qed.

Lemma length_append (s1 s2 : string) :
  String.length (s1 +:+ s2) = String.length s1 + String.length s2.
Proof.
  induction s1 as [|c s1 IH]; [done|]. rewrite append_cons. cbn. by rewrite IH.
Qed.

(** Two equal texts cut at the same place have equal parts. *)
Lemma append_inj_length (s1 s2 rest1 rest2 : string) :
  String.length s1 = String.length s2 ->
  s1 +:+ rest1 = s2 +:+ rest2 -> s1 = s2 /\ rest1 = rest2.
Proof.
  revert s2. induction s1 as [|c1 s1 IH]; intros [|c2 s2] Hlen Heq; try done.
  rewrite !append_cons in Heq. injection Heq as -> Heq.
  destruct (IH s2) as [-> ->]; [by injection Hlen | done | done].
Qed.

Lemma read_number_zeros (k : nat) (digits : string) :
  read_number (zeros k +:+ digits) = read_number digits.
Proof.
  induction k as [|k IH]; [done|]. cbn [zeros]. rewrite append_cons.
  unfold read_number in *. cbn [NilEmpty.uint_of_string].
  destruct (NilEmpty.uint_of_string (zeros k +:+ digits)) as [d|];
    destruct (NilEmpty.uint_of_string digits) as [d'|]; cbn in *; done.
Qed.

(** The digits of a number, however many zeros are put before them, read
    back as the number. *)
Lemma read_number_zero_pad (width : nat) (n : N) :
  read_number (zero_pad width n) = n.
Proof.
  unfold zero_pad. cbn zeta. rewrite read_number_zeros.
  unfold read_number, decimal. rewrite NilEmpty.usu. apply Unsigned.of_to.
Qed.

Lemma zero_pad_inj (width : nat) (n m : N) :
  zero_pad width n = zero_pad width m -> n = m.
Proof.
  intros Heq. apply (f_equal read_number) in Heq.
  by rewrite !read_number_zero_pad in Heq.
Qed.

(** Below 100 two characters are written. *)
Lemma zero_pad_2_length (n : N) :
  (n < 100)%N -> String.length (zero_pad 2 n) = 2.
Proof.
  intros Hn.
  assert (forallb (fun k => Nat.eqb (String.length (zero_pad 2 (N.of_nat k))) 2)
            (seq 0 100) = true) as Hall by (vm_compute; reflexivity).
  rewrite forallb_forall in Hall. specialize (Hall (N.to_nat n)).
  rewrite N2Nat.id in Hall. apply Nat.eqb_eq, Hall, in_seq. lia.
Qed.

Lemma zero_pad_2_inj (n m : N) (rest1 rest2 : string) :
  (n < 100)%N -> (m < 100)%N ->
  zero_pad 2 n +:+ rest1 = zero_pad 2 m +:+ rest2 -> n = m /\ rest1 = rest2.
Proof.
  intros Hn Hm Heq.
  apply append_inj_length in Heq as [Heq ->];
    [|by rewrite !zero_pad_2_length].
  split; [by apply (zero_pad_inj 2) | done].
Qed.

Lemma strftime_id (t : datetime) :
  strftime t "%Y%m%d_%H%M%S" =
    zero_pad 4 (year t) +:+ zero_pad 2 (month t) +:+ zero_pad 2 (day t) +:+
    String "_" (zero_pad 2 (hour t) +:+ zero_pad 2 (minute t) +:+
                zero_pad 2 (second t) +:+ "").
Proof. reflexivity. Qed.

(** The text after the year has eleven characters. *)
Lemma strftime_id_tail_length (t : datetime) :
  in_range t ->
  String.length
    (zero_pad 2 (month t) +:+ zero_pad 2 (day t) +:+
     String "_" (zero_pad 2 (hour t) +:+ zero_pad 2 (minute t) +:+
                 zero_pad 2 (second t) +:+ "")) = 11.
Proof.
  intros (_ & Hm & Hd & HH & HM & HS).
  rewrite !length_append. cbn [String.length]. rewrite !length_append.
  rewrite !zero_pad_2_length by lia. reflexivity.
Qed.

(** X12. The id tells the second: for two submissions whose clock
    readings are in the ranges of [datetime], from the year 1000 on, equal
    ids mean readings within the same calendar second. *)
Theorem incident_id_tells_second (inp1 inp2 : Inputs UploadedFile) :
  in_range (in_now_id inp1) -> in_range (in_now_id inp2) ->
  submitted_id inp1 = submitted_id inp2 ->
  same_second (in_now_id inp1) (in_now_id inp2).
Proof.
  unfold submitted_id, same_second.
  generalize (in_now_id inp1), (in_now_id inp2). intros t1 t2 Ht1 Ht2 Hid.
  pose proof (strftime_id_tail_length t1 Ht1) as Htail1.
  pose proof (strftime_id_tail_length t2 Ht2) as Htail2.
  destruct Ht1 as (Hy1 & Hm1 & Hd1 & HH1 & HM1 & HS1).
  destruct Ht2 as (Hy2 & Hm2 & Hd2 & HH2 & HM2 & HS2).
  rewrite !strftime_id in Hid. rewrite !append_cons in Hid.
  injection Hid as Hid. rewrite !append_empty in Hid.
  assert (String.length (zero_pad 4 (year t1)) =
          String.length (zero_pad 4 (year t2))) as Hlen.
  { apply (f_equal String.length) in Hid.
    rewrite (length_append (zero_pad 4 (year t1))) in Hid.
    rewrite (length_append (zero_pad 4 (year t2))) in Hid.
    rewrite Htail1, Htail2 in Hid. lia. }
  apply append_inj_length in Hid as [Hy Hid]; [|exact Hlen].
  apply zero_pad_inj in Hy.
  apply zero_pad_2_inj in Hid as [Hm Hid]; [|lia|lia].
  apply zero_pad_2_inj in Hid as [Hd Hid]; [|lia|lia].
  injection Hid as Hid.
  apply zero_pad_2_inj in Hid as [HH Hid]; [|lia|lia].
  apply zero_pad_2_inj in Hid as [HM Hid]; [|lia|lia].
  apply zero_pad_2_inj in Hid as [HS _]; [|lia|lia].
  done.
Qed.

(** ** The history page *)

Lemma download_key_inj (id1 id2 : string) :
  "download_" +:+ id1 = "download_" +:+ id2 -> id1 = id2.
Proof. intros Heq. by apply (append_inj_length "download_" "download_") in Heq as [_ ?]. Qed.

Lemma download_key_seen (id : string) (seen : list string) :
  "download_" +:+ id ∈ map (fun id' => "download_" +:+ id') seen <-> id ∈ seen.
Proof.
  rewrite elem_of_map. split.
  - intros (id' & Heq & Hin). by rewrite (download_key_inj _ _ Heq).
  - intros Hin. by exists id.
Qed.

(** The loop over the shown incidents, with [seen] the ids that already
    have a download button: it goes through when the ids of the list are
    distinct and new, and else stops with the exception at the first
    incident whose id is not new, after the expander of that incident. *)
Lemma show_incidents_outcome (seen : list string) (shown : list Incident.t)
    (w : World) :
  (NoDup (map Incident.id shown) /\
   (forall i, i ∈ shown -> Incident.id i ∉ seen) /\
   show_incidents (map (fun id' => "download_" +:+ id') seen) shown w =
     (Ok tt, set_screen (screen w ++ map StExpander shown) w)) \/
  (exists (pre : list Incident.t) (i : Incident.t) (post : list Incident.t),
     shown = pre ++ i :: post /\
     NoDup (map Incident.id pre) /\
     (forall j, j ∈ pre -> Incident.id j ∉ seen) /\
     (Incident.id i ∈ seen \/ Incident.id i ∈ map Incident.id pre) /\
     show_incidents (map (fun id' => "download_" +:+ id') seen) shown w =
       (Raise "StreamlitDuplicateElementKey",
        set_screen (screen w ++ map StExpander (pre ++ [i])) w)).
Proof.
  revert seen w. induction shown as [|i rest IH]; intros seen w.
  { left. split; [constructor|]. split; [by intros i Hi%elem_of_nil|].
    destruct w. cbn. by rewrite app_nil_r. }
  cbn [show_incidents]. unfold mbind, M_bind, emit. cbn zeta.
  case_bool_decide as Hkey.
  { rewrite download_key_seen in Hkey.
    right. exists [], i, rest. split; [done|]. split; [constructor|].
    split; [by intros j Hj%elem_of_nil|]. split; [by left | done]. }
  rewrite download_key_seen in Hkey.
  change (("download_" +:+ Incident.id i) ::
          map (fun id' => "download_" +:+ id') seen)
    with (map (fun id' => "download_" +:+ id') (Incident.id i :: seen)).
  assert (forall l : list Incident.t,
            set_screen
              (screen (set_screen (screen w ++ [StExpander i]) w) ++
               map StExpander l)
              (set_screen (screen w ++ [StExpander i]) w) =
            set_screen (screen w ++ map StExpander (i :: l)) w) as Hscreen.
  { intros l. unfold set_screen. cbn. by rewrite <- app_assoc. }
  destruct (IH (Incident.id i :: seen) (set_screen (screen w ++ [StExpander i]) w))
    as [(Hnodup & Hnew & ->) | (pre & j & post & -> & Hnodup & Hnew & Hj & ->)].
  - left. split; [|split].
    + cbn [map]. constructor; [|done]. intros Hin.
      apply elem_of_map in Hin as (j & Hid & Hj).
      apply (Hnew j Hj). rewrite Hid. by left.
    + intros j Hj. apply elem_of_cons in Hj as [-> | Hj]; [done|].
      intros Hin. apply (Hnew j Hj). by right.
    + by rewrite Hscreen.
  - right. exists (i :: pre), j, post. split; [done|]. split; [|split; [|split]].
    + cbn [map]. constructor; [|done]. intros Hin.
      apply elem_of_map in Hin as (k & Hid & Hk).
      apply (Hnew k Hk). rewrite Hid. by left.
    + intros k Hk. apply elem_of_cons in Hk as [-> | Hk]; [done|].
      intros Hin. apply (Hnew k Hk). by right.
    + destruct Hj as [Hj | Hj]; [|right; by right].
      apply elem_of_cons in Hj as [-> | Hj]; [right; by left | by left].
    + by rewrite Hscreen.
Qed.

(** What the history page does to a session with its list: it announces
    the kept incidents and shows them, or stops at a repeated id. *)
Lemma main_history_outcome xs (w : World) (inp : Inputs UploadedFile) :
  ready xs w ->
  let shown :=
    filtered (in_filter_county inp) (in_filter_severity inp)
      (in_filter_status inp) xs in
  exists (r : Result unit) (w' : World),
    main_history inp w = (r, w') /\
    stable xs w' /\ analysis_results w' = analysis_results w /\
    match xs with
    | [] => r = Ok tt /\ screen w' = screen w
    | _ :: _ =>
        (NoDup (map Incident.id shown) /\ r = Ok tt /\
         screen w' = screen w ++ StShowing shown :: map StExpander shown) \/
        (exists (pre : list Incident.t) (i : Incident.t) (post : list Incident.t),
           shown = pre ++ i :: post /\
           NoDup (map Incident.id pre) /\
           Incident.id i ∈ map Incident.id pre /\
           r = Raise "StreamlitDuplicateElementKey" /\
           screen w' =
             screen w ++ StShowing shown :: map StExpander (pre ++ [i]))
    end.
Proof.
  intros Hw. cbn zeta. pose proof Hw as [[_ Hxs] [l0 Hl0]].
  unfold stored_incidents in Hxs. rewrite Hl0 in Hxs.
  unfold main_history, mbind, M_bind, session_incidents, items.
  rewrite Hl0, Hxs. destruct xs as [|x xs].
  { exists (Ok tt), w. destruct Hw as [Hst _].
    split; [reflexivity|]. split; [exact Hst|]. split; [reflexivity|]. by split. }
  assert (session_list (x :: xs) l0 (heap w) w) as Hsession by by split.
  pose proof (triple_apply_filters_at (x :: xs) l0 (heap w) (in_filter_county inp)
                (in_filter_severity inp) (in_filter_status inp) (fun _ => False)
                w Hsession) as Hfilters.
  pose proof (preserves_apply_filters screen (fun _ _ => eq_refl)
                (in_filter_county inp) (in_filter_severity inp)
                (in_filter_status inp) w) as Hscreen.
  pose proof (preserves_apply_filters analysis_results (fun _ _ => eq_refl)
                (in_filter_county inp) (in_filter_severity inp)
                (in_filter_status inp) w) as Hkept.
  destruct (apply_filters (in_filter_county inp) (in_filter_severity inp)
              (in_filter_status inp) w) as [[l|e] w3]; [|done].
  destruct Hfilters as [[([Hst _] & _ & _) Hl] _]. cbn [snd] in Hscreen, Hkept.
  unfold list_at in Hl. rewrite (lookup_total_correct _ _ _ Hl).
  unfold emit.
  set (shown := filtered (in_filter_county inp) (in_filter_severity inp)
                  (in_filter_status inp) (x :: xs)).
  destruct (show_incidents_outcome [] shown
              (set_screen (screen w3 ++ [StShowing shown]) w3))
    as [(Hnodup & _ & Hrun) | (pre & i & post & Hshown & Hnodup & _ & Hi & Hrun)];
    cbn [map] in Hrun; rewrite Hrun; eexists _, _; (split; [reflexivity|]);
    (split; [by apply stable_set_screen|]); (split; [done|]);
    cbn [screen set_screen]; rewrite Hscreen, <- app_assoc.
  - left. by repeat split.
  - right. exists pre, i, post. destruct Hi as [Hi%elem_of_nil | Hi]; [done|].
    by repeat split.
Qed.

(** X14. In a session that has run, a run on the history page leaves the
    stored incidents and the kept analysis as they are. It puts the
    elements of the loader on the page again, the error message of a
    failed load or nothing. When no incident is stored it shows nothing
    more and returns. Else it announces the stored incidents the three
    choices keep and shows them in an expander each, in order: all of them,
    and it returns, when their ids are distinct; and when an id repeats it
    stops with the exception [StreamlitDuplicateElementKey] at the first
    incident whose id has occurred before, after the expander of that
    incident. *)
Theorem history_page_shows_filtered (inp0 : Inputs UploadedFile)
    (inps : list (Inputs UploadedFile)) (inp : Inputs UploadedFile) :
  in_page inp = "📋 Incident History" ->
  let w := runs (inp0 :: inps) fresh_world in
  let shown :=
    filtered (in_filter_county inp) (in_filter_severity inp)
      (in_filter_status inp) (stored_incidents w) in
  stored_incidents (run w inp) = stored_incidents w /\
  analysis_results (run w inp) = analysis_results w /\
  match stored_incidents w with
  | [] =>
      fst (script inp w) = Ok tt /\
      screen (run w inp) = screen w ++ load_error
  | _ :: _ =>
      (NoDup (map Incident.id shown) /\
       fst (script inp w) = Ok tt /\
       screen (run w inp) =
         screen w ++ load_error ++ StShowing shown :: map StExpander shown) \/
      (exists (pre : list Incident.t) (i : Incident.t) (post : list Incident.t),
         shown = pre ++ i :: post /\
         NoDup (map Incident.id pre) /\
         Incident.id i ∈ map Incident.id pre /\
         fst (script inp w) = Raise "StreamlitDuplicateElementKey" /\
         screen (run w inp) =
           screen w ++ load_error ++
           StShowing shown :: map StExpander (pre ++ [i]))
  end.
Proof.
  intros Hpage. cbn zeta.
  destruct (reachable_stable (inp0 :: inps)) as (xs & Hw & _).
  pose proof Hw as [_ Hxs]. rewrite Hxs.
  destruct (reachable_models inp0 inps) as (Hcache & _ & Hreplay).
  destruct (script_steps xs _ inp Hw)
    as (models & w2 & Hscript & Hready & Hkept & _ & _ & Hscreen).
  rewrite Hreplay in Hscreen.
  specialize (Hscreen ltac:(rewrite Hcache; by eexists)).
  destruct (main_history_outcome xs w2 inp Hready)
    as (r & w3 & Hrun & [_ Hxs3] & Hkept3 & Houtcome).
  assert (script inp (runs (inp0 :: inps) fresh_world) = (r, w3)) as Hresult.
  { rewrite Hscript. unfold pages. destruct models as [od sa].
    rewrite Hpage.
    change ("📋 Incident History" =? "🚨 Report Incident")%string with false.
    change ("📋 Incident History" =? "📊 Dashboard")%string with false.
    change ("📋 Incident History" =? "🗺️ Incident Map")%string with false.
    change ("📋 Incident History" =? "📋 Incident History")%string with true.
    cbn iota. exact Hrun. }
  unfold run. rewrite Hresult. cbn [fst snd].
  split; [done|]. split; [congruence|].
  destruct xs as [|x xs].
  - destruct Houtcome as [-> ->]. by rewrite Hscreen.
  - destruct Houtcome
      as [(Hnodup & -> & ->) | (pre & i & post & Hshown & Hnodup & Hi & -> & ->)].
    + left. rewrite Hscreen, <- app_assoc. by repeat split.
    + right. exists pre, i, post. rewrite Hscreen, <- app_assoc. by repeat split.
Qed.

End App.

(** * Examples on concrete sessions *)

(** The example of the documentation: one item "rifle" with score 0.91. *)
Lemma detect_rifle_example :
  sample_detector ["rifle"] tt = Ok [sample_output "rifle"] /\
  exists emitted : list (list Detection.t),
    detect_weapons ascii_lower tt (Some (sample_detector ["rifle"])) fresh_world =
      (Ok (concat emitted), fresh_world) /\
    Forall2
      (fun result detections =>
         forall weapon : string,
           weapon ∈ ["gun"; "pistol"; "rifle"; "knife"; "stick"] ->
           exists found : Entry.t,
             WEAPON_SEVERITY !! weapon = Some found /\
             (contains weapon (ascii_lower (label result)) ->
              filter (fun d => Detection.weapon d = weapon) detections =
                [detection_of weapon found result]) /\
             (~ contains weapon (ascii_lower (label result)) ->
              filter (fun d => Detection.weapon d = weapon) detections = []))
      [sample_output "rifle"] emitted.
Proof.
  split; [reflexivity|].
  apply (detect_weapons_one_detection_per_keyword ascii_lower tt
           (sample_detector ["rifle"]) [sample_output "rifle"] fresh_world).
  reflexivity.
Defined.

(** C1 as stated fails: a label that contains "machete", "sword", "stone"
    or "club", keywords of the claim with a table entry, gives no
    Detection; so does the label "baseball bat"; and a label that contains
    two keywords gives two Detections for the one item. *)
Lemma detect_weapons_counterexample :
  let classify := fun labels : list string =>
    fst (detect_weapons ascii_lower tt (Some (sample_detector labels))
           (@fresh_world unit)) in
  (contains "machete" (ascii_lower "Machete") /\
   WEAPON_SEVERITY !! "machete" = Some (entry "SERIOUS" "🟡 Yellow" "Medium") /\
   classify ["Machete"] = Ok []) /\
  (contains "sword" (ascii_lower "sword") /\
   WEAPON_SEVERITY !! "sword" = Some (entry "SERIOUS" "🟡 Yellow" "Medium") /\
   classify ["sword"] = Ok []) /\
  (contains "stone" (ascii_lower "stone") /\
   WEAPON_SEVERITY !! "stone" = Some (entry "LOW" "🟢 Green" "Low") /\
   classify ["stone"] = Ok []) /\
  (contains "club" (ascii_lower "club") /\
   WEAPON_SEVERITY !! "club" = Some (entry "LOW" "🟢 Green" "Low") /\
   classify ["club"] = Ok []) /\
  (contains "baseball bat" (ascii_lower "baseball bat") /\
   WEAPON_SEVERITY !! "baseball bat" = None /\
   classify ["baseball bat"] = Ok []) /\
  (contains "gun" (ascii_lower "gun rifle") /\
   contains "rifle" (ascii_lower "gun rifle") /\
   classify ["gun rifle"] =
     Ok [detection_of "gun" (entry "SERIOUS-URGENT" "🔴 Red" "High")
           (sample_output "gun rifle");
         detection_of "rifle" (entry "SERIOUS-URGENT" "🔴 Red" "High")
           (sample_output "gun rifle")]).
Proof.
  cbn zeta. repeat split; try (by apply str_in_contains); reflexivity.
Qed.

(** The rifle of the example makes the list high-risk. *)
Lemma analyze_rifle_example :
  (exists d, d ∈ [sample_detection] /\ Detection.risk d = "High") /\
  analyze_threat_level [sample_detection] None =
    ("🔴 Red", "SERIOUS-URGENT",
     "Immediate action required - High-risk weapons detected").
Proof.
  assert (exists d, d ∈ [sample_detection] /\ Detection.risk d = "High") as Hhigh.
  { exists sample_detection. split; [apply list_elem_of_here | reflexivity]. }
  split; [exact Hhigh|].
  exact (analyze_threat_level_high [sample_detection] None Hhigh).
Defined.

(** A loader whose object-detection pipeline cannot be built. *)
Lemma load_models_failure_example :
  let broken : string -> Result (@Detector unit) := failing_pipeline in
  ((exists e, broken "facebook/detr-resnet-50" = Raise e) \/
   (exists e, sample_sentiment_pipeline
                "distilbert-base-uncased-finetuned-sst-2-english" = Raise e)) /\
  exists (e : Exception) (calls : list Effect),
    load_models broken sample_sentiment_pipeline fresh_world =
      (Ok (None, None),
       set_screen (screen (@fresh_world unit) ++ calls ++
                   [StError ("Error loading models: " +:+ e)]) fresh_world) /\
    ((broken "facebook/detr-resnet-50" = Raise e /\
      calls = [PipelineCall "object-detection" "facebook/detr-resnet-50"]) \/
     (sample_sentiment_pipeline
        "distilbert-base-uncased-finetuned-sst-2-english" = Raise e /\
      calls = [PipelineCall "object-detection" "facebook/detr-resnet-50";
               PipelineCall "sentiment-analysis"
                 "distilbert-base-uncased-finetuned-sst-2-english"])) /\
    (cache (@fresh_world unit) = None ->
     exists w1 w2,
       st_cache_resource (load_models broken sample_sentiment_pipeline) fresh_world =
         (Ok (None, None), w1) /\
       st_cache_resource (load_models broken sample_sentiment_pipeline) w1 =
         (Ok (None, None), w2) /\
       w2 = set_screen (screen w1 ++ [StError ("Error loading models: " +:+ e)]) w1 /\
       pipeline_calls w2 = pipeline_calls w1) /\
    (forall (image : unit) (w' : World),
       detect_weapons ascii_lower image None w' = (Ok [], w')).
Proof.
  cbn zeta.
  assert ((exists e, @failing_pipeline (@Detector unit) "facebook/detr-resnet-50" = Raise e) \/
          (exists e, sample_sentiment_pipeline
                       "distilbert-base-uncased-finetuned-sst-2-english" = Raise e))
    as Hfail by (left; exists "connection refused"; reflexivity).
  split; [exact Hfail|].
  exact (load_models_failure ascii_lower failing_pipeline sample_sentiment_pipeline
           fresh_world Hfail).
Defined.

(** Two rifles submitted, one in Nairobi and one in Kwale; the history
    page filtered by Nairobi. *)
Lemma filter_by_county_example :
  let session :=
    runs ascii_lower sample_open (sample_detection_pipeline ["rifle"])
      sample_sentiment_pipeline
      [click_analyze; click_submit nairobi (sample_clock 0 100);
       click_analyze; click_submit kwale (sample_clock 0 900)] fresh_world in
  let w :=
    run ascii_lower sample_open (sample_detection_pipeline ["rifle"])
      sample_sentiment_pipeline session (visit_history "Nairobi") in
  "Nairobi" <> "All" /\
  exists (l : positive) (w' : World) (shown : list Incident.t),
    apply_filters "Nairobi" "All" "All" w = (Ok l, w') /\
    heap w' !! l = Some shown /\
    shown = filter (fun i => Location.county (Incident.location i) = "Nairobi")
                   (stored_incidents w) /\
    (forall i, i ∈ shown <->
               i ∈ stored_incidents w /\
               Location.county (Incident.location i) = "Nairobi") /\
    shown `sublist_of` stored_incidents w.
Proof.
  cbn zeta.
  assert ("Nairobi" <> "All") as Hcounty by discriminate.
  split; [exact Hcounty|].
  exact (filter_by_county ascii_lower sample_open
           (sample_detection_pipeline ["rifle"]) sample_sentiment_pipeline
           [click_analyze; click_submit nairobi (sample_clock 0 100);
            click_analyze; click_submit kwale (sample_clock 0 900)]
           (visit_history "Nairobi") "Nairobi" Hcounty).
Defined.

(** Two rifles submitted within the second 09:05:00, at 100 and at 900
    microseconds: the two stored incidents have the same id. *)
Lemma same_second_same_id_example :
  let session := fun inps =>
    runs ascii_lower sample_open (sample_detection_pipeline ["rifle"])
      sample_sentiment_pipeline inps fresh_world in
  let after := fun w inp =>
    run ascii_lower sample_open (sample_detection_pipeline ["rifle"])
      sample_sentiment_pipeline w inp in
  let first := [click_analyze] in
  let second := [click_analyze; click_submit nairobi (sample_clock 0 100);
                 click_analyze] in
  stored_incidents (after (session first) (click_submit nairobi (sample_clock 0 100))) =
    stored_incidents (session first) ++ [sample_incident nairobi] /\
  stored_incidents (after (session second) (click_submit kwale (sample_clock 0 900))) =
    stored_incidents (session second) ++ [sample_incident kwale] /\
  stored_incidents (session second) = [sample_incident nairobi] /\
  same_second (sample_clock 0 100) (sample_clock 0 900) /\
  Incident.id (sample_incident nairobi) = Incident.id (sample_incident kwale).
Proof.
  cbn zeta.
  assert (stored_incidents
            (run ascii_lower sample_open (sample_detection_pipeline ["rifle"])
               sample_sentiment_pipeline
               (runs ascii_lower sample_open (sample_detection_pipeline ["rifle"])
                  sample_sentiment_pipeline [click_analyze] fresh_world)
               (click_submit nairobi (sample_clock 0 100))) =
          stored_incidents
            (runs ascii_lower sample_open (sample_detection_pipeline ["rifle"])
               sample_sentiment_pipeline [click_analyze] fresh_world) ++
          [sample_incident nairobi]) as Hfirst by (vm_compute; reflexivity).
  assert (stored_incidents
            (run ascii_lower sample_open (sample_detection_pipeline ["rifle"])
               sample_sentiment_pipeline
               (runs ascii_lower sample_open (sample_detection_pipeline ["rifle"])
                  sample_sentiment_pipeline
                  [click_analyze; click_submit nairobi (sample_clock 0 100);
                   click_analyze] fresh_world)
               (click_submit kwale (sample_clock 0 900))) =
          stored_incidents
            (runs ascii_lower sample_open (sample_detection_pipeline ["rifle"])
               sample_sentiment_pipeline
               [click_analyze; click_submit nairobi (sample_clock 0 100);
                click_analyze] fresh_world) ++
          [sample_incident kwale]) as Hsecond by (vm_compute; reflexivity).
  assert (same_second (sample_clock 0 100) (sample_clock 0 900)) as Hsame
    by (repeat split).
  split; [exact Hfirst|]. split; [exact Hsecond|].
  split; [vm_compute; reflexivity|]. split; [exact Hsame|].
  exact (proj2 (proj2
    (incident_id_of_submission_second ascii_lower sample_open
       (sample_detection_pipeline ["rifle"]) sample_sentiment_pipeline
       [click_analyze]
       [click_analyze; click_submit nairobi (sample_clock 0 100); click_analyze]
       (click_submit nairobi (sample_clock 0 100))
       (click_submit kwale (sample_clock 0 900))
       (sample_incident nairobi) (sample_incident kwale) Hfirst Hsecond)) Hsame).
Defined.

(** A detector that raises on every image. *)
Lemma detector_raises_example :
  let broken : unit -> Result (list DetectorOutput) :=
    fun _ => Raise "CUDA out of memory" in
  broken tt = Raise "CUDA out of memory" /\
  detect_weapons ascii_lower tt (Some broken) fresh_world =
    (Ok [],
     set_screen
       (screen (@fresh_world unit) ++
        [StError ("Error in weapon detection: " +:+ "CUDA out of memory")])
       fresh_world).
Proof.
  cbn zeta. split; [reflexivity|].
  apply (detect_weapons_detector_raises ascii_lower tt
           (fun _ => Raise "CUDA out of memory") "CUDA out of memory" fresh_world).
  reflexivity.
Defined.

(** A picture of a person with a walking stick and a kitchen knife: the
    knife decides. *)
Lemma knife_and_stick_example :
  sample_detector ["person"; "Walking Stick"; "Kitchen knife"] tt =
    Ok (map sample_output ["person"; "Walking Stick"; "Kitchen knife"]) /\
  exists detections : list Detection.t,
    detect_weapons ascii_lower tt
      (Some (sample_detector ["person"; "Walking Stick"; "Kitchen knife"]))
      (@fresh_world unit) = (Ok detections, fresh_world) /\
    analyze_threat_level detections (@None (string -> Result (list (string * float)))) =
      ("🟡 Yellow", "SERIOUS", "Caution advised - Medium-risk weapons detected").
Proof.
  split; [reflexivity|].
  exact (threat_level_of_labels ascii_lower tt
           (sample_detector ["person"; "Walking Stick"; "Kitchen knife"])
           (map sample_output ["person"; "Walking Stick"; "Kitchen knife"])
           None fresh_world eq_refl).
Defined.

(** A knife analysed after a visit of the history page, then submitted
    from Kwale at 09:05:07. *)
Lemma knife_report_example :
  let session :=
    runs ascii_lower sample_open (sample_detection_pipeline ["Kitchen knife"])
      sample_sentiment_pipeline [visit_history "All"] fresh_world in
  let after := fun w inp =>
    run ascii_lower sample_open (sample_detection_pipeline ["Kitchen knife"])
      sample_sentiment_pipeline w inp in
  let submit := click_submit kwale (sample_clock 7 0) in
  (in_analyze click_analyze = true /\ in_submit click_analyze = false) /\
  (in_analyze submit = false /\ in_submit submit = true) /\
  exists i : Incident.t,
    stored_incidents (after (after session click_analyze) submit) =
      stored_incidents session ++ [i] /\
    Incident.detected_weapons i =
      flat_map (item_detections ascii_lower) (map sample_output ["Kitchen knife"]) /\
    (Incident.alert_level i, Incident.severity i, Incident.risk_assessment i) =
      ("🟡 Yellow", "SERIOUS", "Caution advised - Medium-risk weapons detected") /\
    Incident.id i = "INC_20261103_090507" /\
    Incident.location i = kwale.
Proof.
  cbn zeta. split; [by split|]. split; [by split|].
  destruct (analysis_then_submission ascii_lower sample_open
              (sample_detection_pipeline ["Kitchen knife"]) sample_sentiment_pipeline
              [visit_history "All"] click_analyze
              (click_submit kwale (sample_clock 7 0)) tt tt
              (sample_detector ["Kitchen knife"]) (fun _ => Ok [])
              (map sample_output ["Kitchen knife"])
              eq_refl eq_refl (conj eq_refl eq_refl) (conj eq_refl eq_refl)
              eq_refl eq_refl (conj eq_refl eq_refl) (conj eq_refl eq_refl))
    as (i & Hstored & _ & Hweapons & Hlevel & Hid & _ & Hlocation & _).
  exists i. split; [exact Hstored|]. split; [exact Hweapons|].
  split; [exact Hlevel|]. split; [exact Hid | exact Hlocation].
Defined.

(** Two submissions with the same id, at 100 and at 900 microseconds of
    09:05:00. *)
Lemma id_tells_second_example :
  let first := click_submit nairobi (sample_clock 0 100) in
  let second := click_submit kwale (sample_clock 0 900) in
  in_range (in_now_id first) /\ in_range (in_now_id second) /\
  submitted_id first = submitted_id second /\
  same_second (in_now_id first) (in_now_id second).
Proof.
  cbn zeta.
  assert (in_range (sample_clock 0 100)) as Hfirst by (unfold in_range; cbn; lia).
  assert (in_range (sample_clock 0 900)) as Hsecond by (unfold in_range; cbn; lia).
  split; [exact Hfirst|]. split; [exact Hsecond|]. split; [reflexivity|].
  exact (incident_id_tells_second (click_submit nairobi (sample_clock 0 100))
           (click_submit kwale (sample_clock 0 900)) Hfirst Hsecond eq_refl).
Defined.

(** Two rifles submitted within the second 09:05:00, then the history
    page with no filter: the two incidents have the same id, and the page
    stops at the second one. *)
Lemma history_page_example :
  let session :=
    runs ascii_lower sample_open (sample_detection_pipeline ["rifle"])
      sample_sentiment_pipeline
      [click_analyze; click_submit nairobi (sample_clock 0 100);
       click_analyze; click_submit kwale (sample_clock 0 900)] fresh_world in
  let visit :=
    script ascii_lower sample_open (sample_detection_pipeline ["rifle"])
      sample_sentiment_pipeline (visit_history "All") session in
  in_page (visit_history "All") = "📋 Incident History" /\
  stored_incidents session = [sample_incident nairobi; sample_incident kwale] /\
  fst visit = Raise "StreamlitDuplicateElementKey" /\
  stored_incidents (snd visit) = stored_incidents session /\
  screen (snd visit) =
    screen session ++
    [StShowing [sample_incident nairobi; sample_incident kwale];
     StExpander (sample_incident nairobi); StExpander (sample_incident kwale)].
Proof.
  cbn zeta.
  destruct (history_page_shows_filtered ascii_lower sample_open
              (sample_detection_pipeline ["rifle"]) sample_sentiment_pipeline
              click_analyze
              [click_submit nairobi (sample_clock 0 100);
               click_analyze; click_submit kwale (sample_clock 0 900)]
              (visit_history "All") eq_refl) as (Hstored & _ & _).
  split; [reflexivity|]. split; [vm_compute; reflexivity|].
  split; [vm_compute; reflexivity|]. split; [exact Hstored|].
  vm_compute. reflexivity.
Defined.
